(** * EthBroadcaster: a shallow embedding of
      core/chains/evm/bulletprooftxmanager/eth_broadcaster.go

    The three tables the broadcaster works on ([eth_txes],
    [eth_tx_attempts], [eth_key_states]) are kept in an explicit store
    [DB] that every operation threads through.  Go's [error] results are
    [option string] ([None] is [nil]); [errors.Wrap] prefixes a message.
    Pointers that the Go code mutates in place ([etx *EthTx]) are returned
    next to the store. *)

From stdpp Require Import gmap strings list sorting pretty.
From Stdlib Require Import ZArith Lia.

Local Open Scope string_scope.
Local Open Scope Z_scope.

(** ** Results *)

(** [nil] is [None]. *)
Definition error := option string.

(** [errors.Wrap(err, msg)]: [nil] stays [nil]. *)
Definition Wrap (err : error) (msg : string) : error :=
  match err with
  | None => None
  | Some e => Some (msg +:+ ": " +:+ e)
  end.

(** A Go call either returns, or panics (a nil pointer dereference), or, in
    this model, asks the scripted RPC node for an answer the script does not
    have. *)
Inductive Run (A : Type) : Type :=
| Returns (a : A)
| Panics
| ScriptExhausted.
Arguments Returns {A} a.
Arguments Panics {A}.
Arguments ScriptExhausted {A}.

(** ** Data model *)

Inductive EthTxState : Type :=
| EthTxUnstarted
| EthTxInProgress
| EthTxFatalError
| EthTxUnconfirmed
| EthTxConfirmed
| EthTxConfirmedMissingReceipt.

Inductive EthTxAttemptState : Type :=
| EthTxAttemptInProgress
| EthTxAttemptInsufficientEth
| EthTxAttemptBroadcast.

#[global] Instance EthTxState_eq_dec : EqDecision EthTxState.
Proof. solve_decision. Defined.

#[global] Instance EthTxAttemptState_eq_dec : EqDecision EthTxAttemptState.
Proof. solve_decision. Defined.

(** Addresses, chain ids, uuids, hashes, 256-bit amounts and timestamps are
    integers; byte strings are lists of integers. *)
Module EthTxAttempt.
Record t : Type := mk {
  ID : Z;
  EthTxID : Z;
  GasPrice : option Z;
  GasTipCap : option Z;
  GasFeeCap : option Z;
  ChainSpecificGasLimit : Z;
  SignedRawTx : list Z;
  Hash : Z;
  State : EthTxAttemptState;
  TxType : Z
}.

Definition with_State (s : EthTxAttemptState) (a : t) : t :=
  mk (ID a) (EthTxID a) (GasPrice a) (GasTipCap a) (GasFeeCap a)
     (ChainSpecificGasLimit a) (SignedRawTx a) (Hash a) s (TxType a).

Definition with_ID (i : Z) (a : t) : t :=
  mk i (EthTxID a) (GasPrice a) (GasTipCap a) (GasFeeCap a)
     (ChainSpecificGasLimit a) (SignedRawTx a) (Hash a) (State a) (TxType a).
End EthTxAttempt.

Module EthTx.
Record t : Type := mk {
  ID : Z;
  Nonce : option Z;
  FromAddress : Z;
  ToAddress : Z;
  EncodedPayload : list Z;
  Value : Z;
  GasLimit : Z;
  Error : option string;
  BroadcastAt : option Z;
  CreatedAt : Z;
  State : EthTxState;
  EVMChainID : Z;
  Subject : option Z;
  PipelineTaskRunID : option Z;
  Simulate : bool;
  (* loaded by loadEthTxAttempts; not a column of eth_txes *)
  EthTxAttempts : list EthTxAttempt.t
}.

Definition with_State (s : EthTxState) (e : t) : t :=
  mk (ID e) (Nonce e) (FromAddress e) (ToAddress e) (EncodedPayload e)
     (Value e) (GasLimit e) (Error e) (BroadcastAt e) (CreatedAt e) s
     (EVMChainID e) (Subject e) (PipelineTaskRunID e) (Simulate e)
     (EthTxAttempts e).

Definition with_Nonce (n : option Z) (e : t) : t :=
  mk (ID e) n (FromAddress e) (ToAddress e) (EncodedPayload e)
     (Value e) (GasLimit e) (Error e) (BroadcastAt e) (CreatedAt e)
     (State e) (EVMChainID e) (Subject e) (PipelineTaskRunID e)
     (Simulate e) (EthTxAttempts e).

Definition with_Error (x : option string) (e : t) : t :=
  mk (ID e) (Nonce e) (FromAddress e) (ToAddress e) (EncodedPayload e)
     (Value e) (GasLimit e) x (BroadcastAt e) (CreatedAt e)
     (State e) (EVMChainID e) (Subject e) (PipelineTaskRunID e)
     (Simulate e) (EthTxAttempts e).

Definition with_BroadcastAt (b : option Z) (e : t) : t :=
  mk (ID e) (Nonce e) (FromAddress e) (ToAddress e) (EncodedPayload e)
     (Value e) (GasLimit e) (Error e) b (CreatedAt e)
     (State e) (EVMChainID e) (Subject e) (PipelineTaskRunID e)
     (Simulate e) (EthTxAttempts e).

Definition with_EthTxAttempts (l : list EthTxAttempt.t) (e : t) : t :=
  mk (ID e) (Nonce e) (FromAddress e) (ToAddress e) (EncodedPayload e)
     (Value e) (GasLimit e) (Error e) (BroadcastAt e) (CreatedAt e)
     (State e) (EVMChainID e) (Subject e) (PipelineTaskRunID e)
     (Simulate e) l.
End EthTx.

(** ** The store *)

(** [eth_key_states] has identity (address, evm_chain_id); the column of
    interest is next_nonce.  [eth_txes] and [eth_tx_attempts] are the rows in
    insertion order. *)
Record DB : Type := mkDB {
  eth_txes : list EthTx.t;
  eth_tx_attempts : list EthTxAttempt.t;
  eth_key_states : gmap (Z * Z) Z;
  (* the serial behind eth_tx_attempts.id *)
  eth_tx_attempts_id_seq : Z
}.

Definition with_eth_txes (l : list EthTx.t) (db : DB) : DB :=
  mkDB l (eth_tx_attempts db) (eth_key_states db) (eth_tx_attempts_id_seq db).

Definition with_eth_tx_attempts (l : list EthTxAttempt.t) (db : DB) : DB :=
  mkDB (eth_txes db) l (eth_key_states db) (eth_tx_attempts_id_seq db).

Definition with_eth_key_states (m : gmap (Z * Z) Z) (db : DB) : DB :=
  mkDB (eth_txes db) (eth_tx_attempts db) m (eth_tx_attempts_id_seq db).

(** [UPDATE t SET ... WHERE p]: every row that satisfies [p] is rewritten. *)
Definition update_where {A : Type} (p : A -> bool) (f : A -> A) (rows : list A) : list A :=
  map (fun r => if p r then f r else r) rows.

(** [... RETURNING *] read back with [tx.Get]: the first rewritten row, or
    sql.ErrNoRows ([None]) when the statement touched nothing. *)
Definition returning_first {A : Type} (p : A -> bool) (f : A -> A) (rows : list A) : option A :=
  f <$> find p rows.

(** [DELETE FROM t WHERE p]. *)
Definition delete_where {A : Type} (p : A -> bool) (rows : list A) : list A :=
  List.filter (fun r => negb (p r)) rows.

(** [q.Transaction(fn)]: the statements of [fn] are kept when it returns
    [nil] and rolled back otherwise.  What [fn] wrote through Go pointers
    (the value [a]) survives either way. *)
Definition Transaction {A : Type} (fn : DB -> Run (A * DB * error)) (db : DB) : Run (A * DB * error) :=
  match fn db with
  | Returns (a, db', None) => Returns (a, db', None)
  | Returns (a, _, Some e) => Returns (a, db, Some e)
  | Panics => Panics
  | ScriptExhausted => ScriptExhausted
  end.

(** ** Nonce bookkeeping *)

(** GetNextNonce returns keys.next_nonce for the given address; [q.Get]
    fails with sql.ErrNoRows when there is no such key. *)
Definition GetNextNonce (db : DB) (address chainID : Z) : Z * error :=
  match eth_key_states db !! (address, chainID) with
  | Some nonce => (nonce, None)
  | None => (0, Some "sql: no rows in result set")
  end.

(** The statement of IncrementNextNonce,
    UPDATE eth_key_states SET next_nonce = next_nonce + 1, updated_at = NOW()
    WHERE address = $1 AND next_nonce = $2 AND evm_chain_id = $3,
    with its [RowsAffected]. *)
Definition exec_increment_next_nonce (keys : gmap (Z * Z) Z) (address currentNonce chainID : Z)
  : gmap (Z * Z) Z * Z :=
  match keys !! (address, chainID) with
  | Some next_nonce =>
      if next_nonce =? currentNonce
      then (<[(address, chainID) := next_nonce + 1]> keys, 1)
      else (keys, 0)
  | None => (keys, 0)
  end.

Definition nonce_invariant_violation : string :=
  "invariant violation: could not increment nonce because no rows matched query. " +:+
  "Either the key is missing or the nonce has been modified by an external process. This is an unrecoverable error".

(** IncrementNextNonce increments keys.next_nonce by 1 *)
Definition IncrementNextNonce (db : DB) (address chainID currentNonce : Z) : DB * error :=
  let '(keys, rowsAffected) :=
    exec_increment_next_nonce (eth_key_states db) address currentNonce chainID in
  let db := with_eth_key_states keys db in
  if rowsAffected =? 0 then (db, Some nonce_invariant_violation)
  else (db, None).

(** ** Saving the outcome of a broadcast *)

Definition EthTxState_String (s : EthTxState) : string :=
  match s with
  | EthTxUnstarted => "unstarted"
  | EthTxInProgress => "in_progress"
  | EthTxFatalError => "fatal_error"
  | EthTxUnconfirmed => "unconfirmed"
  | EthTxConfirmed => "confirmed"
  | EthTxConfirmedMissingReceipt => "confirmed_missing_receipt"
  end.

Definition EthTxAttemptState_String (s : EthTxAttemptState) : string :=
  match s with
  | EthTxAttemptInProgress => "in_progress"
  | EthTxAttemptInsufficientEth => "insufficient_eth"
  | EthTxAttemptBroadcast => "broadcast"
  end.

Definition ErrNoRows : string := "sql: no rows in result set".

(** A callback handed to saveAttempt runs on the open transaction. *)
Definition Callback : Type := DB -> DB * error.

(** [for _, f := range callbacks]: stops at the first callback that fails. *)
Fixpoint run_callbacks (callbacks : list Callback) (tx : DB) : DB * error :=
  match callbacks with
  | [] => (tx, None)
  | f :: rest =>
      let '(tx, err) := f tx in
      match err with
      | Some _ => (tx, Wrap err "saveUnconfirmed failed")
      | None => run_callbacks rest tx
      end
  end.

(** [tx.Get(etx, `UPDATE eth_txes SET ... WHERE id = $n RETURNING *`)]: the
    columns of the returned row are scanned into [etx]; the attempts that
    were loaded on it stay. *)
Definition update_eth_tx (tx : DB) (etx : EthTx.t) (set : EthTx.t -> EthTx.t)
  : option (EthTx.t * DB) :=
  let this := fun r => EthTx.ID r =? EthTx.ID etx in
  match returning_first this set (eth_txes tx) with
  | None => None
  | Some row =>
      Some (EthTx.with_EthTxAttempts (EthTx.EthTxAttempts etx) row,
            with_eth_txes (update_where this set (eth_txes tx)) tx)
  end.

Definition update_eth_tx_attempt (tx : DB) (id : Z) (set : EthTxAttempt.t -> EthTxAttempt.t)
  : option (EthTxAttempt.t * DB) :=
  let this := fun r => EthTxAttempt.ID r =? id in
  match returning_first this set (eth_tx_attempts tx) with
  | None => None
  | Some row => Some (row, with_eth_tx_attempts (update_where this set (eth_tx_attempts tx)) tx)
  end.

Definition saveAttempt (q : DB) (etx : EthTx.t) (attempt : EthTxAttempt.t)
    (NewAttemptState : EthTxAttemptState) (callbacks : list Callback)
  : Run (EthTx.t * DB * error) :=
  if decide (EthTx.State etx <> EthTxInProgress) then
    Returns (etx, q, Some ("can only transition to unconfirmed from in_progress, transaction is currently "
                           +:+ EthTxState_String (EthTx.State etx)))
  else if decide (EthTxAttempt.State attempt <> EthTxAttemptInProgress) then
    Returns (etx, q, Some "attempt must be in in_progress state")
  else if negb (bool_decide (NewAttemptState = EthTxAttemptBroadcast)) then
    Returns (etx, q, Some ("new attempt state must be broadcast, got: "
                           +:+ EthTxAttemptState_String NewAttemptState))
  else
    let etx := EthTx.with_State EthTxUnconfirmed etx in
    let attempt := EthTxAttempt.with_State NewAttemptState attempt in
    Transaction (fun tx =>
      match EthTx.Nonce etx with
      | None => Panics
      | Some nonce =>
        let '(tx, err) :=
          IncrementNextNonce tx (EthTx.FromAddress etx) (EthTx.EVMChainID etx) nonce in
        match err with
        | Some _ => Returns (etx, tx, Wrap err "saveUnconfirmed failed")
        | None =>
          match update_eth_tx tx etx (fun r =>
                  EthTx.with_BroadcastAt (EthTx.BroadcastAt etx)
                    (EthTx.with_Error (EthTx.Error etx)
                       (EthTx.with_State (EthTx.State etx) r))) with
          | None => Returns (etx, tx, Wrap (Some ErrNoRows) "saveUnconfirmed failed to save eth_tx")
          | Some (etx, tx) =>
            match update_eth_tx_attempt tx (EthTxAttempt.ID attempt)
                    (EthTxAttempt.with_State (EthTxAttempt.State attempt)) with
            | None => Returns (etx, tx, Wrap (Some ErrNoRows) "saveUnconfirmed failed to save eth_tx_attempt")
            | Some (_, tx) =>
              let '(tx, err) := run_callbacks callbacks tx in
              Returns (etx, tx, err)
            end
          end
        end
      end) q.

(** ** Giving up on a transaction *)

(** What the pipeline runner's resume callback can answer. *)
Inductive ResumeError : Type :=
| ResumeErrNoRows
| ResumeFailed (msg : string).

(** The collaborators of the broadcaster: configuration, gas estimator, key
    store and pipeline resume callback.  An estimator or signing call answers
    with its values or with an error message. *)
Record Env : Type := mkEnv {
  chainID : Z;
  EvmEIP1559DynamicFees : bool;
  EvmMaxGasPriceWei : Z;
  EvmGasPriceDefault : Z;
  (* GetLegacyGas(payload, gasLimit, opts...): the flag is gas.OptForceRefetch *)
  GetLegacyGas : list Z -> Z -> bool -> (Z * Z) + string;
  (* BumpLegacyGas(attempt.GasPrice.ToInt(), gasLimit); the price may be nil *)
  BumpLegacyGas : option Z -> Z -> (Z * Z) + string;
  (* keystore.SignTx on the transaction built from etx, price and limit:
     hash and signed bytes *)
  SignTx : EthTx.t -> Z -> Z -> (Z * list Z) + string;
  (* resumeCallback(id, nil, err); None is a nil callback *)
  resumeCallback : option (Z -> string -> option ResumeError)
}.

(** NewEthBroadcaster returns a new concrete EthBroadcaster.  Its struct
    literal takes the chain id from the client and keeps the configuration,
    the key store and the estimator; it has no entry for resumeCallback, so
    that field keeps its zero value, nil, whatever callback is passed in. *)
Definition NewEthBroadcaster (ethClientChainID : Z)
    (configEvmEIP1559DynamicFees : bool)
    (configEvmMaxGasPriceWei configEvmGasPriceDefault : Z)
    (estimatorGetLegacyGas : list Z -> Z -> bool -> (Z * Z) + string)
    (estimatorBumpLegacyGas : option Z -> Z -> (Z * Z) + string)
    (keystoreSignTx : EthTx.t -> Z -> Z -> (Z * list Z) + string)
    (resumeCallback : option (Z -> string -> option ResumeError)) : Env :=
  mkEnv ethClientChainID
        configEvmEIP1559DynamicFees configEvmMaxGasPriceWei configEvmGasPriceDefault
        estimatorGetLegacyGas estimatorBumpLegacyGas keystoreSignTx
        None.

(** The first step of saveFatallyErroredTransaction, which is not part of
    its transaction: if the transaction belongs to a pipeline task run and
    there is a callback, the run is resumed with the error.  A callback that
    is missing or already resumed (sql.ErrNoRows) is let through; any other
    failure ends saveFatallyErroredTransaction. *)
Definition resume_pipeline (eb : Env) (etx : EthTx.t) (etxError : string) : error :=
  match EthTx.PipelineTaskRunID etx, resumeCallback eb with
  | Some uuid, Some callback =>
      match callback uuid ("fatal error while sending transaction: " +:+ etxError) with
      | None => None
      | Some ResumeErrNoRows => None
      | Some (ResumeFailed msg) => Wrap (Some msg) "failed to resume pipeline"
      end
  | _, _ => None
  end.

Definition saveFatallyErroredTransaction (eb : Env) (q : DB) (etx : EthTx.t)
  : Run (EthTx.t * DB * error) :=
  if decide (EthTx.State etx <> EthTxInProgress) then
    Returns (etx, q, Some ("can only transition to fatal_error from in_progress, transaction is currently "
                           +:+ EthTxState_String (EthTx.State etx)))
  else
    match EthTx.Error etx with
    | None => Returns (etx, q, Some "expected error field to be set")
    | Some etxError =>
      match resume_pipeline eb etx etxError with
      | Some failed => Returns (etx, q, Some failed)
      | None =>
        let etx := EthTx.with_Nonce None etx in
        let etx := EthTx.with_State EthTxFatalError etx in
        Transaction (fun tx =>
          let tx := with_eth_tx_attempts
                      (delete_where (fun a => EthTxAttempt.EthTxID a =? EthTx.ID etx)
                                    (eth_tx_attempts tx)) tx in
          match update_eth_tx tx etx (fun r =>
                  EthTx.with_Nonce None
                    (EthTx.with_BroadcastAt None
                       (EthTx.with_Error (EthTx.Error etx)
                          (EthTx.with_State (EthTx.State etx) r)))) with
          | None => Returns (etx, tx, Wrap (Some ErrNoRows) "saveFatallyErroredTransaction failed to save eth_tx")
          | Some (etx, tx) => Returns (etx, tx, None)
          end) q
      end
    end.

(** ** The node's answers *)

(** Modelled from the spec: evmclient.SendError and its predicates are not
    part of these sources.  The classifier of section 4.2 is a pure function of the
    raw RPC error, so a send error is kept as the answers of its predicates
    plus its message; a single raw error may satisfy several of them, which
    is why the order of the tests in handleInProgressEthTx matters. *)
Module SendError.
Record t : Type := mk {
  IsTooExpensive : bool;
  Fatal : bool;
  IsNonceTooLowError : bool;
  IsReplacementUnderpriced : bool;
  IsTerminallyUnderpriced : bool;
  IsFeeTooLow : bool;
  IsFeeTooHigh : bool;
  IsTemporarilyUnderpriced : bool;
  IsInsufficientEth : bool;
  Error : string
}.
End SendError.

(** Every predicate answers false on a nil *SendError. *)
Definition answers (p : SendError.t -> bool) (sendError : option SendError.t) : bool :=
  match sendError with
  | Some e => p e
  | None => false
  end.

Definition SendError_Error (sendError : option SendError.t) : string :=
  match sendError with
  | Some e => SendError.Error e
  | None => ""
  end.

(** simulateTransaction: the call went through, or the node answered with a
    JSON-RPC error (ExtractRPCError finds one: a revert), or it failed some
    other way. *)
Inductive Simulation : Type :=
| SimulationSucceeded
| SimulationReverted (jErr : string)
| SimulationFailed.

(** One round with the node: what simulateTransaction and sendTransaction
    answer for the attempt at hand.  A run of the broadcaster is driven by
    the list of rounds the node will play. *)
Record Round : Type := mkRound {
  simulateTransaction : Simulation;
  sendTransaction : option SendError.t
}.

(** ** Building and replacing attempts *)

Definition no_attempt : EthTxAttempt.t :=
  EthTxAttempt.mk 0 0 None None None 0 [] 0 EthTxAttemptInProgress 0.

(** Modelled from the spec: NewLegacyAttempt (the Attempt Builder of section 4.3)
    is not part of these sources.  Given an EthTx and a fee choice it
    produces a signed attempt with state in_progress; the legacy variant has
    tx_type 0x0 and uses gas_price.  Signing is the key store's. *)
Definition NewLegacyAttempt (eb : Env) (etx : EthTx.t) (gasPrice gasLimit : Z)
  : EthTxAttempt.t * error :=
  match SignTx eb etx gasPrice gasLimit with
  | inr err => (no_attempt, Some err)
  | inl (hash, signedTxBytes) =>
      (EthTxAttempt.mk 0 (EthTx.ID etx) (Some gasPrice) None None gasLimit
                       signedTxBytes hash EthTxAttemptInProgress 0,
       None)
  end.

(** Modelled from the spec: saveReplacementInProgressAttempt is not part of
    these sources.  save_replacement_attempt(old, new) atomically replaces
    the single in_progress attempt with the new signed attempt and leaves the
    EthTx as it is; the new row gets the next id of the table's serial. *)
Definition saveReplacementInProgressAttempt (q : DB) (oldAttempt replacementAttempt : EthTxAttempt.t)
  : EthTxAttempt.t * DB * error :=
  let id := eth_tx_attempts_id_seq q + 1 in
  let replacementAttempt := EthTxAttempt.with_ID id replacementAttempt in
  (replacementAttempt,
   mkDB (eth_txes q)
        (delete_where (fun a => EthTxAttempt.ID a =? EthTxAttempt.ID oldAttempt)
                      (eth_tx_attempts q) ++ [replacementAttempt])
        (eth_key_states q)
        id,
   None).

(** ** Finishing an in_progress transaction *)

Definition bump_unsupported : string :=
  "bumping gas on initial send is not supported for EIP-1559 transactions".

Definition bump_ceiling : string :=
  "Hit gas price bump ceiling, will not bump further. This is a terminal error".

(** The three retry helpers end in a call back into handleInProgressEthTx;
    [again] is that call, already given the answers the node has left. *)
Definition tryAgainWithNewGas (eb : Env)
    (again : DB -> EthTx.t -> EthTxAttempt.t -> Z -> Run (DB * error))
    (q : DB) (etx : EthTx.t) (attempt : EthTxAttempt.t) (initialBroadcastAt : Z)
    (newGasPrice newGasLimit : Z) : Run (DB * error) :=
  let '(replacementAttempt, err) := NewLegacyAttempt eb etx newGasPrice newGasLimit in
  match err with
  | Some _ => Returns (q, Wrap err "tryAgainWithHigherGasPrice failed")
  | None =>
    let '(replacementAttempt, q, err) :=
      saveReplacementInProgressAttempt q attempt replacementAttempt in
    match err with
    | Some _ => Returns (q, Wrap err "tryAgainWithHigherGasPrice failed")
    | None => again q etx replacementAttempt initialBroadcastAt
    end
  end.

Definition tryAgainBumpingGas (eb : Env)
    (again : DB -> EthTx.t -> EthTxAttempt.t -> Z -> Run (DB * error))
    (q : DB) (sendError : option SendError.t)
    (etx : EthTx.t) (attempt : EthTxAttempt.t) (initialBroadcastAt : Z) : Run (DB * error) :=
  if EthTxAttempt.TxType attempt =? 2 then
    Returns (q, Some bump_unsupported)
  else
    match BumpLegacyGas eb (EthTxAttempt.GasPrice attempt) (EthTx.GasLimit etx) with
    | inr err => Returns (q, Wrap (Some err) "tryAgainWithHigherGasPrice failed")
    | inl (bumpedGasPrice, bumpedGasLimit) =>
      match EthTxAttempt.GasPrice attempt with
      | None => Panics (* bumpedGasPrice.Cmp(nil) *)
      | Some attemptGasPrice =>
        if (bumpedGasPrice =? attemptGasPrice) && (bumpedGasPrice =? EvmMaxGasPriceWei eb) then
          Returns (q, Some bump_ceiling)
        else
          tryAgainWithNewGas eb again q etx attempt initialBroadcastAt bumpedGasPrice bumpedGasLimit
      end
    end.

Definition tryAgainWithNewEstimation (eb : Env)
    (again : DB -> EthTx.t -> EthTxAttempt.t -> Z -> Run (DB * error))
    (q : DB) (sendError : option SendError.t)
    (etx : EthTx.t) (attempt : EthTxAttempt.t) (initialBroadcastAt : Z) : Run (DB * error) :=
  match GetLegacyGas eb (EthTx.EncodedPayload etx) (EthTx.GasLimit etx) true with
  | inr err => Returns (q, Wrap (Some err) "tryAgainWithNewEstimation failed to estimate gas")
  | inl (gasPrice, gasLimit) =>
      tryAgainWithNewGas eb again q etx attempt initialBroadcastAt gasPrice gasLimit
  end.

(** The caller of a save only keeps the error. *)
Definition saved (r : Run (EthTx.t * DB * error)) : Run (DB * error) :=
  match r with
  | Returns (_, q, err) => Returns (q, err)
  | Panics => Panics
  | ScriptExhausted => ScriptExhausted
  end.

(** There can be at most one in_progress transaction per address.
    Here we complete the job that we didn't finish last time. *)
Fixpoint handleInProgressEthTx (eb : Env) (node : list Round) (q : DB)
    (etx : EthTx.t) (attempt : EthTxAttempt.t) (initialBroadcastAt : Z)
    {struct node} : Run (DB * error) :=
  if decide (EthTx.State etx <> EthTxInProgress) then
    Returns (q, Some ("invariant violation: expected transaction " +:+ pretty (EthTx.ID etx)
                      +:+ " to be in_progress, it was " +:+ EthTxState_String (EthTx.State etx)))
  else
    match node with
    | [] => ScriptExhausted
    | round :: node =>
      let reverted : option string :=
        if EthTx.Simulate etx then
          match simulateTransaction round with
          | SimulationReverted jErr => Some jErr
          | _ => None
          end
        else None in
      match reverted with
      | Some jErr =>
          let etx := EthTx.with_Error
                       (Some ("transaction reverted during simulation: " +:+ jErr)) etx in
          saved (saveFatallyErroredTransaction eb q etx)
      | None =>
        let sendError := sendTransaction round in
        if answers SendError.IsTooExpensive sendError then
          let etx := EthTx.with_Error (Some (SendError_Error sendError)) etx in
          (* Attempt is thrown away in this case *)
          saved (saveFatallyErroredTransaction eb q etx)
        else if answers SendError.Fatal sendError then
          let etx := EthTx.with_Error (Some (SendError_Error sendError)) etx in
          saved (saveFatallyErroredTransaction eb q etx)
        else
          let etx := EthTx.with_BroadcastAt (Some initialBroadcastAt) etx in
          let sendError :=
            if answers SendError.IsNonceTooLowError sendError
               || answers SendError.IsReplacementUnderpriced sendError
            then None else sendError in
          if answers SendError.IsTerminallyUnderpriced sendError then
            tryAgainBumpingGas eb (handleInProgressEthTx eb node) q sendError
                               etx attempt initialBroadcastAt
          else if answers SendError.IsFeeTooLow sendError || answers SendError.IsFeeTooHigh sendError then
            tryAgainWithNewEstimation eb (handleInProgressEthTx eb node) q sendError
                                      etx attempt initialBroadcastAt
          else
            let sendError :=
              if answers SendError.IsTemporarilyUnderpriced sendError then None else sendError in
            if answers SendError.IsInsufficientEth sendError then
              Returns (q, Some (SendError_Error sendError))
            else
              match sendError with
              | None => saved (saveAttempt q etx attempt EthTxAttemptBroadcast [])
              | Some e =>
                  Returns (q, Wrap (Some (SendError.Error e))
                                   ("error while sending transaction " +:+ pretty (EthTx.ID etx)))
              end
      end
    end.

(** ** Resuming after a crash *)

(** Modelled from the spec: loadEthTxAttempts is not part of these sources.
    The attempts of an EthTx are loaded as a separate collection owned by the
    parent: the rows of eth_tx_attempts whose eth_tx_id is the parent's id. *)
Definition loadEthTxAttempts (q : DB) (etx : EthTx.t) : EthTx.t * error :=
  (EthTx.with_EthTxAttempts
     (List.filter (fun a => EthTxAttempt.EthTxID a =? EthTx.ID etx) (eth_tx_attempts q)) etx,
   None).

(** getInProgressEthTx returns either 0 or 1 transaction that was left in
    an unfinished state because something went screwy the last time. *)
Definition getInProgressEthTx (q : DB) (fromAddress : Z) : option EthTx.t * error :=
  match find (fun r => (EthTx.FromAddress r =? fromAddress)
                       && bool_decide (EthTx.State r = EthTxInProgress)) (eth_txes q) with
  | None => (None, None)
  | Some etx =>
    let '(etx, err) := loadEthTxAttempts q etx in
    match err with
    | Some _ => (None, Wrap err "getInProgressEthTx failed while loading EthTxAttempts")
    | None =>
      let violation : error :=
        Some ("invariant violation: expected in_progress transaction "
              +:+ pretty (EthTx.ID etx) +:+ " to have exactly one unsent attempt. "
              +:+ "Your database is in an inconsistent state and this node will not function correctly until the problem is resolved") in
      (* len(etx.EthTxAttempts) != 1 || etx.EthTxAttempts[0].State != EthTxAttemptInProgress *)
      match EthTx.EthTxAttempts etx with
      | [a] =>
          if decide (EthTxAttempt.State a <> EthTxAttemptInProgress)
          then (None, violation)
          else (Some etx, None)
      | _ => (None, violation)
      end
    end
  end.

(** handleAnyInProgressEthTx checks if there is any transaction in_progress
    and if so, finishes the job.  [ctxErr] tells whether the context has been
    cancelled by the time getInProgressEthTx is back. *)
Definition handleAnyInProgressEthTx (eb : Env) (node : list Round) (ctxErr : bool)
    (q : DB) (fromAddress : Z) : Run (DB * error) :=
  let '(etx, err) := getInProgressEthTx q fromAddress in
  if ctxErr then Returns (q, None)
  else
    match err with
    | Some _ => Returns (q, Wrap err "handleAnyInProgressEthTx failed")
    | None =>
      match etx with
      | None => Returns (q, None)
      | Some etx =>
        match EthTx.EthTxAttempts etx with
        | [] => Panics
        | attempt0 :: _ =>
          match handleInProgressEthTx eb node q etx attempt0 (EthTx.CreatedAt etx) with
          | Returns (q, err) => Returns (q, Wrap err "handleAnyInProgressEthTx failed")
          | Panics => Panics
          | ScriptExhausted => ScriptExhausted
          end
        end
      end
    end.

(** ** Picking the next transaction *)

(** [ORDER BY value ASC, created_at ASC, id ASC]: does row [a] come no later
    than row [b]? *)
Definition unstarted_order (a b : EthTx.t) : bool :=
  (EthTx.Value a <? EthTx.Value b)
  || ((EthTx.Value a =? EthTx.Value b)
      && ((EthTx.CreatedAt a <? EthTx.CreatedAt b)
          || ((EthTx.CreatedAt a =? EthTx.CreatedAt b)
              && (EthTx.ID a <=? EthTx.ID b)))).

(** [ORDER BY]: the rows, sorted by [le]. *)
Fixpoint place {A : Type} (le : A -> A -> bool) (x : A) (sorted : list A) : list A :=
  match sorted with
  | [] => [x]
  | y :: rest => if le x y then x :: y :: rest else y :: place le x rest
  end.

Definition order_by {A : Type} (le : A -> A -> bool) (rows : list A) : list A :=
  foldr (place le) [] rows.

(** Finds earliest saved transaction that has yet to be broadcast from the
    given address:
    SELECT * FROM eth_txes WHERE from_address = $1 AND state = 'unstarted'
    AND evm_chain_id = $2 ORDER BY value ASC, created_at ASC, id ASC,
    of which [db.Get] keeps the first row; [None] is sql.ErrNoRows. *)
Definition findNextUnstartedTransactionFromAddress (db : DB) (fromAddress chainID : Z)
  : option EthTx.t :=
  head (order_by unstarted_order
          (List.filter (fun r => (EthTx.FromAddress r =? fromAddress)
                                 && bool_decide (EthTx.State r = EthTxUnstarted)
                                 && (EthTx.EVMChainID r =? chainID))
                       (eth_txes db))).

(** Finds next transaction in the queue, assigns a nonce, and moves it to
    "in_progress" state ready for broadcast.
    Returns nil if no transactions are in queue *)
Definition nextUnstartedTransactionWithNonce (eb : Env) (db : DB) (fromAddress : Z)
  : option EthTx.t * error :=
  match findNextUnstartedTransactionFromAddress db fromAddress (chainID eb) with
  | None =>
      (* Finish. No more transactions left to process. Hoorah! *)
      (None, None)
  | Some etx =>
    let '(nonce, err) := GetNextNonce db (EthTx.FromAddress etx) (chainID eb) in
    match err with
    | Some _ => (None, err)
    | None => (Some (EthTx.with_Nonce (Some nonce) etx), None)
    end
  end.

(** ** Queueing strategies *)

(** Modelled from the spec: DropOldestStrategy.PruneQueue is not part of
    these sources (only its test is).  DropOldest(subject, queueSize,
    simulate) deletes all unstarted rows for that subject beyond the
    queueSize newest (ordered by id DESC); from-address is ignored; it
    returns the count deleted. *)
Module DropOldestStrategy.
Record t : Type := mk {
  subject : Z;
  queueSize : nat;
  simulate : bool
}.

Definition Subject (s : t) : option Z := Some (subject s).
Definition Simulate (s : t) : bool := simulate s.

(** the unstarted rows that carry the subject *)
Definition queued (s : t) (r : EthTx.t) : bool :=
  bool_decide (EthTx.State r = EthTxUnstarted)
  && bool_decide (EthTx.Subject r = Some (subject s)).

(** newest first *)
Definition newer (a b : EthTx.t) : bool := EthTx.ID b <=? EthTx.ID a.

(** the ids of the queued rows beyond the queueSize newest *)
Definition beyond (s : t) (rows : list EthTx.t) : list Z :=
  map EthTx.ID (drop (queueSize s) (order_by newer (List.filter (queued s) rows))).

Definition doomed (s : t) (rows : list EthTx.t) (r : EthTx.t) : bool :=
  queued s r && bool_decide (EthTx.ID r ∈ beyond s rows).

(** the queue of the subject, newest first *)
Definition queue (s : t) (rows : list EthTx.t) : list EthTx.t :=
  order_by newer (List.filter (queued s) rows).

(** the queueSize newest rows of the queue *)
Definition newest (s : t) (rows : list EthTx.t) : list EthTx.t :=
  take (queueSize s) (queue s rows).

Definition PruneQueue (s : t) (q : DB) : Z * DB * error :=
  let rows := eth_txes q in
  (Z.of_nat (length (List.filter (doomed s rows) rows)),
   with_eth_txes (delete_where (doomed s rows) rows) q,
   None).
End DropOldestStrategy.

Definition NewDropOldestStrategy (subject : Z) (queueSize : nat) (simulate : bool)
  : DropOldestStrategy.t :=
  DropOldestStrategy.mk subject queueSize simulate.

(** * Vocabulary of the properties *)

(** The callbacks that ran, in order, each returning nil. *)
Inductive ran_all : list Callback -> DB -> DB -> Prop :=
| ran_none (tx : DB) : ran_all [] tx tx
| ran_next (f : Callback) (rest : list Callback) (tx tx1 tx' : DB) :
    f tx = (tx1, None) -> ran_all rest tx1 tx' -> ran_all (f :: rest) tx tx'.

(** The callbacks ran, in order, up to the first one that returned an
    error, [e]. *)
Inductive ran_until_failure : list Callback -> DB -> string -> Prop :=
| failure_first (f : Callback) (rest : list Callback) (tx tx1 : DB) (e : string) :
    f tx = (tx1, Some e) -> ran_until_failure (f :: rest) tx e
| failure_later (f : Callback) (rest : list Callback) (tx tx1 : DB) (e : string) :
    f tx = (tx1, None) -> ran_until_failure rest tx1 e ->
    ran_until_failure (f :: rest) tx e.

(** The store after a successful save_broadcast, before any callback runs. *)
Definition broadcast_saved (q : DB) (etx : EthTx.t) (attempt : EthTxAttempt.t) (nonce : Z) : DB :=
  mkDB
    (update_where (fun r => EthTx.ID r =? EthTx.ID etx)
       (fun r => EthTx.with_BroadcastAt (EthTx.BroadcastAt etx)
                   (EthTx.with_Error (EthTx.Error etx)
                      (EthTx.with_State EthTxUnconfirmed r)))
       (eth_txes q))
    (update_where (fun a => EthTxAttempt.ID a =? EthTxAttempt.ID attempt)
       (EthTxAttempt.with_State EthTxAttemptBroadcast)
       (eth_tx_attempts q))
    (<[(EthTx.FromAddress etx, EthTx.EVMChainID etx) := nonce + 1]> (eth_key_states q))
    (eth_tx_attempts_id_seq q).

(** ORDER BY value ASC, created_at ASC, id ASC, spelled out. *)
Definition value_created_at_id_le (a b : EthTx.t) : Prop :=
  EthTx.Value a < EthTx.Value b
  \/ (EthTx.Value a = EthTx.Value b
      /\ (EthTx.CreatedAt a < EthTx.CreatedAt b
          \/ (EthTx.CreatedAt a = EthTx.CreatedAt b /\ EthTx.ID a <= EthTx.ID b))).

(** The unstarted rows of an address on a chain. *)
Definition unstarted_rows (db : DB) (fromAddress chainID : Z) : list EthTx.t :=
  List.filter (fun r => (EthTx.FromAddress r =? fromAddress)
                        && bool_decide (EthTx.State r = EthTxUnstarted)
                        && (EthTx.EVMChainID r =? chainID))
              (eth_txes db).

(** The node was asked to send, i.e. a requested simulation did not end
    the call first. *)
Definition sent (etx : EthTx.t) (round : Round) : Prop :=
  EthTx.Simulate etx = true -> forall jErr, simulateTransaction round <> SimulationReverted jErr.

(** A send error that the tests ahead of the NonceTooLow test let through. *)
Definition neither_too_expensive_nor_fatal (e : SendError.t) : Prop :=
  SendError.IsTooExpensive e = false /\ SendError.Fatal e = false.

Definition wrapped (r : Run (DB * error)) (msg : string) : Run (DB * error) :=
  match r with
  | Returns (q, err) => Returns (q, Wrap err msg)
  | Panics => Panics
  | ScriptExhausted => ScriptExhausted
  end.

(** The claim that C5 makes, as it is stated: a resumed transaction that
    goes on to be saved as broadcast keeps the broadcast_at its row had. *)
Definition resume_keeps_broadcast_at : Prop :=
  forall (eb : Env) (round : Round) (node : list Round) (q q' : DB)
         (fromAddress : Z) (etx : EthTx.t),
    getInProgressEthTx q fromAddress = (Some etx, None) ->
    sendTransaction round = None ->
    handleAnyInProgressEthTx eb (round :: node) false q fromAddress = Returns (q', None) ->
    forall r, r ∈ eth_txes q' -> EthTx.ID r = EthTx.ID etx ->
              EthTx.BroadcastAt r = EthTx.BroadcastAt etx.

(** The store after a transaction was saved as fatally errored. *)
Definition fatal_saved (q : DB) (etx : EthTx.t) : DB :=
  mkDB
    (update_where (fun r => EthTx.ID r =? EthTx.ID etx)
       (fun r => EthTx.with_Nonce None
                   (EthTx.with_BroadcastAt None
                      (EthTx.with_Error (EthTx.Error etx)
                         (EthTx.with_State EthTxFatalError r))))
       (eth_txes q))
    (delete_where (fun a => EthTxAttempt.EthTxID a =? EthTx.ID etx) (eth_tx_attempts q))
    (eth_key_states q)
    (eth_tx_attempts_id_seq q).

(** A send error that reaches the TerminallyUnderpriced test and passes it. *)
Definition terminally_underpriced (e : SendError.t) : Prop :=
  neither_too_expensive_nor_fatal e
  /\ SendError.IsNonceTooLowError e = false
  /\ SendError.IsReplacementUnderpriced e = false
  /\ SendError.IsTerminallyUnderpriced e = true.

(** A send error that reaches the FeeTooLow / FeeTooHigh test and passes it. *)
Definition fee_too_low_or_high (e : SendError.t) : Prop :=
  neither_too_expensive_nor_fatal e
  /\ SendError.IsNonceTooLowError e = false
  /\ SendError.IsReplacementUnderpriced e = false
  /\ SendError.IsTerminallyUnderpriced e = false
  /\ (SendError.IsFeeTooLow e = true \/ SendError.IsFeeTooHigh e = true).

(** The legacy attempt that replaces the attempt at hand. *)
Definition legacy_replacement (q : DB) (etx : EthTx.t) (gasPrice gasLimit hash : Z)
    (signedTxBytes : list Z) : EthTxAttempt.t :=
  EthTxAttempt.mk (eth_tx_attempts_id_seq q + 1) (EthTx.ID etx) (Some gasPrice) None None
                  gasLimit signedTxBytes hash EthTxAttemptInProgress 0.

(** The store once [replacement] took the place of [attempt]. *)
Definition replaced (q : DB) (attempt replacement : EthTxAttempt.t) : DB :=
  mkDB (eth_txes q)
       (delete_where (fun a => EthTxAttempt.ID a =? EthTxAttempt.ID attempt)
                     (eth_tx_attempts q) ++ [replacement])
       (eth_key_states q)
       (eth_tx_attempts_id_seq q + 1).

(** * Sample stores *)

Definition sample_eth_tx (id fromAddress value createdAt : Z) (state : EthTxState)
    (nonce subject : option Z) : EthTx.t :=
  EthTx.mk id nonce fromAddress 99 [] value 21000 None None createdAt state 1 subject
           None false [].

Definition sample_attempt (id ethTxID gasPrice : Z) (txType : Z) : EthTxAttempt.t :=
  EthTxAttempt.mk id ethTxID (Some gasPrice) None None 21000 [1; 2] 7
                  EthTxAttemptInProgress txType.

(** EIP-1559 fees are switched on; a bump adds 20 wei up to the ceiling. *)
Definition sample_env : Env :=
  mkEnv 1 true 500 20
        (fun _ gasLimit _ => inl (100, gasLimit))
        (fun gasPrice gasLimit =>
           match gasPrice with
           | Some p => inl (Z.min (p + 20) 500, gasLimit)
           | None => inr "nil gas price"
           end)
        (fun _ _ _ => inl (7, [1; 2]))
        None.

(** A pipeline runner that cannot resume, as a callback to hand to
    NewEthBroadcaster. *)
Definition resume_down : Z -> string -> option ResumeError :=
  fun _ _ => Some (ResumeFailed "pipeline runner is down").

(** Crash recovery: one in_progress transaction with nonce 3, created at
    time 100 and never broadcast, its attempt, and next_nonce = 3. *)
Definition in_progress_row : EthTx.t :=
  sample_eth_tx 1 10 0 100 EthTxInProgress (Some 3) None.

Definition in_progress_attempt : EthTxAttempt.t := sample_attempt 1 1 100 0.

Definition sample_store : DB :=
  mkDB [in_progress_row] [in_progress_attempt] {[ (10, 1) := 3 ]} 1.

(** The same row as handleInProgressEthTx hands it to saveAttempt, with the
    time of the broadcast set. *)
Definition sent_row : EthTx.t := EthTx.with_BroadcastAt (Some 100) in_progress_row.

(** Two callbacks: one writes a next_nonce for another address on the open
    transaction, the other fails. *)
Definition register_key : Callback :=
  fun tx => (with_eth_key_states (<[(11, 1) := 0]> (eth_key_states tx)) tx, None).

Definition failing_callback : Callback :=
  fun tx => (tx, Some "callback failed").

Definition resumed_eth_tx : EthTx.t :=
  EthTx.with_EthTxAttempts [in_progress_attempt] in_progress_row.

(** The same transaction as part of a pipeline task run, about to be given
    up on. *)
Definition pipeline_eth_tx : EthTx.t :=
  EthTx.mk 1 (Some 3) 10 99 [] 0 21000 (Some "tx fee cap exceeded") None 100
           EthTxInProgress 1 None (Some 77) false [].

Definition accepted : Round := mkRound SimulationSucceeded None.

Definition nonce_too_low : Round :=
  mkRound SimulationSucceeded
    (Some (SendError.mk false false true false false false false false false "nonce too low")).

Definition underpriced : Round :=
  mkRound SimulationSucceeded
    (Some (SendError.mk false false false false true false false false false
                        "transaction underpriced")).

Definition fee_too_low : Round :=
  mkRound SimulationSucceeded
    (Some (SendError.mk false false false false false true false false false "fee too low")).

(** Three unstarted transactions of address 10 (and one of address 11)
    behind a confirmed one. *)
Definition unstarted_store : DB :=
  mkDB [sample_eth_tx 1 10 0 1 EthTxConfirmed (Some 2) None;
        sample_eth_tx 2 10 7 2 EthTxUnstarted None None;
        sample_eth_tx 3 10 0 9 EthTxUnstarted None None;
        sample_eth_tx 4 11 0 1 EthTxUnstarted None None;
        sample_eth_tx 5 10 0 8 EthTxUnstarted None None]
       [] {[ (10, 1) := 3 ]} 0.

(** The table of Test_DropOldestStrategy_PruneQueue: subjects 1 and 2,
    addresses 10 and 11. *)
Definition strategies_test_store : DB :=
  mkDB [sample_eth_tx 1 10 0 1 EthTxFatalError None None;
        sample_eth_tx 2 10 0 2 EthTxInProgress (Some 0) None;
        sample_eth_tx 3 10 0 3 EthTxConfirmed (Some 1) None;
        sample_eth_tx 4 10 0 4 EthTxUnconfirmed (Some 2) None;
        sample_eth_tx 5 10 0 5 EthTxUnstarted None (Some 1);
        sample_eth_tx 6 10 0 6 EthTxUnstarted None (Some 2);
        sample_eth_tx 7 11 0 7 EthTxUnstarted None (Some 1);
        sample_eth_tx 8 10 0 8 EthTxUnstarted None (Some 1);
        sample_eth_tx 9 11 0 9 EthTxUnstarted None (Some 1)]
       [] ∅ 0.

(** An EIP-1559 attempt for the in_progress transaction. *)
Definition dynamic_attempt : EthTxAttempt.t :=
  EthTxAttempt.mk 1 1 None (Some 2) (Some 200) 21000 [1; 2] 7 EthTxAttemptInProgress 2.

Definition dynamic_store : DB :=
  mkDB [in_progress_row] [dynamic_attempt] {[ (10, 1) := 3 ]} 1.

(** A legacy attempt whose gas price is already EvmMaxGasPriceWei. *)
Definition ceiling_attempt : EthTxAttempt.t := sample_attempt 1 1 500 0.

Definition ceiling_store : DB :=
  mkDB [in_progress_row] [ceiling_attempt] {[ (10, 1) := 3 ]} 1.

(** What a run left behind: the transactions, the attempts, next_nonce of
    (10, 1) and the error. *)
Definition outcome (r : Run (DB * error))
  : option (list (Z * EthTxState * option Z) * list (option Z * EthTxAttemptState)
            * option Z * error) :=
  match r with
  | Returns (q, err) =>
      Some (map (fun r => (EthTx.ID r, EthTx.State r, EthTx.Nonce r)) (eth_txes q),
            map (fun a => (EthTxAttempt.GasPrice a, EthTxAttempt.State a)) (eth_tx_attempts q),
            eth_key_states q !! (10, 1),
            err)
  | _ => None
  end.

(** * The worker cycle *)

(** var errEthTxRemoved = errors.New("eth_tx removed"); [errors.Is] against
    it is a comparison with this message, which no other error of the cycle
    carries unwrapped. *)
Definition errEthTxRemoved : string := "eth_tx removed".

Definition is_errEthTxRemoved (err : error) : bool :=
  bool_decide (err = Some errEthTxRemoved).

(** Modelled from the spec: insertIntoEthTxAttemptsQuery is not part of
    these sources.  The attempt is inserted under the next id of the table's
    serial and read back; the insert fails on the foreign key
    eth_tx_attempts_eth_tx_id_fkey ([None]) when eth_txes has no row with
    the attempt's eth_tx_id. *)
Definition insert_eth_tx_attempt (tx : DB) (attempt : EthTxAttempt.t)
  : option (EthTxAttempt.t * DB) :=
  if existsb (fun r => EthTx.ID r =? EthTxAttempt.EthTxID attempt) (eth_txes tx) then
    let id := eth_tx_attempts_id_seq tx + 1 in
    let attempt := EthTxAttempt.with_ID id attempt in
    Some (attempt,
          mkDB (eth_txes tx) (eth_tx_attempts tx ++ [attempt]) (eth_key_states tx) id)
  else None.

Definition saveInProgressTransaction (q : DB) (etx : EthTx.t) (attempt : EthTxAttempt.t)
  : Run (EthTx.t * EthTxAttempt.t * DB * error) :=
  if decide (EthTx.State etx <> EthTxUnstarted) then
    Returns (etx, attempt, q,
             Some ("can only transition to in_progress from unstarted, transaction is currently "
                   +:+ EthTxState_String (EthTx.State etx)))
  else if decide (EthTxAttempt.State attempt <> EthTxAttemptInProgress) then
    Returns (etx, attempt, q, Some "attempt state must be in_progress")
  else
    let etx := EthTx.with_State EthTxInProgress etx in
    Transaction (fun tx =>
      match insert_eth_tx_attempt tx attempt with
      | None => Returns (etx, attempt, tx, Some errEthTxRemoved)
      | Some (attempt, tx) =>
        match update_eth_tx tx etx (fun r =>
                EthTx.with_BroadcastAt (EthTx.BroadcastAt etx)
                  (EthTx.with_State (EthTx.State etx)
                     (EthTx.with_Nonce (EthTx.Nonce etx) r))) with
        | None =>
            Returns (etx, attempt, tx,
                     Wrap (Some ErrNoRows) "saveInProgressTransaction failed to save eth_tx")
        | Some (etx, tx) => Returns (etx, attempt, tx, None)
        end
      end) q.

(** gas.DynamicFee *)
Record DynamicFee : Type := mkDynamicFee {
  TipCap : Z;
  FeeCap : Z
}.

(** What the worker cycle needs on top of [Env]: the in-flight cap, the
    dynamic fee estimator and the signing of an EIP-1559 transaction. *)
Record Worker : Type := mkWorker {
  base : Env;
  EvmMaxInFlightTransactions : Z;
  GetDynamicFee : Z -> (DynamicFee * Z) + string;
  SignDynamicFeeTx : EthTx.t -> DynamicFee -> Z -> (Z * list Z) + string
}.

(** Modelled from the spec: NewDynamicFeeAttempt (the Attempt Builder of
    section 4.3) is not part of these sources.  The dynamic variant has
    tx_type 0x2 and uses gas_tip_cap and gas_fee_cap; the attempt is signed
    and in_progress. *)
Definition NewDynamicFeeAttempt (eb : Worker) (etx : EthTx.t) (fee : DynamicFee) (gasLimit : Z)
  : EthTxAttempt.t * error :=
  match SignDynamicFeeTx eb etx fee gasLimit with
  | inr err => (no_attempt, Some err)
  | inl (hash, signedTxBytes) =>
      (EthTxAttempt.mk 0 (EthTx.ID etx) None (Some (TipCap fee)) (Some (FeeCap fee)) gasLimit
                       signedTxBytes hash EthTxAttemptInProgress 2,
       None)
  end.

(** Modelled from the spec: CountUnconfirmedTransactions is not part of
    these sources.  count_unconfirmed(address, chain_id) is the number of
    unconfirmed rows of the address on the chain. *)
Definition CountUnconfirmedTransactions (q : DB) (fromAddress chainID : Z) : Z :=
  Z.of_nat (length (List.filter
                      (fun r => (EthTx.FromAddress r =? fromAddress)
                                && bool_decide (EthTx.State r = EthTxUnconfirmed)
                                && (EthTx.EVMChainID r =? chainID))
                      (eth_txes q))).

(** The attempt for the transaction that was picked: the estimator is asked
    for a dynamic fee or for a legacy gas price, as EvmEIP1559DynamicFees
    says. *)
Definition estimate_and_sign (eb : Worker) (etx : EthTx.t) : EthTxAttempt.t * error :=
  if EvmEIP1559DynamicFees (base eb) then
    match GetDynamicFee eb (EthTx.GasLimit etx) with
    | inr err => (no_attempt, Wrap (Some err) "failed to get dynamic gas fee")
    | inl (fee, gasLimit) =>
        let '(a, err) := NewDynamicFeeAttempt eb etx fee gasLimit in
        (a, Wrap err "processUnstartedEthTxs failed")
    end
  else
    match GetLegacyGas (base eb) (EthTx.EncodedPayload etx) (EthTx.GasLimit etx) false with
    | inr err => (no_attempt, Wrap (Some err) "failed to estimate gas")
    | inl (gasPrice, gasLimit) =>
        let '(a, err) := NewLegacyAttempt (base eb) etx gasPrice gasLimit in
        (a, Wrap err "processUnstartedEthTxs failed")
    end.

(** The [for] loop of processUnstartedEthTxs.  Each transaction that is
    picked comes with the time of its broadcast ([time.Now()]) and the
    answers the node gives while it is handled.  A turn of the loop costs
    one unit of [fuel]; [None] is a loop that is still turning when the fuel
    is spent (it sleeps InFlightTransactionRecheckInterval and looks
    again). *)
Fixpoint unstarted_loop (eb : Worker) (fuel : nat) (node : list (Z * list Round))
    (q : DB) (fromAddress : Z) {struct fuel} : option (Run (DB * error)) :=
  match fuel with
  | O => None
  | S fuel =>
    let maxInFlightTransactions := EvmMaxInFlightTransactions eb in
    if (0 <? maxInFlightTransactions)
       && (maxInFlightTransactions
           <=? CountUnconfirmedTransactions q fromAddress (chainID (base eb)))
    then unstarted_loop eb fuel node q fromAddress
    else
      let '(etx, err) := nextUnstartedTransactionWithNonce (base eb) q fromAddress in
      match err, etx with
      | Some _, _ => Some (Returns (q, Wrap err "processUnstartedEthTxs failed"))
      | None, None => Some (Returns (q, None))
      | None, Some etx =>
        let '(a, err) := estimate_and_sign eb etx in
        match err with
        | Some _ => Some (Returns (q, err))
        | None =>
          match saveInProgressTransaction q etx a with
          | Panics => Some Panics
          | ScriptExhausted => Some ScriptExhausted
          | Returns (etx, a, q, err) =>
            if is_errEthTxRemoved err then unstarted_loop eb fuel node q fromAddress
            else
              match err with
              | Some _ => Some (Returns (q, Wrap err "processUnstartedEthTxs failed"))
              | None =>
                let '(now, answers) := default (0, []) (head node) in
                match handleInProgressEthTx (base eb) answers q etx a now with
                | Panics => Some Panics
                | ScriptExhausted => Some ScriptExhausted
                | Returns (q, err) =>
                  match err with
                  | Some _ => Some (Returns (q, Wrap err "processUnstartedEthTxs failed"))
                  | None => unstarted_loop eb fuel (tail node) q fromAddress
                  end
                end
              end
          end
        end
      end
  end.

(** First handle any in_progress transactions left over from last time.
    Then keep looking up unstarted transactions and processing them until
    there are none remaining.  [ctxErr] and [ctxErrAfter] tell whether the
    context is cancelled when getInProgressEthTx, resp.
    handleAnyInProgressEthTx, is back. *)
Definition processUnstartedEthTxs (eb : Worker) (fuel : nat) (ctxErr ctxErrAfter : bool)
    (resume : list Round) (node : list (Z * list Round)) (q : DB) (fromAddress : Z)
  : option (Run (DB * error)) :=
  match handleAnyInProgressEthTx (base eb) resume ctxErr q fromAddress with
  | Panics => Some Panics
  | ScriptExhausted => Some ScriptExhausted
  | Returns (q, err) =>
    if ctxErrAfter then Some (Returns (q, None))
    else
      match err with
      | Some _ => Some (Returns (q, Wrap err "processUnstartedEthTxs failed"))
      | None => unstarted_loop eb fuel node q fromAddress
      end
  end.

(** ** Triggers *)

(** The broadcaster's wake-up side: whether it was started, and for each
    registered address its trigger channel, of capacity 1: [true] is a
    channel that holds a wake-up. *)
Record Triggers : Type := mkTriggers {
  started : bool;
  triggers : gmap Z bool
}.

(** Trigger forces the monitor for a particular address to recheck for new
    eth_txes.  Logs error and does nothing if address was not registered on
    startup *)
Definition Trigger (eb : Triggers) (addr : Z) : Triggers :=
  if started eb then
    match triggers eb !! addr with
    | None =>
        (* ignoring trigger for address which is not registered *)
        eb
    | Some _ =>
        (* select { case triggerCh <- struct{}{}: default: } *)
        mkTriggers (started eb) (<[addr := true]> (triggers eb))
    end
  else eb.

(** ** Send errors by the test of handleInProgressEthTx that catches them *)

(** The error passes every test up to the TemporarilyUnderpriced one. *)
Definition reaches_temporarily_underpriced (e : SendError.t) : Prop :=
  neither_too_expensive_nor_fatal e
  /\ SendError.IsNonceTooLowError e = false
  /\ SendError.IsReplacementUnderpriced e = false
  /\ SendError.IsTerminallyUnderpriced e = false
  /\ SendError.IsFeeTooLow e = false
  /\ SendError.IsFeeTooHigh e = false.

Definition temporarily_underpriced (e : SendError.t) : Prop :=
  reaches_temporarily_underpriced e /\ SendError.IsTemporarilyUnderpriced e = true.

Definition insufficient_eth (e : SendError.t) : Prop :=
  reaches_temporarily_underpriced e
  /\ SendError.IsTemporarilyUnderpriced e = false
  /\ SendError.IsInsufficientEth e = true.

(** An error that none of the tests recognises. *)
Definition unrecognised (e : SendError.t) : Prop :=
  reaches_temporarily_underpriced e
  /\ SendError.IsTemporarilyUnderpriced e = false
  /\ SendError.IsInsufficientEth e = false.



(** The unstarted rows of the address on the chain in the order in which
    they are picked. *)
Definition picks (q : DB) (fromAddress chainID : Z) : list EthTx.t :=
  order_by unstarted_order (unstarted_rows q fromAddress chainID).

(** How a run of handleInProgressEthTx can end, as far as eth_txes and
    eth_key_states go: nothing moved; or the transaction was given up on; or
    it was saved as broadcast and its nonce consumed. *)
Inductive Ending (q : DB) (etx : EthTx.t) (t : Z) (q' : DB) (err : error) : Prop :=
| Untouched :
    eth_txes q' = eth_txes q ->
    eth_key_states q' = eth_key_states q ->
    err <> None ->
    Ending q etx t q' err
| GivenUp (etxError : option string) :
    eth_txes q' = eth_txes (fatal_saved q (EthTx.with_Error etxError etx)) ->
    eth_key_states q' = eth_key_states q ->
    err = None ->
    Ending q etx t q' err
| Broadcast (attempt : EthTxAttempt.t) (nonce : Z) :
    EthTx.Nonce etx = Some nonce ->
    eth_key_states q !! (EthTx.FromAddress etx, EthTx.EVMChainID etx) = Some nonce ->
    eth_txes q'
    = eth_txes (broadcast_saved q (EthTx.with_BroadcastAt (Some t) etx) attempt nonce) ->
    eth_key_states q'
    = <[(EthTx.FromAddress etx, EthTx.EVMChainID etx) := nonce + 1]> (eth_key_states q) ->
    err = None ->
    Ending q etx t q' err.

(** ** Sample workers and queues *)

(** A worker without throttling whose estimator and key store always
    answer. *)
Definition sample_worker : Worker :=
  mkWorker sample_env 0
           (fun gasLimit => inl (mkDynamicFee 2 200, gasLimit))
           (fun _ _ _ => inl (8, [3; 4])).

(** The same worker with at most one transaction in flight. *)
Definition throttled_worker : Worker :=
  mkWorker sample_env 1 (GetDynamicFee sample_worker) (SignDynamicFeeTx sample_worker).

(** The same worker with a dynamic fee estimator that is down. *)
Definition blind_worker : Worker :=
  mkWorker sample_env 0 (fun _ => inr "no block history") (SignDynamicFeeTx sample_worker).

(** A node that accepts three transactions, at times 200, 201 and 202. *)
Definition accepting_node : list (Z * list Round) :=
  [(200, [accepted]); (201, [accepted]); (202, [accepted])].

(** The store of a worker that crashed with transaction 1 in_progress and
    two transactions waiting. *)
Definition crashed_store : DB :=
  mkDB [in_progress_row;
        sample_eth_tx 2 10 5 101 EthTxUnstarted None None;
        sample_eth_tx 3 10 0 102 EthTxUnstarted None None]
       [in_progress_attempt] {[ (10, 1) := 3 ]} 1.

(** An in_progress transaction that lost its attempt. *)
Definition broken_store : DB :=
  mkDB [in_progress_row] [] {[ (10, 1) := 3 ]} 1.

(** The unstarted transactions of a key that is gone. *)
Definition keyless_store : DB :=
  mkDB (eth_txes unstarted_store) [] ∅ 0.

Definition out_of_funds : Round :=
  mkRound SimulationSucceeded
    (Some (SendError.mk false false false false false false false false true
                        "insufficient funds for transfer")).

Definition too_expensive : Round :=
  mkRound SimulationSucceeded
    (Some (SendError.mk true false false false false false false false false
                        "tx fee cap exceeded")).

Definition mempool_full : Round :=
  mkRound SimulationSucceeded
    (Some (SendError.mk false false false false false false false true false
                        "There are too many transactions in the queue")).

Definition connection_refused : Round :=
  mkRound SimulationSucceeded
    (Some (SendError.mk false false false false false false false false false
                        "connection refused")).



(** One transaction in flight and one waiting. *)
Definition in_flight_store : DB :=
  mkDB [sample_eth_tx 1 10 0 1 EthTxUnconfirmed (Some 2) None;
        sample_eth_tx 2 10 0 2 EthTxUnstarted None None]
       [] {[ (10, 1) := 3 ]} 0.

(** * Properties *)

(** ** Shared facts about the store *)

Lemma with_eth_key_states_same (db : DB) : with_eth_key_states (eth_key_states db) db = db.
Proof. by destruct db. Qed.

Lemma run_callbacks_nil (callbacks : list Callback) (tx tx' : DB) :
  run_callbacks callbacks tx = (tx', None) <-> ran_all callbacks tx tx'.
Proof.
  revert tx. induction callbacks as [|f rest IH]; intros tx; simpl.
  - split.
    + intros [= ->]. constructor.
    + inversion 1. reflexivity.
  - destruct (f tx) as [tx1 [e|]] eqn:Hf.
    + split; [discriminate |].
      inversion 1; subst. congruence.
    + rewrite IH. split.
      * intros H. by econstructor.
      * inversion 1; subst. congruence.
Qed.

Lemma IncrementNextNonce_match (db : DB) (address chainID currentNonce : Z) :
  eth_key_states db !! (address, chainID) = Some currentNonce ->
  IncrementNextNonce db address chainID currentNonce =
    (with_eth_key_states (<[(address, chainID) := currentNonce + 1]> (eth_key_states db)) db, None).
Proof.
  intros H. unfold IncrementNextNonce, exec_increment_next_nonce.
  rewrite H, Z.eqb_refl. reflexivity.
Qed.

Lemma IncrementNextNonce_mismatch (db : DB) (address chainID currentNonce : Z) :
  eth_key_states db !! (address, chainID) <> Some currentNonce ->
  IncrementNextNonce db address chainID currentNonce = (db, Some nonce_invariant_violation).
Proof.
  intros H. unfold IncrementNextNonce, exec_increment_next_nonce.
  destruct (eth_key_states db !! (address, chainID)) as [n|] eqn:E.
  - destruct (Z.eqb_spec n currentNonce) as [->|Hne]; [done |].
    simpl. by rewrite with_eth_key_states_same.
  - simpl. by rewrite with_eth_key_states_same.
Qed.

Lemma IncrementNextNonce_nil (db db' : DB) (address chainID currentNonce : Z) :
  IncrementNextNonce db address chainID currentNonce = (db', None) ->
  eth_key_states db !! (address, chainID) = Some currentNonce.
Proof.
  intros H.
  destruct (decide (eth_key_states db !! (address, chainID) = Some currentNonce)) as [|Hne]; [done |].
  rewrite (IncrementNextNonce_mismatch _ _ _ _ Hne) in H. discriminate.
Qed.

(** ** IncrementNextNonce *)

(** C2. IncrementNextNonce raises the stored next_nonce of (address,
    evm_chain_id) by exactly one if and only if the stored value equals the
    expected current nonce, touching nothing else; when no row matches (the
    stored value differs or the key is absent) the store is left as it was
    and the unrecoverable invariant-violation error is returned. *)
Theorem IncrementNextNonce_conditional (db : DB) (address chainID currentNonce : Z) :
  let stored := eth_key_states db !! (address, chainID) in
  let after := IncrementNextNonce db address chainID currentNonce in
  (stored = Some currentNonce ->
     after.2 = None
     /\ eth_key_states after.1 !! (address, chainID) = Some (currentNonce + 1)
     /\ (forall key, key <> (address, chainID) ->
           eth_key_states after.1 !! key = eth_key_states db !! key)
     /\ eth_txes after.1 = eth_txes db
     /\ eth_tx_attempts after.1 = eth_tx_attempts db)
  /\ (stored <> Some currentNonce ->
        after = (db, Some nonce_invariant_violation))
  /\ (forall n, stored = Some n ->
        (eth_key_states after.1 !! (address, chainID) = Some (n + 1) <-> n = currentNonce))
  /\ (after.2 = None <-> stored = Some currentNonce).
Proof.
  cbv zeta. repeat split.
  - by rewrite (IncrementNextNonce_match _ _ _ _ H).
  - rewrite (IncrementNextNonce_match _ _ _ _ H). simpl. apply lookup_insert_eq.
  - intros key Hkey. rewrite (IncrementNextNonce_match _ _ _ _ H). simpl.
    by apply lookup_insert_ne.
  - by rewrite (IncrementNextNonce_match _ _ _ _ H).
  - by rewrite (IncrementNextNonce_match _ _ _ _ H).
  - apply IncrementNextNonce_mismatch.
  - intros Hafter.
    destruct (decide (n = currentNonce)) as [|Hne]; [done |].
    rewrite IncrementNextNonce_mismatch in Hafter by congruence.
    simpl in Hafter. rewrite H in Hafter. injection Hafter. lia.
  - intros ->. rewrite (IncrementNextNonce_match _ _ _ _ H). simpl. apply lookup_insert_eq.
  - intros Hnil. destruct (IncrementNextNonce db address chainID currentNonce) as [db' err] eqn:E.
    simpl in Hnil. subst err. by apply IncrementNextNonce_nil in E.
  - intros H. by rewrite (IncrementNextNonce_match _ _ _ _ H).
Qed.

(** ** saveAttempt *)

Lemma update_where_state (rows : list EthTx.t) (id : Z) (set : EthTx.t -> EthTx.t) (r : EthTx.t) :
  (forall x, EthTx.ID (set x) = EthTx.ID x) ->
  r ∈ update_where (fun x => EthTx.ID x =? id) set rows ->
  EthTx.ID r = id ->
  exists r0, r0 ∈ rows /\ EthTx.ID r0 = id /\ r = set r0.
Proof.
  intros Hid Hin Hr. unfold update_where in Hin.
  apply list_elem_of_fmap in Hin as (r0 & -> & Hin0).
  destruct (Z.eqb_spec (EthTx.ID r0) id) as [E|E].
  - eauto.
  - congruence.
Qed.

Lemma returning_first_Some {A : Type} (p : A -> bool) (f : A -> A) (rows : list A) (row : A) :
  returning_first p f rows = Some row ->
  exists r0, r0 ∈ rows /\ p r0 = true /\ row = f r0.
Proof.
  unfold returning_first. destruct (find p rows) as [r0|] eqn:E; [|discriminate].
  intros [= <-]. apply find_some in E as [Hin Hp].
  exists r0. split; [by apply list_elem_of_In | done].
Qed.

Lemma broadcast_saved_next_nonce (q : DB) (etx : EthTx.t) (attempt : EthTxAttempt.t) (nonce : Z) :
  eth_key_states (broadcast_saved q etx attempt nonce)
    !! (EthTx.FromAddress etx, EthTx.EVMChainID etx) = Some (nonce + 1).
Proof. simpl. apply lookup_insert_eq. Qed.

Lemma broadcast_saved_eth_tx (q : DB) (etx : EthTx.t) (attempt : EthTxAttempt.t) (nonce : Z)
    (r : EthTx.t) :
  r ∈ eth_txes (broadcast_saved q etx attempt nonce) ->
  EthTx.ID r = EthTx.ID etx ->
  EthTx.State r = EthTxUnconfirmed
  /\ EthTx.BroadcastAt r = EthTx.BroadcastAt etx
  /\ EthTx.Error r = EthTx.Error etx.
Proof.
  intros Hin Hid. simpl in Hin.
  apply update_where_state in Hin as (r0 & _ & _ & ->); done.
Qed.

Lemma broadcast_saved_attempt (q : DB) (etx : EthTx.t) (attempt : EthTxAttempt.t) (nonce : Z)
    (a : EthTxAttempt.t) :
  a ∈ eth_tx_attempts (broadcast_saved q etx attempt nonce) ->
  EthTxAttempt.ID a = EthTxAttempt.ID attempt ->
  EthTxAttempt.State a = EthTxAttemptBroadcast.
Proof.
  intros Hin Hid. simpl in Hin. unfold update_where in Hin.
  apply list_elem_of_fmap in Hin as (a0 & -> & _).
  destruct (Z.eqb_spec (EthTxAttempt.ID a0) (EthTxAttempt.ID attempt)); [done |].
  congruence.
Qed.

Lemma saveAttempt_precondition (q : DB) (etx : EthTx.t) (attempt : EthTxAttempt.t)
    (NewAttemptState : EthTxAttemptState) (callbacks : list Callback) :
  EthTx.State etx <> EthTxInProgress
  \/ EthTxAttempt.State attempt <> EthTxAttemptInProgress
  \/ NewAttemptState <> EthTxAttemptBroadcast ->
  exists msg, saveAttempt q etx attempt NewAttemptState callbacks = Returns (etx, q, Some msg).
Proof.
  intros H. unfold saveAttempt.
  destruct (decide (EthTx.State etx <> EthTxInProgress)); [by eexists |].
  destruct (decide (EthTxAttempt.State attempt <> EthTxAttemptInProgress)); [by eexists |].
  destruct (bool_decide_reflect (NewAttemptState = EthTxAttemptBroadcast)); simpl; [|by eexists].
  tauto.
Qed.

(** What the transaction of saveAttempt does once the three checks passed. *)
Lemma saveAttempt_transaction (q : DB) (etx : EthTx.t) (attempt : EthTxAttempt.t)
    (callbacks : list Callback) (etx' : EthTx.t) (q' : DB) (err : error) :
  EthTx.State etx = EthTxInProgress ->
  EthTxAttempt.State attempt = EthTxAttemptInProgress ->
  saveAttempt q etx attempt EthTxAttemptBroadcast callbacks = Returns (etx', q', err) ->
  (err <> None /\ q' = q)
  \/ (err = None
      /\ exists nonce,
           EthTx.Nonce etx = Some nonce
           /\ eth_key_states q !! (EthTx.FromAddress etx, EthTx.EVMChainID etx) = Some nonce
           /\ (exists r, r ∈ eth_txes q /\ EthTx.ID r = EthTx.ID etx)
           /\ (exists a, a ∈ eth_tx_attempts q /\ EthTxAttempt.ID a = EthTxAttempt.ID attempt)
           /\ EthTx.State etx' = EthTxUnconfirmed
           /\ ran_all callbacks (broadcast_saved q etx attempt nonce) q').
Proof.
  intros Hetx Hattempt. unfold saveAttempt.
  destruct (decide (EthTx.State etx <> EthTxInProgress)); [done |].
  destruct (decide (EthTxAttempt.State attempt <> EthTxAttemptInProgress)); [done |].
  rewrite bool_decide_eq_true_2 by done. simpl.
  unfold Transaction.
  destruct (EthTx.Nonce etx) as [nonce|] eqn:Hnonce; [|discriminate].
  destruct (IncrementNextNonce q (EthTx.FromAddress etx) (EthTx.EVMChainID etx) nonce)
    as [tx1 [e|]] eqn:Hinc.
  { simpl. intros [= <- <- <-]. by left. }
  pose proof (IncrementNextNonce_nil _ _ _ _ _ Hinc) as Hstored.
  rewrite (IncrementNextNonce_match _ _ _ _ Hstored) in Hinc. injection Hinc as <-.
  unfold update_eth_tx. simpl.
  match goal with |- context [returning_first ?p ?f (eth_txes q)] =>
    destruct (returning_first p f (eth_txes q)) as [row|] eqn:Hrow end.
  2: { simpl. intros [= <- <- <-]. by left. }
  unfold update_eth_tx_attempt. simpl.
  match goal with |- context [returning_first ?p ?f (eth_tx_attempts q)] =>
    destruct (returning_first p f (eth_tx_attempts q)) as [arow|] eqn:Harow end.
  2: { simpl. intros [= <- <- <-]. by left. }
  match goal with |- context [run_callbacks callbacks ?tx] =>
    destruct (run_callbacks callbacks tx) as [tx3 [e|]] eqn:Hcb end.
  { intros [= <- <- <-]. by left. }
  intros [= <- <- <-]. right. split; [done |].
  exists nonce. split; [done |]. split; [done |].
  apply returning_first_Some in Hrow as (r0 & Hr0 & Hid & ->).
  apply returning_first_Some in Harow as (a0 & Ha0 & Haid & ->).
  split. { exists r0. split; [done |]. by apply Z.eqb_eq. }
  split. { exists a0. split; [done |]. by apply Z.eqb_eq. }
  split; [done |].
  by apply run_callbacks_nil.
Qed.

Lemma returning_first_found {A : Type} (p : A -> bool) (f : A -> A) (rows : list A) :
  (exists r, r ∈ rows /\ p r = true) ->
  exists row, returning_first p f rows = Some row.
Proof.
  intros (r & Hin & Hp). unfold returning_first.
  destruct (find p rows) as [r0|] eqn:E; [by eexists |].
  apply list_elem_of_In in Hin.
  pose proof (find_none p rows E r Hin). congruence.
Qed.

(** saveAttempt goes through on a store that holds the rows and whose
    next_nonce is the nonce of the transaction. *)
Lemma saveAttempt_saves (q : DB) (etx : EthTx.t) (attempt : EthTxAttempt.t)
    (callbacks : list Callback) (nonce : Z) (q' : DB) :
  EthTx.State etx = EthTxInProgress ->
  EthTxAttempt.State attempt = EthTxAttemptInProgress ->
  EthTx.Nonce etx = Some nonce ->
  eth_key_states q !! (EthTx.FromAddress etx, EthTx.EVMChainID etx) = Some nonce ->
  (exists r, r ∈ eth_txes q /\ EthTx.ID r = EthTx.ID etx) ->
  (exists a, a ∈ eth_tx_attempts q /\ EthTxAttempt.ID a = EthTxAttempt.ID attempt) ->
  ran_all callbacks (broadcast_saved q etx attempt nonce) q' ->
  exists etx', saveAttempt q etx attempt EthTxAttemptBroadcast callbacks = Returns (etx', q', None).
Proof.
  intros Hetx Hattempt Hnonce Hkey (r & Hr & Hrid) (a & Ha & Haid) Hran.
  unfold saveAttempt.
  destruct (decide (EthTx.State etx <> EthTxInProgress)); [done |].
  destruct (decide (EthTxAttempt.State attempt <> EthTxAttemptInProgress)); [done |].
  rewrite bool_decide_eq_true_2 by done. simpl.
  unfold Transaction. rewrite Hnonce.
  rewrite (IncrementNextNonce_match _ _ _ _ Hkey).
  unfold update_eth_tx. simpl.
  match goal with |- context [returning_first ?p ?f (eth_txes q)] =>
    destruct (returning_first_found p f (eth_txes q)) as [row ->] end.
  { exists r. split; [done |]. by apply Z.eqb_eq. }
  unfold update_eth_tx_attempt. simpl.
  match goal with |- context [returning_first ?p ?f (eth_tx_attempts q)] =>
    destruct (returning_first_found p f (eth_tx_attempts q)) as [arow ->] end.
  { exists a. split; [done |]. by apply Z.eqb_eq. }
  apply run_callbacks_nil in Hran. unfold broadcast_saved in Hran.
  unfold with_eth_tx_attempts, with_eth_txes, with_eth_key_states. simpl.
  rewrite Hran. by eexists.
Qed.

Lemma run_callbacks_failure (callbacks : list Callback) (tx : DB) (e : string) :
  ran_until_failure callbacks tx e ->
  exists tx', run_callbacks callbacks tx = (tx', Some ("saveUnconfirmed failed: " +:+ e)).
Proof.
  induction 1 as [f rest tx tx1 e Hf|f rest tx tx1 e Hf _ IH]; simpl; rewrite Hf.
  - by eexists.
  - exact IH.
Qed.

(** A callback that fails takes the whole save with it. *)
Lemma saveAttempt_rolls_back (q : DB) (etx : EthTx.t) (attempt : EthTxAttempt.t)
    (callbacks : list Callback) (nonce : Z) (e : string) :
  EthTx.State etx = EthTxInProgress ->
  EthTxAttempt.State attempt = EthTxAttemptInProgress ->
  EthTx.Nonce etx = Some nonce ->
  eth_key_states q !! (EthTx.FromAddress etx, EthTx.EVMChainID etx) = Some nonce ->
  (exists r, r ∈ eth_txes q /\ EthTx.ID r = EthTx.ID etx) ->
  (exists a, a ∈ eth_tx_attempts q /\ EthTxAttempt.ID a = EthTxAttempt.ID attempt) ->
  ran_until_failure callbacks (broadcast_saved q etx attempt nonce) e ->
  exists etx', saveAttempt q etx attempt EthTxAttemptBroadcast callbacks
               = Returns (etx', q, Some ("saveUnconfirmed failed: " +:+ e)).
Proof.
  intros Hetx Hattempt Hnonce Hkey (r & Hr & Hrid) (a & Ha & Haid) Hran.
  unfold saveAttempt.
  destruct (decide (EthTx.State etx <> EthTxInProgress)); [done |].
  destruct (decide (EthTxAttempt.State attempt <> EthTxAttemptInProgress)); [done |].
  rewrite bool_decide_eq_true_2 by done. simpl.
  unfold Transaction. rewrite Hnonce.
  rewrite (IncrementNextNonce_match _ _ _ _ Hkey).
  unfold update_eth_tx. simpl.
  match goal with |- context [returning_first ?p ?f (eth_txes q)] =>
    destruct (returning_first_found p f (eth_txes q)) as [row ->] end.
  { exists r. split; [done |]. by apply Z.eqb_eq. }
  unfold update_eth_tx_attempt. simpl.
  match goal with |- context [returning_first ?p ?f (eth_tx_attempts q)] =>
    destruct (returning_first_found p f (eth_tx_attempts q)) as [arow ->] end.
  { exists a. split; [done |]. by apply Z.eqb_eq. }
  apply run_callbacks_failure in Hran as [tx' Hran]. unfold broadcast_saved in Hran.
  unfold with_eth_tx_attempts, with_eth_txes, with_eth_key_states. simpl.
  rewrite Hran. by eexists.
Qed.

(** C1. saveAttempt (save_broadcast) succeeds only when etx.state and
    attempt.state are in_progress and the new attempt state is broadcast;
    when a precondition fails an error is returned and neither the store nor
    etx changes.  On a store that holds the two rows and whose next_nonce is
    etx.nonce the save goes through: the conditional increment keyed on
    etx.nonce raised next_nonce of (etx.from_address, etx.evm_chain_id), the
    eth_txes row is unconfirmed, the attempt row is broadcast, and every
    supplied callback ran, in order, on the store so written; what is
    returned is the store the last callback left.  All of it is one
    transaction: if a callback fails, its error is returned and the store is
    as it was before the call, as after every other failing run. *)
Theorem saveAttempt_save_broadcast (q : DB) (etx : EthTx.t) (attempt : EthTxAttempt.t)
    (NewAttemptState : EthTxAttemptState) (callbacks : list Callback) :
  (EthTx.State etx <> EthTxInProgress
   \/ EthTxAttempt.State attempt <> EthTxAttemptInProgress
   \/ NewAttemptState <> EthTxAttemptBroadcast ->
   exists msg, saveAttempt q etx attempt NewAttemptState callbacks = Returns (etx, q, Some msg))
  /\ (forall etx' q',
        saveAttempt q etx attempt NewAttemptState callbacks = Returns (etx', q', None) ->
        EthTx.State etx = EthTxInProgress
        /\ EthTxAttempt.State attempt = EthTxAttemptInProgress
        /\ NewAttemptState = EthTxAttemptBroadcast
        /\ exists nonce,
             EthTx.Nonce etx = Some nonce
             /\ eth_key_states q !! (EthTx.FromAddress etx, EthTx.EVMChainID etx) = Some nonce
             /\ EthTx.State etx' = EthTxUnconfirmed
             /\ ran_all callbacks (broadcast_saved q etx attempt nonce) q'
             /\ eth_key_states (broadcast_saved q etx attempt nonce)
                  !! (EthTx.FromAddress etx, EthTx.EVMChainID etx) = Some (nonce + 1)
             /\ (exists r, r ∈ eth_txes q /\ EthTx.ID r = EthTx.ID etx)
             /\ (forall r, r ∈ eth_txes (broadcast_saved q etx attempt nonce) ->
                   EthTx.ID r = EthTx.ID etx -> EthTx.State r = EthTxUnconfirmed)
             /\ (exists a, a ∈ eth_tx_attempts q /\ EthTxAttempt.ID a = EthTxAttempt.ID attempt)
             /\ (forall a, a ∈ eth_tx_attempts (broadcast_saved q etx attempt nonce) ->
                   EthTxAttempt.ID a = EthTxAttempt.ID attempt ->
                   EthTxAttempt.State a = EthTxAttemptBroadcast))
  /\ (forall etx' q' e,
        saveAttempt q etx attempt NewAttemptState callbacks = Returns (etx', q', Some e) ->
        q' = q)
  /\ (forall nonce,
        EthTx.State etx = EthTxInProgress ->
        EthTxAttempt.State attempt = EthTxAttemptInProgress ->
        NewAttemptState = EthTxAttemptBroadcast ->
        EthTx.Nonce etx = Some nonce ->
        eth_key_states q !! (EthTx.FromAddress etx, EthTx.EVMChainID etx) = Some nonce ->
        (exists r, r ∈ eth_txes q /\ EthTx.ID r = EthTx.ID etx) ->
        (exists a, a ∈ eth_tx_attempts q /\ EthTxAttempt.ID a = EthTxAttempt.ID attempt) ->
        (forall q',
           ran_all callbacks (broadcast_saved q etx attempt nonce) q' ->
           exists etx',
             saveAttempt q etx attempt NewAttemptState callbacks = Returns (etx', q', None)
             /\ EthTx.State etx' = EthTxUnconfirmed)
        /\ (forall e,
              ran_until_failure callbacks (broadcast_saved q etx attempt nonce) e ->
              exists etx',
                saveAttempt q etx attempt NewAttemptState callbacks
                = Returns (etx', q, Some ("saveUnconfirmed failed: " +:+ e)))).
Proof.
  split; [apply saveAttempt_precondition |].
  assert (Hchecks : forall etx' q' err,
             saveAttempt q etx attempt NewAttemptState callbacks = Returns (etx', q', err) ->
             (err <> None /\ q' = q)
             \/ (EthTx.State etx = EthTxInProgress
                 /\ EthTxAttempt.State attempt = EthTxAttemptInProgress
                 /\ NewAttemptState = EthTxAttemptBroadcast)).
  { intros etx' q' err H.
    destruct (decide (EthTx.State etx = EthTxInProgress)) as [H1|H1].
    2: { destruct (saveAttempt_precondition q etx attempt NewAttemptState callbacks) as [msg Hm];
         [by left |]. rewrite Hm in H. injection H as <- <- <-. by left. }
    destruct (decide (EthTxAttempt.State attempt = EthTxAttemptInProgress)) as [H2|H2].
    2: { destruct (saveAttempt_precondition q etx attempt NewAttemptState callbacks) as [msg Hm];
         [by right; left |]. rewrite Hm in H. injection H as <- <- <-. by left. }
    destruct (decide (NewAttemptState = EthTxAttemptBroadcast)) as [H3|H3].
    2: { destruct (saveAttempt_precondition q etx attempt NewAttemptState callbacks) as [msg Hm];
         [by right; right |]. rewrite Hm in H. injection H as <- <- <-. by left. }
    by right. }
  split; [|split].
  - intros etx' q' H.
    destruct (Hchecks _ _ _ H) as [[Hne _]|(H1 & H2 & ->)]; [done |].
    do 3 (split; [done |]).
    destruct (saveAttempt_transaction _ _ _ _ _ _ _ H1 H2 H)
      as [[Hne _]|(_ & nonce & Hn & Hk & Hr & Ha & Hs & Hran)]; [done |].
    exists nonce. do 4 (split; [done |]).
    split; [apply broadcast_saved_next_nonce |].
    split; [done |].
    split. { intros r Hin Hid. by apply (broadcast_saved_eth_tx q etx attempt nonce). }
    split; [done |].
    apply broadcast_saved_attempt.
  - intros etx' q' e H.
    destruct (Hchecks _ _ _ H) as [[_ ->]|(H1 & H2 & ->)]; [done |].
    destruct (saveAttempt_transaction _ _ _ _ _ _ _ H1 H2 H) as [[_ ->]|(Hnil & _)]; done.
  - intros nonce H1 H2 -> Hn Hk Hr Ha. split.
    + intros q' Hran.
      destruct (saveAttempt_saves q etx attempt callbacks nonce q' H1 H2 Hn Hk Hr Ha Hran)
        as [etx' Hsave].
      exists etx'. split; [done |].
      destruct (saveAttempt_transaction _ _ _ _ _ _ _ H1 H2 Hsave)
        as [[Hne _]|(_ & _ & _ & _ & _ & _ & Hs & _)]; done.
    + intros e Hran.
      exact (saveAttempt_rolls_back q etx attempt callbacks nonce e H1 H2 Hn Hk Hr Ha Hran).
Qed.

(** ** The next unstarted transaction *)

Section OrderBy.
Context {A : Type} (le : A -> A -> bool).
Hypothesis le_total : forall a b, le a b = false -> le b a = true.
Hypothesis le_trans : forall a b c, le a b = true -> le b c = true -> le a c = true.

Lemma elem_of_place (x y : A) (sorted : list A) :
  y ∈ place le x sorted <-> y = x \/ y ∈ sorted.
Proof using Type.
  clear le_total le_trans.
  induction sorted as [|z rest IH]; simpl.
  - rewrite list_elem_of_singleton, elem_of_nil. tauto.
  - destruct (le x z).
    + rewrite elem_of_cons. tauto.
    + rewrite !elem_of_cons, IH. tauto.
Qed.

Lemma elem_of_order_by (y : A) (rows : list A) : y ∈ order_by le rows <-> y ∈ rows.
Proof using Type.
  clear le_total le_trans.
  induction rows as [|x rows IH]; simpl; [done |].
  rewrite elem_of_place, IH, elem_of_cons. tauto.
Qed.

Lemma length_place (x : A) (sorted : list A) : length (place le x sorted) = S (length sorted).
Proof using Type.
  induction sorted as [|z rest IH]; simpl; [done |].
  destruct (le x z); simpl; by rewrite ?IH.
Qed.

Lemma length_order_by (rows : list A) : length (order_by le rows) = length rows.
Proof using Type.
  induction rows as [|x rows IH]; simpl; [done |].
  by rewrite length_place, IH.
Qed.

Lemma le_refl (a : A) : le a a = true.
Proof using le_total.
  destruct (le a a) eqn:E; [done |]. rewrite <- E. by apply le_total.
Qed.

(** The first row of the ordered rows comes no later than any row. *)
Lemma head_order_by_least (rows : list A) (first : A) :
  head (order_by le rows) = Some first ->
  first ∈ rows /\ forall r, r ∈ rows -> le first r = true.
Proof using le_total le_trans.
  revert first. induction rows as [|x rows IH]; intros first; simpl; [done |].
  destruct (order_by le rows) as [|y rest] eqn:E; simpl.
  - intros [= <-].
    assert (rows = []) as ->.
    { apply length_zero_iff_nil. rewrite <- (length_order_by rows), E. done. }
    split; [apply elem_of_cons; by left |].
    intros r Hr. apply list_elem_of_singleton in Hr. subst r. apply le_refl.
  - destruct (IH y eq_refl) as [Hy Hleast].
    destruct (le x y) eqn:Hxy; simpl; intros [= <-].
    + split; [apply elem_of_cons; by left |].
      intros r Hr. apply elem_of_cons in Hr as [Hr|Hr].
      * subst r. apply le_refl.
      * eapply le_trans; [exact Hxy |]. by apply Hleast.
    + split; [apply elem_of_cons; by right |].
      intros r Hr. apply elem_of_cons in Hr as [Hr|Hr].
      * subst r. by apply le_total.
      * by apply Hleast.
Qed.

Lemma head_order_by_None (rows : list A) : head (order_by le rows) = None <-> rows = [].
Proof using Type.
  split.
  - intros H. apply length_zero_iff_nil. rewrite <- length_order_by.
    by destruct (order_by le rows).
  - by intros ->.
Qed.
End OrderBy.

Lemma unstarted_order_spec (a b : EthTx.t) :
  unstarted_order a b = true <-> value_created_at_id_le a b.
Proof.
  unfold unstarted_order, value_created_at_id_le.
  rewrite !orb_true_iff, !andb_true_iff, !orb_true_iff, !andb_true_iff.
  rewrite !Z.ltb_lt, !Z.eqb_eq, Z.leb_le. tauto.
Qed.

Lemma unstarted_order_total (a b : EthTx.t) :
  unstarted_order a b = false -> unstarted_order b a = true.
Proof.
  intros H. apply unstarted_order_spec.
  assert (~ value_created_at_id_le a b) as Hn.
  { rewrite <- unstarted_order_spec. congruence. }
  unfold value_created_at_id_le in *. lia.
Qed.

Lemma unstarted_order_trans (a b c : EthTx.t) :
  unstarted_order a b = true -> unstarted_order b c = true -> unstarted_order a c = true.
Proof.
  rewrite !unstarted_order_spec. unfold value_created_at_id_le. lia.
Qed.

Lemma elem_of_unstarted_rows (db : DB) (fromAddress chainID : Z) (r : EthTx.t) :
  r ∈ unstarted_rows db fromAddress chainID <->
  r ∈ eth_txes db /\ EthTx.FromAddress r = fromAddress
  /\ EthTx.State r = EthTxUnstarted /\ EthTx.EVMChainID r = chainID.
Proof.
  unfold unstarted_rows. rewrite list_elem_of_In, filter_In, <- list_elem_of_In.
  rewrite !andb_true_iff, !Z.eqb_eq, bool_decide_eq_true. tauto.
Qed.

(** C3. Provided eth_key_states has a row for (from_address, chain_id) (the
    next nonce has to be read), nextUnstartedTransactionWithNonce returns
    the unstarted EthTx of that address and chain that is least in the order
    (value ASC, created_at ASC, id ASC), carrying the stored next_nonce as
    its nonce, so nonces are handed out in that order pick after pick; when
    there is no unstarted row it returns none. *)
Theorem nextUnstartedTransactionWithNonce_least (eb : Env) (db : DB) (fromAddress next_nonce : Z) :
  eth_key_states db !! (fromAddress, chainID eb) = Some next_nonce ->
  (unstarted_rows db fromAddress (chainID eb) = [] ->
     nextUnstartedTransactionWithNonce eb db fromAddress = (None, None))
  /\ (unstarted_rows db fromAddress (chainID eb) <> [] ->
      exists etx,
        nextUnstartedTransactionWithNonce eb db fromAddress
          = (Some (EthTx.with_Nonce (Some next_nonce) etx), None)
        /\ etx ∈ eth_txes db
        /\ EthTx.FromAddress etx = fromAddress
        /\ EthTx.State etx = EthTxUnstarted
        /\ EthTx.EVMChainID etx = chainID eb
        /\ forall r, r ∈ unstarted_rows db fromAddress (chainID eb) ->
                     value_created_at_id_le etx r).
Proof.
  intros Hkey. unfold nextUnstartedTransactionWithNonce, findNextUnstartedTransactionFromAddress.
  fold (unstarted_rows db fromAddress (chainID eb)).
  split.
  - intros ->. reflexivity.
  - intros Hrows.
    destruct (head (order_by unstarted_order (unstarted_rows db fromAddress (chainID eb))))
      as [etx|] eqn:Hhead.
    2: { by apply head_order_by_None in Hhead. }
    apply (head_order_by_least _ unstarted_order_total unstarted_order_trans) in Hhead
      as [Hin Hleast].
    pose proof Hin as Hrow. apply elem_of_unstarted_rows in Hrow as (Hdb & Hfrom & Hstate & Hchain).
    exists etx. unfold GetNextNonce. rewrite Hfrom, Hkey.
    do 5 (split; [done |]).
    intros r Hr. apply unstarted_order_spec. by apply Hleast.
Qed.

(** ** Treating a consumed nonce as success *)

Lemma handleInProgressEthTx_unfold (eb : Env) (round : Round) (node : list Round) (q : DB)
    (etx : EthTx.t) (attempt : EthTxAttempt.t) (initialBroadcastAt : Z) :
  EthTx.State etx = EthTxInProgress ->
  sent etx round ->
  answers SendError.IsTooExpensive (sendTransaction round) = false ->
  answers SendError.Fatal (sendTransaction round) = false ->
  handleInProgressEthTx eb (round :: node) q etx attempt initialBroadcastAt =
    let etx := EthTx.with_BroadcastAt (Some initialBroadcastAt) etx in
    let sendError :=
      if answers SendError.IsNonceTooLowError (sendTransaction round)
         || answers SendError.IsReplacementUnderpriced (sendTransaction round)
      then None else sendTransaction round in
    if answers SendError.IsTerminallyUnderpriced sendError then
      tryAgainBumpingGas eb (handleInProgressEthTx eb node) q sendError
                         etx attempt initialBroadcastAt
    else if answers SendError.IsFeeTooLow sendError || answers SendError.IsFeeTooHigh sendError then
      tryAgainWithNewEstimation eb (handleInProgressEthTx eb node) q sendError
                                etx attempt initialBroadcastAt
    else
      let sendError :=
        if answers SendError.IsTemporarilyUnderpriced sendError then None else sendError in
      if answers SendError.IsInsufficientEth sendError then
        Returns (q, Some (SendError_Error sendError))
      else
        match sendError with
        | None => saved (saveAttempt q etx attempt EthTxAttemptBroadcast [])
        | Some e =>
            Returns (q, Wrap (Some (SendError.Error e))
                             ("error while sending transaction " +:+ pretty (EthTx.ID etx)))
        end.
Proof.
  intros Hstate Hsent Hexp Hfatal. simpl.
  destruct (decide (EthTx.State etx <> EthTxInProgress)); [done |].
  assert ((if EthTx.Simulate etx
           then match simulateTransaction round with
                | SimulationReverted jErr => Some jErr
                | _ => None
                end
           else None) = None) as ->.
  { unfold sent in Hsent. destruct (EthTx.Simulate etx); [|done].
    destruct (simulateTransaction round) as [|jErr|]; try done.
    by destruct (Hsent eq_refl jErr). }
  rewrite Hexp, Hfatal. reflexivity.
Qed.

(** C4. An in_progress EthTx whose send is answered NonceTooLow or
    ReplacementUnderpriced (and neither TooExpensive nor Fatal, which are
    tested first) is handled as a success, exactly as a nil send error is:
    on a store that holds the transaction with its in_progress attempt and
    whose next_nonce is the nonce of the transaction, the EthTx ends
    unconfirmed, the attempt broadcast, and next_nonce is one higher than
    before, not two. *)
Theorem handleInProgressEthTx_nonce_consumed (eb : Env) (round : Round) (node : list Round)
    (q : DB) (etx : EthTx.t) (attempt : EthTxAttempt.t) (initialBroadcastAt : Z)
    (e : SendError.t) (nonce : Z) :
  EthTx.State etx = EthTxInProgress ->
  EthTxAttempt.State attempt = EthTxAttemptInProgress ->
  sent etx round ->
  sendTransaction round = Some e ->
  neither_too_expensive_nor_fatal e ->
  SendError.IsNonceTooLowError e = true \/ SendError.IsReplacementUnderpriced e = true ->
  EthTx.Nonce etx = Some nonce ->
  eth_key_states q !! (EthTx.FromAddress etx, EthTx.EVMChainID etx) = Some nonce ->
  (exists r, r ∈ eth_txes q /\ EthTx.ID r = EthTx.ID etx) ->
  (exists a, a ∈ eth_tx_attempts q /\ EthTxAttempt.ID a = EthTxAttempt.ID attempt) ->
  let q' := broadcast_saved q (EthTx.with_BroadcastAt (Some initialBroadcastAt) etx) attempt nonce in
  handleInProgressEthTx eb (round :: node) q etx attempt initialBroadcastAt = Returns (q', None)
  /\ handleInProgressEthTx eb (round :: node) q etx attempt initialBroadcastAt
     = handleInProgressEthTx eb (mkRound (simulateTransaction round) None :: node)
                             q etx attempt initialBroadcastAt
  /\ eth_key_states q' !! (EthTx.FromAddress etx, EthTx.EVMChainID etx) = Some (nonce + 1)
  /\ (forall r, r ∈ eth_txes q' -> EthTx.ID r = EthTx.ID etx -> EthTx.State r = EthTxUnconfirmed)
  /\ (forall a, a ∈ eth_tx_attempts q' -> EthTxAttempt.ID a = EthTxAttempt.ID attempt ->
                EthTxAttempt.State a = EthTxAttemptBroadcast).
Proof.
  intros Hetx Hattempt Hsent Hsend [Hexp Hfatal] Hkind Hnonce Hkey Hrow Harow q'.
  set (etx1 := EthTx.with_BroadcastAt (Some initialBroadcastAt) etx).
  destruct (saveAttempt_saves q etx1 attempt [] nonce q') as [etx' Hsave];
    try done; [constructor |].
  assert (handleInProgressEthTx eb (round :: node) q etx attempt initialBroadcastAt
          = Returns (q', None)) as Hrun.
  { rewrite handleInProgressEthTx_unfold; try done; try (by rewrite Hsend).
    rewrite Hsend. simpl.
    assert (SendError.IsNonceTooLowError e || SendError.IsReplacementUnderpriced e = true) as ->.
    { apply orb_true_iff. tauto. }
    simpl. fold etx1. by rewrite Hsave. }
  split; [done |]. split.
  { rewrite Hrun. rewrite handleInProgressEthTx_unfold; try done.
    simpl. fold etx1. by rewrite Hsave. }
  split; [apply (broadcast_saved_next_nonce q etx1) |].
  split.
  - intros r Hin Hid. by apply (broadcast_saved_eth_tx q etx1 attempt nonce).
  - apply broadcast_saved_attempt.
Qed.

(** ** Resuming an in_progress transaction *)

Lemma find_Some_elem_of {A : Type} (p : A -> bool) (rows : list A) (r : A) :
  find p rows = Some r -> r ∈ rows /\ p r = true.
Proof.
  intros H. apply find_some in H as [Hin Hp]. split; [by apply list_elem_of_In | done].
Qed.

Lemma getInProgressEthTx_Some (q : DB) (fromAddress : Z) (etx : EthTx.t) :
  getInProgressEthTx q fromAddress = (Some etx, None) ->
  exists row attempt,
    row ∈ eth_txes q
    /\ EthTx.FromAddress row = fromAddress
    /\ EthTx.State row = EthTxInProgress
    /\ etx = EthTx.with_EthTxAttempts [attempt] row
    /\ attempt ∈ eth_tx_attempts q
    /\ EthTxAttempt.EthTxID attempt = EthTx.ID row
    /\ EthTxAttempt.State attempt = EthTxAttemptInProgress.
Proof.
  unfold getInProgressEthTx.
  destruct (find _ (eth_txes q)) as [row|] eqn:Hfind; [|discriminate].
  apply find_Some_elem_of in Hfind as [Hin Hp].
  apply andb_true_iff in Hp as [Hfrom Hstate].
  apply Z.eqb_eq in Hfrom. apply bool_decide_eq_true in Hstate.
  unfold loadEthTxAttempts. simpl.
  destruct (List.filter _ (eth_tx_attempts q)) as [|a [|b rest]] eqn:Hload; try discriminate.
  destruct (decide (EthTxAttempt.State a <> EthTxAttemptInProgress)) as [|Ha]; [discriminate |].
  intros [= <-].
  assert (In a (List.filter (fun a => EthTxAttempt.EthTxID a =? EthTx.ID row) (eth_tx_attempts q)))
    as Hina by (rewrite Hload; by left).
  apply filter_In in Hina as [Hina Hfk]. apply Z.eqb_eq in Hfk.
  exists row, a. repeat split; try done.
  - by apply list_elem_of_In.
  - by destruct (decide (EthTxAttempt.State a = EthTxAttemptInProgress)).
Qed.

(** C5, amended.  An in_progress EthTx found at the start of a worker cycle
    is resumed with the row's created_at as the initial broadcast time: that
    is the time handleInProgressEthTx is given, and on the success path it is
    what ends up in broadcast_at, whatever the row held there. *)
Theorem handleAnyInProgressEthTx_resumes_with_created_at (eb : Env) (round : Round)
    (node : list Round) (q : DB) (fromAddress : Z) (etx : EthTx.t) (nonce : Z) :
  getInProgressEthTx q fromAddress = (Some etx, None) ->
  sent etx round ->
  sendTransaction round = None ->
  EthTx.Nonce etx = Some nonce ->
  eth_key_states q !! (EthTx.FromAddress etx, EthTx.EVMChainID etx) = Some nonce ->
  exists attempt q',
    EthTx.EthTxAttempts etx = [attempt]
    /\ (forall rounds,
          handleAnyInProgressEthTx eb rounds false q fromAddress
          = wrapped (handleInProgressEthTx eb rounds q etx attempt (EthTx.CreatedAt etx))
                    "handleAnyInProgressEthTx failed")
    /\ handleAnyInProgressEthTx eb (round :: node) false q fromAddress = Returns (q', None)
    /\ (exists r, r ∈ eth_txes q' /\ EthTx.ID r = EthTx.ID etx)
    /\ forall r, r ∈ eth_txes q' -> EthTx.ID r = EthTx.ID etx ->
                 EthTx.State r = EthTxUnconfirmed
                 /\ EthTx.BroadcastAt r = Some (EthTx.CreatedAt etx).
Proof.
  intros Hget Hsent Hsend Hnonce Hkey.
  destruct (getInProgressEthTx_Some _ _ _ Hget)
    as (row & attempt & Hrow & Hfrom & Hstate & -> & Hattempt & Hfk & Hastate).
  set (etx := EthTx.with_EthTxAttempts [attempt] row) in *.
  set (etx1 := EthTx.with_BroadcastAt (Some (EthTx.CreatedAt etx)) etx).
  exists attempt, (broadcast_saved q etx1 attempt nonce).
  assert (forall rounds,
             handleAnyInProgressEthTx eb rounds false q fromAddress
             = wrapped (handleInProgressEthTx eb rounds q etx attempt (EthTx.CreatedAt etx))
                       "handleAnyInProgressEthTx failed") as Hany.
  { intros rounds. unfold handleAnyInProgressEthTx. rewrite Hget. reflexivity. }
  destruct (saveAttempt_saves q etx1 attempt [] nonce (broadcast_saved q etx1 attempt nonce))
    as [etx' Hsave]; try done.
  { exists row. done. }
  { by exists attempt. }
  { constructor. }
  split; [done |]. split; [done |]. split.
  { rewrite Hany. rewrite handleInProgressEthTx_unfold; try done; try (by rewrite Hsend).
    rewrite Hsend. cbv beta zeta iota delta [answers orb]. fold etx1. by rewrite Hsave. }
  split.
  { exists (EthTx.with_BroadcastAt (EthTx.BroadcastAt etx1)
              (EthTx.with_Error (EthTx.Error etx1) (EthTx.with_State EthTxUnconfirmed row))).
    split; [|done]. simpl. unfold update_where.
    apply list_elem_of_fmap. exists row. split; [|done].
    by rewrite Z.eqb_refl. }
  intros r Hin Hid.
  destruct (broadcast_saved_eth_tx q etx1 attempt nonce r Hin Hid) as (Hs & Hb & _).
  done.
Qed.

(** ** saveFatallyErroredTransaction *)

Lemma fatal_saved_eth_tx (q : DB) (etx : EthTx.t) (r : EthTx.t) :
  r ∈ eth_txes (fatal_saved q etx) ->
  EthTx.ID r = EthTx.ID etx ->
  EthTx.State r = EthTxFatalError
  /\ EthTx.Nonce r = None
  /\ EthTx.BroadcastAt r = None
  /\ EthTx.Error r = EthTx.Error etx.
Proof.
  intros Hin Hid. simpl in Hin.
  apply update_where_state in Hin as (r0 & _ & _ & ->); done.
Qed.

Lemma fatal_saved_other_eth_tx (q : DB) (etx : EthTx.t) (r : EthTx.t) :
  EthTx.ID r <> EthTx.ID etx ->
  r ∈ eth_txes (fatal_saved q etx) <-> r ∈ eth_txes q.
Proof.
  intros Hid. simpl. unfold update_where. rewrite list_elem_of_fmap. split.
  - intros (r0 & -> & Hin).
    destruct (Z.eqb_spec (EthTx.ID r0) (EthTx.ID etx)) as [E|E]; [|done].
    by destruct Hid.
  - intros Hin. exists r. split; [|done].
    by destruct (Z.eqb_spec (EthTx.ID r) (EthTx.ID etx)).
Qed.

Lemma fatal_saved_attempts (q : DB) (etx : EthTx.t) (a : EthTxAttempt.t) :
  a ∈ eth_tx_attempts (fatal_saved q etx) <->
  a ∈ eth_tx_attempts q /\ EthTxAttempt.EthTxID a <> EthTx.ID etx.
Proof.
  simpl. unfold delete_where.
  rewrite list_elem_of_In, filter_In, <- list_elem_of_In, negb_true_iff, Z.eqb_neq. tauto.
Qed.

Lemma saveFatallyErroredTransaction_saves (eb : Env) (q : DB) (etx : EthTx.t) (s : string) :
  EthTx.State etx = EthTxInProgress ->
  EthTx.Error etx = Some s ->
  resume_pipeline eb etx s = None ->
  (exists r, r ∈ eth_txes q /\ EthTx.ID r = EthTx.ID etx) ->
  exists etx',
    saveFatallyErroredTransaction eb q etx = Returns (etx', fatal_saved q etx, None)
    /\ EthTx.State etx' = EthTxFatalError /\ EthTx.Nonce etx' = None.
Proof.
  intros Hstate Herr Hresume (r & Hr & Hid). unfold saveFatallyErroredTransaction.
  destruct (decide (EthTx.State etx <> EthTxInProgress)); [done |].
  rewrite Herr, Hresume. unfold Transaction, update_eth_tx. simpl.
  match goal with |- context [returning_first ?p ?f (eth_txes q)] =>
    destruct (returning_first p f (eth_txes q)) as [row|] eqn:Hrow end.
  2: { exfalso.
       match type of Hrow with returning_first ?p ?f _ = None =>
         destruct (returning_first_found p f (eth_txes q)) as [row Hsome] end.
       - exists r. split; [done |]. by apply Z.eqb_eq.
       - congruence. }
  apply returning_first_Some in Hrow as (r0 & _ & _ & ->).
  eexists. split; [reflexivity |]. done.
Qed.

(** What saveFatallyErroredTransaction does for any broadcaster, by the
    answer of the pipeline resume that comes first. *)
Lemma saveFatallyErroredTransaction_by_resume (eb : Env) (q : DB) (etx : EthTx.t) :
  (forall s,
     EthTx.State etx = EthTxInProgress ->
     EthTx.Error etx = Some s ->
     resume_pipeline eb etx s = None ->
     (exists r, r ∈ eth_txes q /\ EthTx.ID r = EthTx.ID etx) ->
     exists etx' q',
       saveFatallyErroredTransaction eb q etx = Returns (etx', q', None)
       /\ (exists r, r ∈ eth_txes q' /\ EthTx.ID r = EthTx.ID etx)
       /\ (forall r, r ∈ eth_txes q' -> EthTx.ID r = EthTx.ID etx ->
             EthTx.State r = EthTxFatalError
             /\ EthTx.Nonce r = None
             /\ EthTx.BroadcastAt r = None
             /\ EthTx.Error r = Some s)
       /\ (forall a, a ∈ eth_tx_attempts q' -> EthTxAttempt.EthTxID a <> EthTx.ID etx)
       /\ (forall r, EthTx.ID r <> EthTx.ID etx -> r ∈ eth_txes q' <-> r ∈ eth_txes q)
       /\ (forall a, EthTxAttempt.EthTxID a <> EthTx.ID etx ->
                     a ∈ eth_tx_attempts q' <-> a ∈ eth_tx_attempts q)
       /\ eth_key_states q' = eth_key_states q)
  /\ (forall s failed,
        EthTx.State etx = EthTxInProgress ->
        EthTx.Error etx = Some s ->
        resume_pipeline eb etx s = Some failed ->
        saveFatallyErroredTransaction eb q etx = Returns (etx, q, Some failed))
  /\ (EthTx.State etx <> EthTxInProgress ->
        exists msg, saveFatallyErroredTransaction eb q etx = Returns (etx, q, Some msg)).
Proof.
  split; [|split].
  - intros s Hstate Herr Hresume Hrow.
    destruct (saveFatallyErroredTransaction_saves eb q etx s) as (etx' & Hsave & _); try done.
    exists etx', (fatal_saved q etx). split; [done |].
    split.
    { destruct Hrow as (r & Hr & Hid).
      exists (EthTx.with_Nonce None
                (EthTx.with_BroadcastAt None
                   (EthTx.with_Error (EthTx.Error etx) (EthTx.with_State EthTxFatalError r)))).
      split; [|done].
      simpl. unfold update_where. apply list_elem_of_fmap. exists r. split; [|done].
      apply Z.eqb_eq in Hid. by rewrite Hid. }
    split.
    { intros r Hin Hid. rewrite <- Herr. by apply (fatal_saved_eth_tx q etx). }
    split.
    { intros a Ha. by apply fatal_saved_attempts in Ha as [_ Hne]. }
    split; [apply fatal_saved_other_eth_tx |].
    split; [|done].
    intros a Hne. rewrite fatal_saved_attempts. tauto.
  - intros s failed Hstate Herr Hresume. unfold saveFatallyErroredTransaction.
    destruct (decide (EthTx.State etx <> EthTxInProgress)); [done |].
    by rewrite Herr, Hresume.
  - intros Hstate. unfold saveFatallyErroredTransaction.
    destruct (decide (EthTx.State etx <> EthTxInProgress)); [by eexists | done].
Qed.

(** C6.  The broadcaster is the one NewEthBroadcaster builds, whatever
    resume callback it is handed.  For every in_progress EthTx of the store
    with its error string set (empty or not), saveFatallyErroredTransaction
    returns nil and leaves the row in fatal_error with nonce and
    broadcast_at null and the error string recorded, leaves no attempt of
    that EthTx, and leaves next_nonce, every other row and every other
    attempt as they were.  For an EthTx that is not in_progress it returns
    an error and changes nothing. *)
Theorem saveFatallyErroredTransaction_frame (ethClientChainID : Z)
    (configEvmEIP1559DynamicFees : bool)
    (configEvmMaxGasPriceWei configEvmGasPriceDefault : Z)
    (estimatorGetLegacyGas : list Z -> Z -> bool -> (Z * Z) + string)
    (estimatorBumpLegacyGas : option Z -> Z -> (Z * Z) + string)
    (keystoreSignTx : EthTx.t -> Z -> Z -> (Z * list Z) + string)
    (resumeCallback : option (Z -> string -> option ResumeError))
    (q : DB) (etx : EthTx.t) :
  let eb := NewEthBroadcaster ethClientChainID configEvmEIP1559DynamicFees
              configEvmMaxGasPriceWei configEvmGasPriceDefault
              estimatorGetLegacyGas estimatorBumpLegacyGas keystoreSignTx resumeCallback in
  (forall s,
     EthTx.State etx = EthTxInProgress ->
     EthTx.Error etx = Some s ->
     (exists r, r ∈ eth_txes q /\ EthTx.ID r = EthTx.ID etx) ->
     exists etx' q',
       saveFatallyErroredTransaction eb q etx = Returns (etx', q', None)
       /\ (exists r, r ∈ eth_txes q' /\ EthTx.ID r = EthTx.ID etx)
       /\ (forall r, r ∈ eth_txes q' -> EthTx.ID r = EthTx.ID etx ->
             EthTx.State r = EthTxFatalError
             /\ EthTx.Nonce r = None
             /\ EthTx.BroadcastAt r = None
             /\ EthTx.Error r = Some s)
       /\ (forall a, a ∈ eth_tx_attempts q' -> EthTxAttempt.EthTxID a <> EthTx.ID etx)
       /\ (forall r, EthTx.ID r <> EthTx.ID etx -> r ∈ eth_txes q' <-> r ∈ eth_txes q)
       /\ (forall a, EthTxAttempt.EthTxID a <> EthTx.ID etx ->
                     a ∈ eth_tx_attempts q' <-> a ∈ eth_tx_attempts q)
       /\ eth_key_states q' = eth_key_states q)
  /\ (EthTx.State etx <> EthTxInProgress ->
        exists msg, saveFatallyErroredTransaction eb q etx = Returns (etx, q, Some msg)).
Proof.
  intros eb.
  destruct (saveFatallyErroredTransaction_by_resume eb q etx) as (Hlands & _ & Hstate).
  split; [|exact Hstate].
  intros s Hin_progress Herror Hrow.
  apply (Hlands s Hin_progress Herror); [|exact Hrow].
  unfold resume_pipeline, eb, NewEthBroadcaster. simpl.
  by destruct (EthTx.PipelineTaskRunID etx).
Qed.

(** ** Retrying with a new attempt *)

Lemma handleInProgressEthTx_bump (eb : Env) (round : Round) (node : list Round) (q : DB)
    (etx : EthTx.t) (attempt : EthTxAttempt.t) (initialBroadcastAt : Z) (e : SendError.t) :
  EthTx.State etx = EthTxInProgress ->
  sent etx round ->
  sendTransaction round = Some e ->
  terminally_underpriced e ->
  handleInProgressEthTx eb (round :: node) q etx attempt initialBroadcastAt
  = tryAgainBumpingGas eb (handleInProgressEthTx eb node) q (Some e)
      (EthTx.with_BroadcastAt (Some initialBroadcastAt) etx) attempt initialBroadcastAt.
Proof.
  intros Hstate Hsent Hsend ([Hexp Hfatal] & Hlow & Hrepl & Hunder).
  rewrite handleInProgressEthTx_unfold; try done; try (by rewrite Hsend).
  rewrite Hsend. cbv beta zeta iota delta [answers orb].
  rewrite Hlow, Hrepl, Hunder. reflexivity.
Qed.

Lemma handleInProgressEthTx_reestimate (eb : Env) (round : Round) (node : list Round) (q : DB)
    (etx : EthTx.t) (attempt : EthTxAttempt.t) (initialBroadcastAt : Z) (e : SendError.t) :
  EthTx.State etx = EthTxInProgress ->
  sent etx round ->
  sendTransaction round = Some e ->
  fee_too_low_or_high e ->
  handleInProgressEthTx eb (round :: node) q etx attempt initialBroadcastAt
  = tryAgainWithNewEstimation eb (handleInProgressEthTx eb node) q (Some e)
      (EthTx.with_BroadcastAt (Some initialBroadcastAt) etx) attempt initialBroadcastAt.
Proof.
  intros Hstate Hsent Hsend ([Hexp Hfatal] & Hlow & Hrepl & Hunder & Hfee).
  rewrite handleInProgressEthTx_unfold; try done; try (by rewrite Hsend).
  rewrite Hsend. cbv beta zeta iota delta [answers orb].
  rewrite Hlow, Hrepl, Hunder.
  assert (SendError.IsFeeTooLow e || SendError.IsFeeTooHigh e = true) as Hor.
  { apply orb_true_iff. tauto. }
  unfold orb in Hor. rewrite Hor. reflexivity.
Qed.

(** C8. For an attempt with tx_type 0x2 whose send is classified
    TerminallyUnderpriced, the bump-gas retry returns a hard error to the
    worker: no replacement attempt is built or saved (the store is as it
    was, whatever the continuation), and handleInProgressEthTx reports that
    error instead of a success. *)
Theorem tryAgainBumpingGas_dynamic_fee_hard_error (eb : Env) (round : Round)
    (node : list Round) (q : DB) (etx : EthTx.t) (attempt : EthTxAttempt.t)
    (initialBroadcastAt : Z) (e : SendError.t) :
  EthTxAttempt.TxType attempt = 2 ->
  EthTx.State etx = EthTxInProgress ->
  sent etx round ->
  sendTransaction round = Some e ->
  terminally_underpriced e ->
  (forall again sendError etx,
     tryAgainBumpingGas eb again q sendError etx attempt initialBroadcastAt
     = Returns (q, Some bump_unsupported))
  /\ handleInProgressEthTx eb (round :: node) q etx attempt initialBroadcastAt
     = Returns (q, Some bump_unsupported).
Proof.
  intros Htype Hstate Hsent Hsend Hkind.
  assert (forall again sendError etx,
             tryAgainBumpingGas eb again q sendError etx attempt initialBroadcastAt
             = Returns (q, Some bump_unsupported)) as Hbump.
  { intros again sendError etx0. unfold tryAgainBumpingGas. by rewrite Htype. }
  split; [done |].
  rewrite (handleInProgressEthTx_bump eb round node q etx attempt initialBroadcastAt e); try done.
Qed.

Lemma tryAgainWithNewGas_legacy (eb : Env)
    (again : DB -> EthTx.t -> EthTxAttempt.t -> Z -> Run (DB * error))
    (q : DB) (etx : EthTx.t) (attempt : EthTxAttempt.t) (initialBroadcastAt : Z)
    (newGasPrice newGasLimit hash : Z) (signedTxBytes : list Z) :
  SignTx eb etx newGasPrice newGasLimit = inl (hash, signedTxBytes) ->
  tryAgainWithNewGas eb again q etx attempt initialBroadcastAt newGasPrice newGasLimit
  = again (replaced q attempt (legacy_replacement q etx newGasPrice newGasLimit hash signedTxBytes))
          etx
          (legacy_replacement q etx newGasPrice newGasLimit hash signedTxBytes)
          initialBroadcastAt.
Proof.
  intros Hsign. unfold tryAgainWithNewGas, NewLegacyAttempt. rewrite Hsign. reflexivity.
Qed.

Lemma elem_of_delete_where {A : Type} (p : A -> bool) (rows : list A) (r : A) :
  r ∈ delete_where p rows <-> r ∈ rows /\ p r = false.
Proof.
  unfold delete_where. by rewrite list_elem_of_In, filter_In, <- list_elem_of_In, negb_true_iff.
Qed.

(** The replacement has taken the place of the rejected attempt. *)
Lemma elem_of_replaced (q : DB) (attempt replacement a : EthTxAttempt.t) :
  a ∈ eth_tx_attempts (replaced q attempt replacement)
  <-> a = replacement
      \/ (a ∈ eth_tx_attempts q /\ EthTxAttempt.ID a <> EthTxAttempt.ID attempt).
Proof.
  simpl. rewrite elem_of_app, elem_of_delete_where, list_elem_of_singleton.
  destruct (Z.eqb_spec (EthTxAttempt.ID a) (EthTxAttempt.ID attempt)); split;
    intros [H|H]; try tauto; destruct H; try tauto; try discriminate.
Qed.

(** A replacement that the node accepts is saved as broadcast. *)
Lemma handleInProgressEthTx_replacement_accepted (eb : Env) (next : Round) (node : list Round)
    (q : DB) (etx : EthTx.t) (attempt replacement : EthTxAttempt.t)
    (initialBroadcastAt nonce : Z) :
  let etx1 := EthTx.with_BroadcastAt (Some initialBroadcastAt) etx in
  EthTx.State etx = EthTxInProgress ->
  EthTxAttempt.State replacement = EthTxAttemptInProgress ->
  sent etx next ->
  sendTransaction next = None ->
  EthTx.Nonce etx = Some nonce ->
  eth_key_states q !! (EthTx.FromAddress etx, EthTx.EVMChainID etx) = Some nonce ->
  (exists r, r ∈ eth_txes q /\ EthTx.ID r = EthTx.ID etx) ->
  handleInProgressEthTx eb (next :: node) (replaced q attempt replacement) etx1 replacement
                        initialBroadcastAt
  = Returns (broadcast_saved (replaced q attempt replacement) etx1 replacement nonce, None)
  /\ EthTxAttempt.with_State EthTxAttemptBroadcast replacement
     ∈ eth_tx_attempts (broadcast_saved (replaced q attempt replacement) etx1 replacement nonce).
Proof.
  intros etx1 Hstate Hrepl Hsent Hsend Hnonce Hkey Hrow. split.
  - destruct (saveAttempt_saves (replaced q attempt replacement) etx1 replacement [] nonce
                (broadcast_saved (replaced q attempt replacement) etx1 replacement nonce))
      as [etx' Hsave]; try done.
    { exists replacement. split; [|done]. apply elem_of_replaced. by left. }
    { constructor. }
    rewrite handleInProgressEthTx_unfold; try done; try (by rewrite Hsend).
    rewrite Hsend. simpl.
    change (EthTx.with_BroadcastAt (Some initialBroadcastAt) etx1) with etx1.
    by rewrite Hsave.
  - simpl. unfold update_where. rewrite fmap_app. apply elem_of_app. right.
    simpl. rewrite Z.eqb_refl. apply list_elem_of_here.
Qed.

(** C9. A retry after a FeeTooLow / FeeTooHigh classification
    (re-estimation) or a TerminallyUnderpriced one (bump) builds its
    replacement as a legacy attempt: tx_type 0x0, gas_price set to what the
    legacy estimator returned (GetLegacyGas with a forced refetch, resp.
    BumpLegacyGas), no tip cap and no fee cap.  That attempt takes the place
    of the rejected one in eth_tx_attempts and is what the run goes on with,
    whatever it goes on to do; when the node then accepts it, it is the
    attempt saved as broadcast.  This holds for every configuration,
    EvmEIP1559DynamicFees on included, and on the re-estimation path for
    every type of the rejected attempt, 0x2 included. *)
Theorem retry_builds_legacy_attempt (eb : Env) (q : DB) (etx : EthTx.t)
    (attempt : EthTxAttempt.t) (initialBroadcastAt : Z)
    (gasPrice gasLimit hash : Z) (signedTxBytes : list Z) :
  SignTx eb (EthTx.with_BroadcastAt (Some initialBroadcastAt) etx) gasPrice gasLimit
    = inl (hash, signedTxBytes) ->
  let etx1 := EthTx.with_BroadcastAt (Some initialBroadcastAt) etx in
  exists replacement q',
    EthTxAttempt.TxType replacement = 0
    /\ EthTxAttempt.GasPrice replacement = Some gasPrice
    /\ EthTxAttempt.GasTipCap replacement = None
    /\ EthTxAttempt.GasFeeCap replacement = None
    /\ EthTxAttempt.ChainSpecificGasLimit replacement = gasLimit
    /\ EthTxAttempt.EthTxID replacement = EthTx.ID etx
    /\ EthTxAttempt.State replacement = EthTxAttemptInProgress
    /\ EthTxAttempt.Hash replacement = hash
    /\ EthTxAttempt.SignedRawTx replacement = signedTxBytes
    /\ (forall a, a ∈ eth_tx_attempts q'
                  <-> a = replacement
                      \/ (a ∈ eth_tx_attempts q
                          /\ EthTxAttempt.ID a <> EthTxAttempt.ID attempt))
    /\ eth_txes q' = eth_txes q
    /\ eth_key_states q' = eth_key_states q
    /\ (GetLegacyGas eb (EthTx.EncodedPayload etx) (EthTx.GasLimit etx) true
          = inl (gasPrice, gasLimit) ->
        (forall again sendError,
           tryAgainWithNewEstimation eb again q sendError etx1 attempt initialBroadcastAt
           = again q' etx1 replacement initialBroadcastAt)
        /\ (forall round e next node nonce,
              EthTx.State etx = EthTxInProgress ->
              sent etx round ->
              sendTransaction round = Some e ->
              fee_too_low_or_high e ->
              sent etx next ->
              sendTransaction next = None ->
              EthTx.Nonce etx = Some nonce ->
              eth_key_states q !! (EthTx.FromAddress etx, EthTx.EVMChainID etx) = Some nonce ->
              (exists r, r ∈ eth_txes q /\ EthTx.ID r = EthTx.ID etx) ->
              handleInProgressEthTx eb (round :: next :: node) q etx attempt initialBroadcastAt
              = Returns (broadcast_saved q' etx1 replacement nonce, None)
              /\ EthTxAttempt.with_State EthTxAttemptBroadcast replacement
                 ∈ eth_tx_attempts (broadcast_saved q' etx1 replacement nonce)))
    /\ (forall attemptGasPrice,
          EthTxAttempt.TxType attempt <> 2 ->
          EthTxAttempt.GasPrice attempt = Some attemptGasPrice ->
          BumpLegacyGas eb (Some attemptGasPrice) (EthTx.GasLimit etx) = inl (gasPrice, gasLimit) ->
          ~ (gasPrice = attemptGasPrice /\ gasPrice = EvmMaxGasPriceWei eb) ->
          (forall again sendError,
             tryAgainBumpingGas eb again q sendError etx1 attempt initialBroadcastAt
             = again q' etx1 replacement initialBroadcastAt)
          /\ (forall round e next node nonce,
                EthTx.State etx = EthTxInProgress ->
                sent etx round ->
                sendTransaction round = Some e ->
                terminally_underpriced e ->
                sent etx next ->
                sendTransaction next = None ->
                EthTx.Nonce etx = Some nonce ->
                eth_key_states q !! (EthTx.FromAddress etx, EthTx.EVMChainID etx) = Some nonce ->
                (exists r, r ∈ eth_txes q /\ EthTx.ID r = EthTx.ID etx) ->
                handleInProgressEthTx eb (round :: next :: node) q etx attempt initialBroadcastAt
                = Returns (broadcast_saved q' etx1 replacement nonce, None)
                /\ EthTxAttempt.with_State EthTxAttemptBroadcast replacement
                   ∈ eth_tx_attempts (broadcast_saved q' etx1 replacement nonce))).
Proof.
  intros Hsign etx1.
  set (replacement := legacy_replacement q etx1 gasPrice gasLimit hash signedTxBytes).
  exists replacement, (replaced q attempt replacement).
  do 9 (split; [reflexivity |]).
  split; [intros a; apply elem_of_replaced |].
  split; [reflexivity |]. split; [reflexivity |].
  assert (Hestimate : GetLegacyGas eb (EthTx.EncodedPayload etx) (EthTx.GasLimit etx) true
                        = inl (gasPrice, gasLimit) ->
                      forall again sendError,
                        tryAgainWithNewEstimation eb again q sendError etx1 attempt
                                                  initialBroadcastAt
                        = again (replaced q attempt replacement) etx1 replacement
                                initialBroadcastAt).
  { intros Hgas again sendError. unfold tryAgainWithNewEstimation.
    change (EthTx.EncodedPayload etx1) with (EthTx.EncodedPayload etx).
    change (EthTx.GasLimit etx1) with (EthTx.GasLimit etx). rewrite Hgas.
    exact (tryAgainWithNewGas_legacy eb again q etx1 attempt initialBroadcastAt
             gasPrice gasLimit hash signedTxBytes Hsign). }
  assert (Hbump : forall attemptGasPrice,
             EthTxAttempt.TxType attempt <> 2 ->
             EthTxAttempt.GasPrice attempt = Some attemptGasPrice ->
             BumpLegacyGas eb (Some attemptGasPrice) (EthTx.GasLimit etx)
               = inl (gasPrice, gasLimit) ->
             ~ (gasPrice = attemptGasPrice /\ gasPrice = EvmMaxGasPriceWei eb) ->
             forall again sendError,
               tryAgainBumpingGas eb again q sendError etx1 attempt initialBroadcastAt
               = again (replaced q attempt replacement) etx1 replacement initialBroadcastAt).
  { intros attemptGasPrice Htype Hprice Hbumped Hceiling again sendError.
    unfold tryAgainBumpingGas.
    destruct (Z.eqb_spec (EthTxAttempt.TxType attempt) 2); [done |].
    change (EthTx.GasLimit etx1) with (EthTx.GasLimit etx).
    rewrite Hprice, Hbumped.
    assert ((gasPrice =? attemptGasPrice) && (gasPrice =? EvmMaxGasPriceWei eb) = false) as ->.
    { apply andb_false_iff.
      destruct (Z.eqb_spec gasPrice attemptGasPrice); [|by left].
      destruct (Z.eqb_spec gasPrice (EvmMaxGasPriceWei eb)); [|by right].
      by destruct Hceiling. }
    exact (tryAgainWithNewGas_legacy eb again q etx1 attempt initialBroadcastAt
             gasPrice gasLimit hash signedTxBytes Hsign). }
  split.
  - intros Hgas. split; [exact (Hestimate Hgas) |].
    intros round e next node nonce Hstate Hsent Hsend Hkind Hnext Haccepted Hnonce Hkey Hrow.
    rewrite (handleInProgressEthTx_reestimate eb round (next :: node) q etx attempt
               initialBroadcastAt e Hstate Hsent Hsend Hkind).
    fold etx1. rewrite (Hestimate Hgas).
    by apply handleInProgressEthTx_replacement_accepted.
  - intros attemptGasPrice Htype Hprice Hbumped Hceiling.
    split; [exact (Hbump attemptGasPrice Htype Hprice Hbumped Hceiling) |].
    intros round e next node nonce Hstate Hsent Hsend Hkind Hnext Haccepted Hnonce Hkey Hrow.
    rewrite (handleInProgressEthTx_bump eb round (next :: node) q etx attempt
               initialBroadcastAt e Hstate Hsent Hsend Hkind).
    fold etx1. rewrite (Hbump attemptGasPrice Htype Hprice Hbumped Hceiling).
    by apply handleInProgressEthTx_replacement_accepted.
Qed.

(** C10. On the bump-gas retry of a legacy attempt, when the bumped gas price
    the estimator returns equals the gas price of the attempt and equals
    EvmMaxGasPriceWei, tryAgainBumpingGas returns a terminal error: no
    replacement is saved (the store is as it was) and nothing is sent again
    (the continuation and the answers the node has left play no part). *)
Theorem tryAgainBumpingGas_ceiling_is_terminal (eb : Env) (round : Round)
    (q : DB) (etx : EthTx.t) (attempt : EthTxAttempt.t)
    (initialBroadcastAt : Z) (e : SendError.t) (attemptGasPrice bumpedGasPrice bumpedGasLimit : Z) :
  EthTxAttempt.TxType attempt <> 2 ->
  EthTxAttempt.GasPrice attempt = Some attemptGasPrice ->
  BumpLegacyGas eb (Some attemptGasPrice) (EthTx.GasLimit etx) = inl (bumpedGasPrice, bumpedGasLimit) ->
  bumpedGasPrice = attemptGasPrice ->
  bumpedGasPrice = EvmMaxGasPriceWei eb ->
  (forall again sendError etx',
     EthTx.GasLimit etx' = EthTx.GasLimit etx ->
     tryAgainBumpingGas eb again q sendError etx' attempt initialBroadcastAt
     = Returns (q, Some bump_ceiling))
  /\ (EthTx.State etx = EthTxInProgress ->
      sent etx round ->
      sendTransaction round = Some e ->
      terminally_underpriced e ->
      forall node,
        handleInProgressEthTx eb (round :: node) q etx attempt initialBroadcastAt
        = Returns (q, Some bump_ceiling)).
Proof.
  intros Htype Hprice Hbump Hsame Hmax.
  assert (forall again sendError etx',
             EthTx.GasLimit etx' = EthTx.GasLimit etx ->
             tryAgainBumpingGas eb again q sendError etx' attempt initialBroadcastAt
             = Returns (q, Some bump_ceiling)) as Hterminal.
  { intros again sendError etx' Hlimit. unfold tryAgainBumpingGas.
    destruct (Z.eqb_spec (EthTxAttempt.TxType attempt) 2); [done |].
    rewrite Hlimit, Hprice, Hbump.
    rewrite <- Hmax, Hsame, !Z.eqb_refl. reflexivity. }
  split; [done |].
  intros Hstate Hsent Hsend Hkind node.
  rewrite (handleInProgressEthTx_bump eb round node q etx attempt initialBroadcastAt e); try done.
  by apply Hterminal.
Qed.

(** ** DropOldest *)

Section OrderBySorted.
Context {A : Type} (le : A -> A -> bool).
Hypothesis le_total : forall a b, le a b = false -> le b a = true.
Hypothesis le_trans : forall a b c, le a b = true -> le b c = true -> le a c = true.

Lemma place_sorted (x : A) (sorted : list A) :
  StronglySorted (fun a b => le a b = true) sorted ->
  StronglySorted (fun a b => le a b = true) (place le x sorted).
Proof using le_total le_trans.
  induction sorted as [|y rest IH]; simpl; intros Hs.
  - by repeat constructor.
  - apply StronglySorted_cons in Hs as [Hy Hrest].
    destruct (le x y) eqn:Hxy.
    + apply StronglySorted_cons. split.
      * constructor; [done |].
        eapply Forall_impl; [exact Hy |]. intros z Hz. by eapply le_trans.
      * by apply StronglySorted_cons.
    + apply StronglySorted_cons. split; [|by apply IH].
      apply Forall_forall. intros z Hz.
      apply elem_of_place in Hz as [->|Hz].
      * by apply le_total.
      * rewrite Forall_forall in Hy. by apply Hy.
Qed.

Lemma order_by_sorted (rows : list A) :
  StronglySorted (fun a b => le a b = true) (order_by le rows).
Proof using le_total le_trans.
  induction rows as [|x rows IH]; simpl; [constructor |]. by apply place_sorted.
Qed.

Lemma place_Permutation (x : A) (sorted : list A) : place le x sorted ≡ₚ x :: sorted.
Proof using Type.
  clear le_total le_trans.
  induction sorted as [|y rest IH]; simpl; [done |].
  destruct (le x y); [done |]. rewrite IH. apply Permutation_swap.
Qed.

Lemma order_by_Permutation (rows : list A) : order_by le rows ≡ₚ rows.
Proof using Type.
  clear le_total le_trans.
  induction rows as [|x rows IH]; simpl; [done |].
  by rewrite place_Permutation, IH.
Qed.
End OrderBySorted.

Lemma length_delete_where {A : Type} (p : A -> bool) (rows : list A) :
  (length (List.filter p rows) + length (delete_where p rows) = length rows)%nat.
Proof.
  unfold delete_where. induction rows as [|x rows IH]; simpl; [done |].
  destruct (p x); simpl; lia.
Qed.

Lemma elem_of_List_filter {A : Type} (p : A -> bool) (rows : list A) (r : A) :
  r ∈ List.filter p rows <-> r ∈ rows /\ p r = true.
Proof. by rewrite list_elem_of_In, filter_In, <- list_elem_of_In. Qed.

Lemma NoDup_List_filter {A : Type} (p : A -> bool) (rows : list A) :
  NoDup rows -> NoDup (List.filter p rows).
Proof.
  induction rows as [|x rows IH]; simpl; intros Hnd; [done |].
  apply NoDup_cons in Hnd as [Hx Hrows].
  destruct (p x); [|by apply IH].
  apply NoDup_cons. split; [|by apply IH].
  rewrite elem_of_List_filter. tauto.
Qed.

Lemma NoDup_fmap_eq {A B : Type} (f : A -> B) (l : list A) (x y : A) :
  NoDup (f <$> l) -> x ∈ l -> y ∈ l -> f x = f y -> x = y.
Proof.
  induction l as [|a l IH]; intros Hnd Hx Hy Hf; [by apply elem_of_nil in Hx |].
  simpl in Hnd. apply NoDup_cons in Hnd as [Ha Hl].
  apply elem_of_cons in Hx as [->|Hx]; apply elem_of_cons in Hy as [->|Hy]; try done.
  - destruct Ha. rewrite Hf. by apply list_elem_of_fmap_2.
  - destruct Ha. rewrite <- Hf. by apply list_elem_of_fmap_2.
  - by apply IH.
Qed.

Module DropOldestFacts.
Import DropOldestStrategy.

Lemma newer_total (a b : EthTx.t) : newer a b = false -> newer b a = true.
Proof. unfold newer. rewrite Z.leb_gt, Z.leb_le. lia. Qed.

Lemma newer_trans (a b c : EthTx.t) :
  newer a b = true -> newer b c = true -> newer a c = true.
Proof. unfold newer. rewrite !Z.leb_le. lia. Qed.

Lemma elem_of_queue (s : t) (rows : list EthTx.t) (r : EthTx.t) :
  r ∈ queue s rows <-> r ∈ rows /\ queued s r = true.
Proof. unfold queue. by rewrite elem_of_order_by, elem_of_List_filter. Qed.

Lemma NoDup_queue_ids (s : t) (rows : list EthTx.t) :
  NoDup (EthTx.ID <$> rows) -> NoDup (EthTx.ID <$> queue s rows).
Proof.
  intros Hnd. unfold queue.
  rewrite (order_by_Permutation newer (List.filter (queued s) rows)).
  induction rows as [|x rows IH]; simpl; [constructor |].
  simpl in Hnd. apply NoDup_cons in Hnd as [Hx Hrows].
  destruct (queued s x); simpl; [|by apply IH].
  apply NoDup_cons. split; [|by apply IH].
  intros Hin. apply Hx. apply list_elem_of_fmap in Hin as (y & Hy & Hin).
  apply elem_of_List_filter in Hin as [Hin _]. rewrite Hy. by apply list_elem_of_fmap_2.
Qed.

Lemma queue_split (s : t) (rows : list EthTx.t) :
  queue s rows = (newest s rows ++ drop (queueSize s) (queue s rows))%list.
Proof. unfold newest. by rewrite take_drop. Qed.

(** With ids that identify rows, the rows PruneQueue deletes are the rows
    of the queue behind the queueSize newest. *)
Lemma doomed_spec (s : t) (rows : list EthTx.t) (r : EthTx.t) :
  NoDup (EthTx.ID <$> rows) ->
  r ∈ rows ->
  doomed s rows r = true <-> r ∈ drop (queueSize s) (queue s rows).
Proof.
  intros Hnd Hr. unfold doomed, beyond. fold (queue s rows).
  rewrite andb_true_iff, bool_decide_eq_true. split.
  - intros [Hq Hid]. change (map EthTx.ID ?l) with (EthTx.ID <$> l) in Hid.
    apply list_elem_of_fmap in Hid as (r' & Hid & Hr').
    assert (r' ∈ rows) as Hrows.
    { assert (r' ∈ queue s rows) as Hqueue.
      { rewrite queue_split. apply elem_of_app. by right. }
      by apply elem_of_queue in Hqueue as [? _]. }
    by rewrite (NoDup_fmap_eq EthTx.ID rows r r' Hnd Hr Hrows Hid).
  - intros Hin. split.
    + assert (r ∈ queue s rows) as Hqueue.
      { rewrite queue_split. apply elem_of_app. by right. }
      by apply elem_of_queue in Hqueue as [_ ?].
    + change (map EthTx.ID ?l) with (EthTx.ID <$> l). by apply list_elem_of_fmap_2.
Qed.

Lemma newest_or_dropped (s : t) (rows : list EthTx.t) (r : EthTx.t) :
  NoDup (EthTx.ID <$> rows) ->
  r ∈ queue s rows ->
  (r ∈ newest s rows /\ r ∉ drop (queueSize s) (queue s rows))
  \/ ((r ∉ newest s rows) /\ r ∈ drop (queueSize s) (queue s rows)).
Proof.
  intros Hnd Hin.
  pose proof (NoDup_fmap_1 _ _ (NoDup_queue_ids s rows Hnd)) as Hq.
  rewrite queue_split in Hq, Hin. apply NoDup_app in Hq as (_ & Hdisj & _).
  apply elem_of_app in Hin as [Hin|Hin].
  - left. split; [done |]. by apply Hdisj.
  - right. split; [|done]. intros Hn. by apply (Hdisj r Hn).
Qed.

Lemma newest_above_dropped (s : t) (rows : list EthTx.t) (k d : EthTx.t) :
  NoDup (EthTx.ID <$> rows) ->
  k ∈ newest s rows ->
  d ∈ drop (queueSize s) (queue s rows) ->
  EthTx.ID d < EthTx.ID k.
Proof.
  intros Hnd Hk Hd.
  pose proof (order_by_sorted newer newer_total newer_trans (List.filter (queued s) rows)) as Hs.
  fold (queue s rows) in Hs. rewrite queue_split in Hs.
  pose proof (StronglySorted_app_1_elem_of _ _ _ _ _ Hs Hk Hd) as Hle.
  unfold newer in Hle. simpl in Hle. apply Z.leb_le in Hle.
  pose proof (NoDup_queue_ids s rows Hnd) as Hq.
  rewrite queue_split, fmap_app in Hq. apply NoDup_app in Hq as (_ & Hdisj & _).
  assert (EthTx.ID k <> EthTx.ID d); [|lia].
  intros Heq. apply (Hdisj (EthTx.ID k)).
  - by apply list_elem_of_fmap_2.
  - rewrite Heq. by apply list_elem_of_fmap_2.
Qed.
End DropOldestFacts.

(** C7. On a table whose ids identify its rows, DropOldest(S, N).PruneQueue
    deletes exactly the unstarted rows carrying subject S other than the N
    of them with the largest ids, whatever their from_address, and returns
    how many it deleted; rows of other subjects or in other states, and the
    other tables, stay as they are.  Afterwards the unstarted rows for S are
    the N largest-id ones (all of them when there were fewer), at most N. *)
Theorem DropOldest_PruneQueue_keeps_newest (s : DropOldestStrategy.t) (q : DB) :
  NoDup (EthTx.ID <$> eth_txes q) ->
  let rows := eth_txes q in
  let newest := DropOldestStrategy.newest s rows in
  exists n q',
    DropOldestStrategy.PruneQueue s q = (n, q', None)
    /\ (forall r, r ∈ eth_txes q' <->
                  r ∈ rows /\ ~ (DropOldestStrategy.queued s r = true /\ r ∉ newest))
    /\ n = Z.of_nat (length rows - length (eth_txes q'))
    /\ n = Z.of_nat (length (List.filter (DropOldestStrategy.queued s) rows)
                     - DropOldestStrategy.queueSize s)
    /\ (forall r r', EthTx.State r = EthTx.State r' -> EthTx.Subject r = EthTx.Subject r' ->
                     DropOldestStrategy.queued s r = DropOldestStrategy.queued s r')
    /\ (forall r, r ∈ rows -> DropOldestStrategy.queued s r = false -> r ∈ eth_txes q')
    /\ eth_tx_attempts q' = eth_tx_attempts q
    /\ eth_key_states q' = eth_key_states q
    /\ (forall r, r ∈ List.filter (DropOldestStrategy.queued s) (eth_txes q') <-> r ∈ newest)
    /\ (length (List.filter (DropOldestStrategy.queued s) (eth_txes q'))
        <= DropOldestStrategy.queueSize s)%nat
    /\ length newest
       = Nat.min (DropOldestStrategy.queueSize s)
                 (length (List.filter (DropOldestStrategy.queued s) rows))
    /\ (forall k r, k ∈ newest -> r ∈ rows -> DropOldestStrategy.queued s r = true ->
                    r ∉ newest -> EthTx.ID r < EthTx.ID k).
Proof.
  intros Hnd rows newest.
  set (queue := DropOldestStrategy.queue s rows).
  set (dropped := drop (DropOldestStrategy.queueSize s) queue).
  assert (Hrows : NoDup rows) by (by apply (NoDup_fmap_1 EthTx.ID)).
  assert (Hdoomed : forall r, r ∈ rows ->
                      DropOldestStrategy.doomed s rows r = true <-> r ∈ dropped).
  { intros r Hr. by apply DropOldestFacts.doomed_spec. }
  assert (Hside : forall r, r ∈ rows -> DropOldestStrategy.queued s r = true ->
                    (r ∈ newest /\ r ∉ dropped) \/ ((r ∉ newest) /\ r ∈ dropped)).
  { intros r Hr Hq. apply DropOldestFacts.newest_or_dropped; [done |].
    by apply DropOldestFacts.elem_of_queue. }
  assert (Hkept : forall r, r ∈ delete_where (DropOldestStrategy.doomed s rows) rows <->
                    r ∈ rows /\ ~ (DropOldestStrategy.queued s r = true /\ r ∉ newest)).
  { intros r. rewrite elem_of_delete_where. split.
    - intros [Hr Hnot]. split; [done |]. intros [Hq Hn].
      destruct (Hside r Hr Hq) as [[? _]|[_ Hd]]; [done |].
      apply Hdoomed in Hd; [|done]. congruence.
    - intros [Hr Hnot]. split; [done |].
      destruct (DropOldestStrategy.doomed s rows r) eqn:Hd; [|done].
      exfalso. apply Hnot. pose proof Hd as Hd'. apply Hdoomed in Hd'; [|done].
      unfold DropOldestStrategy.doomed in Hd. apply andb_true_iff in Hd as [Hq _].
      split; [done |].
      destruct (Hside r Hr Hq) as [[_ ?]|[? _]]; done. }
  assert (Hcount : length (List.filter (DropOldestStrategy.doomed s rows) rows) = length dropped).
  { apply Permutation_length. apply NoDup_Permutation.
    - by apply NoDup_List_filter.
    - pose proof (DropOldestFacts.NoDup_queue_ids s rows Hnd) as Hq.
      apply NoDup_fmap_1 in Hq. fold queue in Hq.
      rewrite <- (take_drop (DropOldestStrategy.queueSize s) queue) in Hq.
      by apply NoDup_app in Hq as (_ & _ & ?).
    - intros r. rewrite elem_of_List_filter. split.
      + intros [Hr Hd]. by apply Hdoomed.
      + intros Hd. assert (r ∈ rows) as Hr.
        { assert (r ∈ queue) as Hin.
          { rewrite <- (take_drop (DropOldestStrategy.queueSize s) queue).
            apply elem_of_app. by right. }
          by apply DropOldestFacts.elem_of_queue in Hin as [? _]. }
        split; [done |]. by apply Hdoomed. }
  assert (Hqueue_len : length queue = length (List.filter (DropOldestStrategy.queued s) rows)).
  { unfold queue, DropOldestStrategy.queue. apply length_order_by. }
  assert (Hafter : forall r,
             r ∈ List.filter (DropOldestStrategy.queued s)
                   (delete_where (DropOldestStrategy.doomed s rows) rows) <-> r ∈ newest).
  { intros r. rewrite elem_of_List_filter, Hkept. split.
    - intros [[Hr Hnot] Hq].
      destruct (Hside r Hr Hq) as [[? _]|[Hn _]]; [done |]. by destruct Hnot.
    - intros Hin.
      assert (r ∈ queue) as Hq.
      { rewrite <- (take_drop (DropOldestStrategy.queueSize s) queue).
        apply elem_of_app. by left. }
      apply DropOldestFacts.elem_of_queue in Hq as [Hr Hq].
      split; [|done]. split; [done |]. by intros [_ Hn]. }
  exists (Z.of_nat (length (List.filter (DropOldestStrategy.doomed s rows) rows))),
         (with_eth_txes (delete_where (DropOldestStrategy.doomed s rows) rows) q).
  split; [reflexivity |].
  split; [exact Hkept |].
  split.
  { simpl. pose proof (length_delete_where (DropOldestStrategy.doomed s rows) rows). f_equal. lia. }
  split.
  { rewrite Hcount. unfold dropped. rewrite length_drop, Hqueue_len. done. }
  split.
  { intros r r' Hs Hsub. unfold DropOldestStrategy.queued. by rewrite Hs, Hsub. }
  split.
  { intros r Hr Hq. simpl. apply Hkept. split; [done |]. intros [? _]. congruence. }
  split; [done |]. split; [done |].
  split; [exact Hafter |].
  split.
  { simpl.
    assert (List.filter (DropOldestStrategy.queued s)
              (delete_where (DropOldestStrategy.doomed s rows) rows) ≡ₚ newest) as ->.
    { apply NoDup_Permutation; [| |exact Hafter].
      - apply NoDup_List_filter. unfold delete_where. by apply NoDup_List_filter.
      - pose proof (DropOldestFacts.NoDup_queue_ids s rows Hnd) as Hq.
        apply NoDup_fmap_1 in Hq. fold queue in Hq.
        rewrite <- (take_drop (DropOldestStrategy.queueSize s) queue) in Hq.
        by apply NoDup_app in Hq as (? & _ & _). }
    unfold newest, DropOldestStrategy.newest. rewrite length_take. lia. }
  split.
  { unfold newest, DropOldestStrategy.newest. fold queue. by rewrite length_take, Hqueue_len. }
  intros k r Hk Hr Hq Hn.
  apply (DropOldestFacts.newest_above_dropped s rows); [done | done |].
  destruct (Hside r Hr Hq) as [[? _]|[_ ?]]; done.
Qed.

(** * The properties at work on the sample stores *)

(** C2 on the sample store: next_nonce 3 is expected and stored. *)
Lemma IncrementNextNonce_conditional_witness :
  eth_key_states sample_store !! (10, 1) = Some 3
  /\ (IncrementNextNonce sample_store 10 1 3).2 = None
  /\ eth_key_states (IncrementNextNonce sample_store 10 1 3).1 !! (10, 1) = Some 4.
Proof.
  split; [reflexivity |].
  destruct (IncrementNextNonce_conditional sample_store 10 1 3) as (Hinc & _).
  destruct (Hinc eq_refl) as (Hnil & Hnext & _).
  split; [exact Hnil | exact Hnext].
Defined.

(** C1 on the sample store.  With a callback the save goes through, the
    callback's write is in the store beside next_nonce 4 and the row is
    unconfirmed with its broadcast time; with a second callback that fails
    the error comes back and the store is the sample store again. *)
Lemma saveAttempt_save_broadcast_witness :
  (exists etx' q',
     saveAttempt sample_store sent_row in_progress_attempt EthTxAttemptBroadcast [register_key]
     = Returns (etx', q', None)
     /\ EthTx.State etx' = EthTxUnconfirmed
     /\ eth_key_states q' !! (10, 1) = Some 4
     /\ eth_key_states q' !! (11, 1) = Some 0
     /\ eth_txes q' = [EthTx.with_State EthTxUnconfirmed sent_row]
     /\ eth_tx_attempts q'
        = [EthTxAttempt.with_State EthTxAttemptBroadcast in_progress_attempt])
  /\ exists etx',
       saveAttempt sample_store sent_row in_progress_attempt EthTxAttemptBroadcast
                   [register_key; failing_callback]
       = Returns (etx', sample_store, Some "saveUnconfirmed failed: callback failed").
Proof.
  assert (Hrow : exists r, r ∈ eth_txes sample_store /\ EthTx.ID r = EthTx.ID sent_row).
  { exists in_progress_row. split; [apply list_elem_of_In; left; reflexivity | reflexivity]. }
  assert (Hattempt : exists a, a ∈ eth_tx_attempts sample_store
                               /\ EthTxAttempt.ID a = EthTxAttempt.ID in_progress_attempt).
  { exists in_progress_attempt. split; [apply list_elem_of_In; left; reflexivity | reflexivity]. }
  split.
  - destruct (saveAttempt_save_broadcast sample_store sent_row in_progress_attempt
                EthTxAttemptBroadcast [register_key]) as (_ & _ & _ & Hruns).
    destruct (Hruns 3 eq_refl eq_refl eq_refl eq_refl eq_refl Hrow Hattempt) as [Hok _].
    destruct (Hok (register_key (broadcast_saved sample_store sent_row in_progress_attempt 3)).1)
      as (etx' & Hsave & Hstate).
    { eapply ran_next; [reflexivity | apply ran_none]. }
    exists etx'. eexists. split; [exact Hsave |].
    split; [exact Hstate |]. repeat split; reflexivity.
  - destruct (saveAttempt_save_broadcast sample_store sent_row in_progress_attempt
                EthTxAttemptBroadcast [register_key; failing_callback]) as (_ & _ & _ & Hruns).
    destruct (Hruns 3 eq_refl eq_refl eq_refl eq_refl eq_refl Hrow Hattempt) as [_ Hfails].
    apply (Hfails "callback failed").
    eapply failure_later; [reflexivity | eapply failure_first; reflexivity].
Defined.

(** C3 on the sample store: value 0 goes before value 7, and of the two
    rows with value 0 the one created first is picked; it gets nonce 3. *)
Lemma nextUnstartedTransactionWithNonce_least_witness :
  eth_key_states unstarted_store !! (10, chainID sample_env) = Some 3
  /\ nextUnstartedTransactionWithNonce sample_env unstarted_store 10
     = (Some (sample_eth_tx 5 10 0 8 EthTxUnstarted (Some 3) None), None)
  /\ exists etx,
       nextUnstartedTransactionWithNonce sample_env unstarted_store 10
       = (Some (EthTx.with_Nonce (Some 3) etx), None)
       /\ forall r, r ∈ unstarted_rows unstarted_store 10 (chainID sample_env) ->
                    value_created_at_id_le etx r.
Proof.
  split; [reflexivity |]. split; [reflexivity |].
  destruct (nextUnstartedTransactionWithNonce_least sample_env unstarted_store 10 3 eq_refl)
    as (_ & Hsome).
  destruct Hsome as (etx & Hnext & _ & _ & _ & _ & Hleast); [discriminate |].
  exists etx. split; [exact Hnext | exact Hleast].
Defined.

(** C4 on the sample store: the node answers "nonce too low" and the
    transaction is saved as broadcast with next_nonce 4. *)
Lemma handleInProgressEthTx_nonce_consumed_witness :
  handleInProgressEthTx sample_env [nonce_too_low] sample_store
                        in_progress_row in_progress_attempt 100
  = handleInProgressEthTx sample_env [accepted] sample_store
                          in_progress_row in_progress_attempt 100
  /\ exists q',
       handleInProgressEthTx sample_env [nonce_too_low] sample_store
                             in_progress_row in_progress_attempt 100 = Returns (q', None)
       /\ eth_key_states q' !! (10, 1) = Some 4.
Proof.
  destruct (handleInProgressEthTx_nonce_consumed sample_env nonce_too_low [] sample_store
              in_progress_row in_progress_attempt 100
              (SendError.mk false false true false false false false false false "nonce too low")
              3)
    as (Hrun & Hsame & Hnext & _); try reflexivity.
  - intros Hsim. discriminate Hsim.
  - split; reflexivity.
  - left. reflexivity.
  - exists in_progress_row. split; [apply list_elem_of_In; left; reflexivity | reflexivity].
  - exists in_progress_attempt. split; [apply list_elem_of_In; left; reflexivity | reflexivity].
  - split; [exact Hsame |]. eexists. split; [exact Hrun | exact Hnext].
Defined.

(** C5 as stated fails on the sample store: the row was never broadcast
    (broadcast_at is null), and after the resumed transaction is saved its
    broadcast_at is the row's created_at, 100. *)
Lemma resume_overwrites_broadcast_at : ~ resume_keeps_broadcast_at.
Proof.
  intros Hkeeps.
  assert (EthTx.BroadcastAt
            (EthTx.with_BroadcastAt (Some 100)
               (sample_eth_tx 1 10 0 100 EthTxUnconfirmed (Some 3) None))
          = EthTx.BroadcastAt resumed_eth_tx) as Hsame.
  { apply (Hkeeps sample_env accepted [] sample_store
                  (broadcast_saved sample_store
                     (EthTx.with_BroadcastAt (Some 100) resumed_eth_tx) in_progress_attempt 3)
                  10 resumed_eth_tx).
    - reflexivity.
    - reflexivity.
    - vm_compute. reflexivity.
    - apply list_elem_of_In. left. reflexivity.
    - reflexivity. }
  discriminate Hsame.
Qed.

(** C5, amended, on the sample store. *)
Lemma handleAnyInProgressEthTx_resumes_with_created_at_witness :
  getInProgressEthTx sample_store 10 = (Some resumed_eth_tx, None)
  /\ exists q',
       handleAnyInProgressEthTx sample_env [accepted] false sample_store 10 = Returns (q', None)
       /\ forall r, r ∈ eth_txes q' -> EthTx.ID r = 1 -> EthTx.BroadcastAt r = Some 100.
Proof.
  split; [reflexivity |].
  destruct (handleAnyInProgressEthTx_resumes_with_created_at sample_env accepted []
              sample_store 10 resumed_eth_tx 3)
    as (attempt & q' & _ & _ & Hrun & _ & Hrows); try reflexivity.
  - intros Hsim. discriminate Hsim.
  - exists q'. split; [exact Hrun |].
    intros r Hin Hid. exact (proj2 (Hrows r Hin Hid)).
Defined.

(** C6 on the sample store: the broadcaster was handed a callback that
    cannot resume, and still the transaction of the pipeline task run ends
    in fatal_error with its error, no attempt is left and next_nonce is
    still 3. *)
Lemma saveFatallyErroredTransaction_frame_witness :
  exists etx' q',
    saveFatallyErroredTransaction
      (NewEthBroadcaster 1 true 500 20 (GetLegacyGas sample_env) (BumpLegacyGas sample_env)
                         (SignTx sample_env) (Some resume_down))
      sample_store pipeline_eth_tx
    = Returns (etx', q', None)
    /\ (forall r, r ∈ eth_txes q' -> EthTx.ID r = 1 ->
                  EthTx.State r = EthTxFatalError
                  /\ EthTx.Nonce r = None
                  /\ EthTx.BroadcastAt r = None
                  /\ EthTx.Error r = Some "tx fee cap exceeded")
    /\ eth_tx_attempts q' = []
    /\ eth_key_states q' !! (10, 1) = Some 3.
Proof.
  destruct (saveFatallyErroredTransaction_frame 1 true 500 20
              (GetLegacyGas sample_env) (BumpLegacyGas sample_env) (SignTx sample_env)
              (Some resume_down) sample_store pipeline_eth_tx)
    as (Hsaves & _).
  destruct (Hsaves "tx fee cap exceeded") as (etx' & q' & Hsave & _ & Hrow & _ & _ & _ & Hkeys);
    try reflexivity.
  { exists in_progress_row. split; [apply list_elem_of_In; left; reflexivity | reflexivity]. }
  exists etx', q'. split; [exact Hsave |].
  split; [exact Hrow |].
  vm_compute in Hsave. injection Hsave as _ <-. split; reflexivity.
Defined.

(** C7 on the table of Test_DropOldestStrategy_PruneQueue: with a queue
    size of 2 the two oldest unstarted rows of subject 1 go, the rows 6, 8
    and 9 are the unstarted rows that remain, and 7 rows are left. *)
Lemma DropOldest_PruneQueue_keeps_newest_witness :
  NoDup (EthTx.ID <$> eth_txes strategies_test_store)
  /\ exists q',
       DropOldestStrategy.PruneQueue (NewDropOldestStrategy 1 2 false) strategies_test_store
       = (2, q', None)
       /\ EthTx.ID <$> eth_txes q' = [1; 2; 3; 4; 6; 8; 9]
       /\ forall r, r ∈ List.filter (DropOldestStrategy.queued (NewDropOldestStrategy 1 2 false))
                                    (eth_txes q') <->
                    r ∈ DropOldestStrategy.newest (NewDropOldestStrategy 1 2 false)
                          (eth_txes strategies_test_store).
Proof.
  assert (NoDup (EthTx.ID <$> eth_txes strategies_test_store)) as Hids.
  { apply NoDup_ListNoDup. vm_compute.
    repeat (constructor; [simpl; intuition discriminate |]). constructor. }
  split; [exact Hids |].
  destruct (DropOldest_PruneQueue_keeps_newest (NewDropOldestStrategy 1 2 false)
              strategies_test_store Hids)
    as (n & q' & Hprune & _ & _ & _ & _ & _ & _ & _ & Hafter & _).
  vm_compute in Hprune. injection Hprune as <- <-.
  eexists. split; [vm_compute; reflexivity |]. split; [reflexivity | exact Hafter].
Defined.

(** C8 on the sample store with an EIP-1559 attempt: "transaction
    underpriced" ends in the hard error, the store is untouched and the
    answers the node has left are not asked for. *)
Lemma tryAgainBumpingGas_dynamic_fee_hard_error_witness :
  EthTxAttempt.TxType dynamic_attempt = 2
  /\ handleInProgressEthTx sample_env [underpriced; accepted] dynamic_store
                           in_progress_row dynamic_attempt 100
     = Returns (dynamic_store, Some bump_unsupported).
Proof.
  split; [reflexivity |].
  assert (sent in_progress_row underpriced) as Hsent.
  { intros Hsim. discriminate Hsim. }
  assert (terminally_underpriced
            (SendError.mk false false false false true false false false false
                          "transaction underpriced")) as Hkind.
  { repeat split; reflexivity. }
  exact (proj2 (tryAgainBumpingGas_dynamic_fee_hard_error sample_env underpriced [accepted]
                  dynamic_store in_progress_row dynamic_attempt 100 _
                  eq_refl eq_refl Hsent eq_refl Hkind)).
Defined.

(** C9 on the sample store, EvmEIP1559DynamicFees on.  After "fee too low"
    on an EIP-1559 attempt the node accepts the second try, and the one
    attempt the store then holds is a broadcast legacy attempt at the
    re-estimated price 100; after "transaction underpriced" on a legacy
    attempt at 100 it is one at the bumped price 120. *)
Lemma retry_builds_legacy_attempt_witness :
  EvmEIP1559DynamicFees sample_env = true
  /\ EthTxAttempt.TxType dynamic_attempt = 2
  /\ (exists q',
        handleInProgressEthTx sample_env [fee_too_low; accepted] dynamic_store
                              in_progress_row dynamic_attempt 100
        = Returns (q', None)
        /\ eth_tx_attempts q'
           = [EthTxAttempt.mk 2 1 (Some 100) None None 21000 [1; 2] 7 EthTxAttemptBroadcast 0])
  /\ (exists q',
        handleInProgressEthTx sample_env [underpriced; accepted] sample_store
                              in_progress_row in_progress_attempt 100
        = Returns (q', None)
        /\ eth_tx_attempts q'
           = [EthTxAttempt.mk 2 1 (Some 120) None None 21000 [1; 2] 7 EthTxAttemptBroadcast 0]).
Proof.
  assert (sent in_progress_row fee_too_low) as Hsent1.
  { intros Hsim. discriminate Hsim. }
  assert (sent in_progress_row underpriced) as Hsent2.
  { intros Hsim. discriminate Hsim. }
  assert (sent in_progress_row accepted) as Hsent3.
  { intros Hsim. discriminate Hsim. }
  assert (fee_too_low_or_high
            (SendError.mk false false false false false true false false false "fee too low"))
    as Hkind1.
  { repeat split; try reflexivity. left. reflexivity. }
  assert (terminally_underpriced
            (SendError.mk false false false false true false false false false
                          "transaction underpriced")) as Hkind2.
  { repeat split; reflexivity. }
  assert (EthTxAttempt.TxType in_progress_attempt <> 2) as Hlegacy by discriminate.
  assert (~ (120 = 100 /\ 120 = EvmMaxGasPriceWei sample_env)) as Hroom.
  { intros [Hsame _]. discriminate Hsame. }
  assert (exists r, r ∈ eth_txes sample_store /\ EthTx.ID r = EthTx.ID in_progress_row) as Hrow.
  { exists in_progress_row. split; [apply list_elem_of_In; left; reflexivity | reflexivity]. }
  split; [reflexivity |]. split; [reflexivity |]. split.
  - destruct (retry_builds_legacy_attempt sample_env dynamic_store in_progress_row
                dynamic_attempt 100 100 21000 7 [1; 2] eq_refl)
      as (replacement & q' & _ & _ & _ & _ & _ & _ & _ & _ & _ & _ & _ & _ & Hestimate & _).
    destruct (Hestimate eq_refl) as [_ Hrun].
    destruct (Hrun fee_too_low _ accepted [] 3 eq_refl Hsent1 eq_refl Hkind1 Hsent3
                eq_refl eq_refl eq_refl Hrow) as [Hreturns _].
    match type of Hreturns with _ = Returns (?st, None) => set (final := st) in * end.
    clearbody final. exists final. split; [exact Hreturns |].
    vm_compute in Hreturns. injection Hreturns as <-. reflexivity.
  - destruct (retry_builds_legacy_attempt sample_env sample_store in_progress_row
                in_progress_attempt 100 120 21000 7 [1; 2] eq_refl)
      as (replacement & q' & _ & _ & _ & _ & _ & _ & _ & _ & _ & _ & _ & _ & _ & Hbump).
    destruct (Hbump 100 Hlegacy eq_refl eq_refl Hroom) as [_ Hrun].
    destruct (Hrun underpriced _ accepted [] 3 eq_refl Hsent2 eq_refl Hkind2 Hsent3
                eq_refl eq_refl eq_refl Hrow) as [Hreturns _].
    match type of Hreturns with _ = Returns (?st, None) => set (final := st) in * end.
    clearbody final. exists final. split; [exact Hreturns |].
    vm_compute in Hreturns. injection Hreturns as <-. reflexivity.
Defined.

(** C10 on the sample store with an attempt priced at the ceiling: the
    bump returns 500 again, and the run ends in the terminal error with the
    store untouched, whatever the node would answer next. *)
Lemma tryAgainBumpingGas_ceiling_is_terminal_witness :
  BumpLegacyGas sample_env (EthTxAttempt.GasPrice ceiling_attempt) 21000 = inl (500, 21000)
  /\ EvmMaxGasPriceWei sample_env = 500
  /\ forall node,
       handleInProgressEthTx sample_env (underpriced :: node) ceiling_store
                             in_progress_row ceiling_attempt 100
       = Returns (ceiling_store, Some bump_ceiling).
Proof.
  split; [reflexivity |]. split; [reflexivity |].
  assert (sent in_progress_row underpriced) as Hsent.
  { intros Hsim. discriminate Hsim. }
  assert (terminally_underpriced
            (SendError.mk false false false false true false false false false
                          "transaction underpriced")) as Hkind.
  { repeat split; reflexivity. }
  assert (EthTxAttempt.TxType ceiling_attempt <> 2) as Hlegacy by discriminate.
  exact (proj2 (tryAgainBumpingGas_ceiling_is_terminal sample_env underpriced ceiling_store
                  in_progress_row ceiling_attempt 100 _ 500 500 21000
                  Hlegacy eq_refl eq_refl eq_refl eq_refl)
               eq_refl Hsent eq_refl Hkind).
Defined.

(** * The end-to-end scenarios of the spec, run on the sample store *)

(** Crash recovery: the node accepts; unconfirmed, broadcast, next_nonce 4. *)
Example scenario_crash_recovery :
  outcome (handleAnyInProgressEthTx sample_env [accepted] false sample_store 10)
  = Some ([(1, EthTxUnconfirmed, Some 3)], [(Some 100, EthTxAttemptBroadcast)], Some 4, None).
Proof. vm_compute. reflexivity. Qed.

(** Fatal TooExpensive: fatal_error, no attempt left, nonce cleared,
    next_nonce still 3. *)
Example scenario_too_expensive :
  outcome (handleInProgressEthTx sample_env
             [mkRound SimulationSucceeded
                (Some (SendError.mk true false false false false false false false false
                                    "tx fee cap exceeded"))]
             sample_store in_progress_row in_progress_attempt 100)
  = Some ([(1, EthTxFatalError, None)], [], Some 3, None).
Proof. vm_compute. reflexivity. Qed.

(** Terminally underpriced bumps once: the replacement attempt at 120 wei is
    the stored broadcast attempt and next_nonce is 4. *)
Example scenario_bump_once :
  outcome (handleInProgressEthTx sample_env [underpriced; accepted]
             sample_store in_progress_row in_progress_attempt 100)
  = Some ([(1, EthTxUnconfirmed, Some 3)], [(Some 120, EthTxAttemptBroadcast)], Some 4, None).
Proof. vm_compute. reflexivity. Qed.

(** A node that keeps answering "transaction underpriced" is bumped up to
    the ceiling and no further. *)
Example scenario_bump_to_ceiling :
  outcome (handleInProgressEthTx sample_env (repeat underpriced 30)
             sample_store in_progress_row in_progress_attempt 100)
  = Some ([(1, EthTxInProgress, Some 3)], [(Some 500, EthTxAttemptInProgress)], Some 3,
          Some bump_ceiling).
Proof. vm_compute. reflexivity. Qed.

(** * More properties of the broadcaster *)

(** ** What a run of handleInProgressEthTx leaves behind *)

Lemma saveFatallyErroredTransaction_cases (eb : Env) (q : DB) (etx : EthTx.t) :
  exists etx' q' err,
    saveFatallyErroredTransaction eb q etx = Returns (etx', q', err)
    /\ ((err <> None /\ q' = q) \/ (err = None /\ q' = fatal_saved q etx)).
Proof.
  unfold saveFatallyErroredTransaction.
  destruct (decide (EthTx.State etx <> EthTxInProgress)).
  { eexists _, _, _. split; [reflexivity |]. by left. }
  destruct (EthTx.Error etx) as [s|] eqn:Herr.
  2: { eexists _, _, _. split; [reflexivity |]. by left. }
  destruct (resume_pipeline eb etx s) as [failed|].
  { eexists _, _, _. split; [reflexivity |]. by left. }
  unfold Transaction, update_eth_tx. simpl.
  match goal with |- context [returning_first ?p ?f (eth_txes q)] =>
    destruct (returning_first p f (eth_txes q)) as [row|] end.
  - eexists _, _, _. split; [reflexivity |]. right. split; [done |].
    unfold fatal_saved. by rewrite Herr.
  - eexists _, _, _. split; [reflexivity |]. by left.
Qed.

Lemma saveAttempt_cases (q : DB) (etx : EthTx.t) (attempt : EthTxAttempt.t)
    (etx' : EthTx.t) (q' : DB) (err : error) :
  saveAttempt q etx attempt EthTxAttemptBroadcast [] = Returns (etx', q', err) ->
  (err <> None /\ q' = q)
  \/ (err = None
      /\ exists nonce,
           EthTx.Nonce etx = Some nonce
           /\ eth_key_states q !! (EthTx.FromAddress etx, EthTx.EVMChainID etx) = Some nonce
           /\ q' = broadcast_saved q etx attempt nonce).
Proof.
  intros Hsave.
  destruct (decide (EthTx.State etx = EthTxInProgress)) as [Hs|Hs].
  2: { destruct (saveAttempt_precondition q etx attempt EthTxAttemptBroadcast []) as [msg Hm];
       [by left |]. rewrite Hm in Hsave. injection Hsave as <- <- <-. by left. }
  destruct (decide (EthTxAttempt.State attempt = EthTxAttemptInProgress)) as [Ha|Ha].
  2: { destruct (saveAttempt_precondition q etx attempt EthTxAttemptBroadcast []) as [msg Hm];
       [by right; left |]. rewrite Hm in Hsave. injection Hsave as <- <- <-. by left. }
  destruct (saveAttempt_transaction _ _ _ _ _ _ _ Hs Ha Hsave)
    as [?|(-> & nonce & Hn & Hk & _ & _ & _ & Hran)]; [by left |].
  right. split; [done |]. exists nonce. split; [done |]. split; [done |].
  by inversion Hran.
Qed.

Lemma tryAgainWithNewGas_cases (eb : Env)
    (again : DB -> EthTx.t -> EthTxAttempt.t -> Z -> Run (DB * error))
    (q : DB) (etx : EthTx.t) (attempt : EthTxAttempt.t) (t newGasPrice newGasLimit : Z)
    (q' : DB) (err : error) :
  tryAgainWithNewGas eb again q etx attempt t newGasPrice newGasLimit = Returns (q', err) ->
  (err <> None /\ q' = q)
  \/ exists replacement,
       EthTxAttempt.TxType replacement = 0
       /\ again (replaced q attempt replacement) etx replacement t = Returns (q', err).
Proof.
  unfold tryAgainWithNewGas, NewLegacyAttempt.
  destruct (SignTx eb etx newGasPrice newGasLimit) as [[hash signed]|e].
  - intros H. right. eexists. split; [|exact H]. reflexivity.
  - intros [= <- <-]. by left.
Qed.

Lemma tryAgainBumpingGas_cases (eb : Env)
    (again : DB -> EthTx.t -> EthTxAttempt.t -> Z -> Run (DB * error))
    (q : DB) (sendError : option SendError.t) (etx : EthTx.t) (attempt : EthTxAttempt.t)
    (t : Z) (q' : DB) (err : error) :
  tryAgainBumpingGas eb again q sendError etx attempt t = Returns (q', err) ->
  (err <> None /\ q' = q)
  \/ exists replacement,
       EthTxAttempt.TxType replacement = 0
       /\ again (replaced q attempt replacement) etx replacement t = Returns (q', err).
Proof.
  unfold tryAgainBumpingGas.
  destruct (EthTxAttempt.TxType attempt =? 2).
  { intros [= <- <-]. by left. }
  destruct (BumpLegacyGas eb (EthTxAttempt.GasPrice attempt) (EthTx.GasLimit etx))
    as [[p l]|e].
  2: { intros [= <- <-]. by left. }
  destruct (EthTxAttempt.GasPrice attempt) as [g|]; [|discriminate].
  destruct ((p =? g) && (p =? EvmMaxGasPriceWei eb)).
  { intros [= <- <-]. by left. }
  apply tryAgainWithNewGas_cases.
Qed.

Lemma tryAgainWithNewEstimation_cases (eb : Env)
    (again : DB -> EthTx.t -> EthTxAttempt.t -> Z -> Run (DB * error))
    (q : DB) (sendError : option SendError.t) (etx : EthTx.t) (attempt : EthTxAttempt.t)
    (t : Z) (q' : DB) (err : error) :
  tryAgainWithNewEstimation eb again q sendError etx attempt t = Returns (q', err) ->
  (err <> None /\ q' = q)
  \/ exists replacement,
       EthTxAttempt.TxType replacement = 0
       /\ again (replaced q attempt replacement) etx replacement t = Returns (q', err).
Proof.
  unfold tryAgainWithNewEstimation.
  destruct (GetLegacyGas eb (EthTx.EncodedPayload etx) (EthTx.GasLimit etx) true) as [[p l]|e].
  - apply tryAgainWithNewGas_cases.
  - intros [= <- <-]. by left.
Qed.

Lemma handleInProgressEthTx_ending (eb : Env) (node : list Round) (q : DB) (etx : EthTx.t)
    (attempt : EthTxAttempt.t) (t : Z) (q' : DB) (err : error) :
  handleInProgressEthTx eb node q etx attempt t = Returns (q', err) ->
  Ending q etx t q' err.
Proof.
  revert q etx attempt. induction node as [|round node IH]; intros q etx attempt; simpl.
  { destruct (decide (EthTx.State etx <> EthTxInProgress)); [|discriminate].
    intros [= <- <-]. by apply Untouched. }
  destruct (decide (EthTx.State etx <> EthTxInProgress)).
  { intros [= <- <-]. by apply Untouched. }
  assert (Hfatal : forall etxError,
             saved (saveFatallyErroredTransaction eb q (EthTx.with_Error etxError etx))
             = Returns (q', err) -> Ending q etx t q' err).
  { intros etxError.
    destruct (saveFatallyErroredTransaction_cases eb q (EthTx.with_Error etxError etx))
      as (etx' & q1 & e1 & -> & [[Hne ->]|[-> ->]]); simpl; intros [= <- <-].
    - by apply Untouched.
    - by apply (GivenUp _ _ _ _ _ etxError). }
  assert (Hagain : forall attempt1,
             handleInProgressEthTx eb node (replaced q attempt attempt1)
               (EthTx.with_BroadcastAt (Some t) etx) attempt1 t = Returns (q', err) ->
             Ending q etx t q' err).
  { intros attempt1 Hrun. apply IH in Hrun.
    destruct Hrun as [Htx Hk Hne|etxError Htx Hk ->|a nonce Hn Hkey Htx Hk ->].
    - by apply Untouched.
    - by apply (GivenUp _ _ _ _ _ etxError).
    - by apply (Broadcast _ _ _ _ _ a nonce). }
  destruct (if EthTx.Simulate etx
            then match simulateTransaction round with
                 | SimulationReverted jErr => Some jErr
                 | _ => None
                 end
            else None) as [jErr|].
  { apply Hfatal. }
  destruct (answers SendError.IsTooExpensive (sendTransaction round)); [apply Hfatal |].
  destruct (answers SendError.Fatal (sendTransaction round)); [apply Hfatal |].
  set (sendError := if answers SendError.IsNonceTooLowError (sendTransaction round)
                       || answers SendError.IsReplacementUnderpriced (sendTransaction round)
                    then None else sendTransaction round).
  destruct (answers SendError.IsTerminallyUnderpriced sendError).
  { intros Hrun. apply tryAgainBumpingGas_cases in Hrun as [[Hne ->]|(a & _ & Hrun)].
    - by apply Untouched.
    - by apply (Hagain a). }
  destruct (answers SendError.IsFeeTooLow sendError || answers SendError.IsFeeTooHigh sendError).
  { intros Hrun. apply tryAgainWithNewEstimation_cases in Hrun as [[Hne ->]|(a & _ & Hrun)].
    - by apply Untouched.
    - by apply (Hagain a). }
  set (sendError' := if answers SendError.IsTemporarilyUnderpriced sendError
                     then None else sendError).
  destruct (answers SendError.IsInsufficientEth sendError').
  { intros [= <- <-]. by apply Untouched. }
  destruct sendError' as [e|].
  { intros [= <- <-]. by apply Untouched. }
  destruct (saveAttempt q (EthTx.with_BroadcastAt (Some t) etx) attempt
              EthTxAttemptBroadcast []) as [[[etx' q1] e1]| |] eqn:Hsave; simpl; try discriminate.
  intros [= <- <-].
  apply saveAttempt_cases in Hsave as [[Hne ->]|(-> & nonce & Hn & Hk & ->)].
  - by apply Untouched.
  - by apply (Broadcast _ _ _ _ _ attempt nonce).
Qed.

Lemma update_where_ids (rows : list EthTx.t) (p : EthTx.t -> bool) (set : EthTx.t -> EthTx.t) :
  (forall x, EthTx.ID (set x) = EthTx.ID x) ->
  EthTx.ID <$> update_where p set rows = EthTx.ID <$> rows.
Proof.
  intros Hid. unfold update_where. induction rows as [|r rows IH]; [done |].
  simpl. f_equal; [|exact IH]. destruct (p r); [apply Hid | done].
Qed.

Lemma update_where_other (rows : list EthTx.t) (id : Z) (set : EthTx.t -> EthTx.t) (r : EthTx.t) :
  (forall x, EthTx.ID (set x) = EthTx.ID x) ->
  EthTx.ID r <> id ->
  r ∈ update_where (fun x => EthTx.ID x =? id) set rows <-> r ∈ rows.
Proof.
  intros Hset Hid. unfold update_where. rewrite list_elem_of_fmap. split.
  - intros (r0 & -> & Hin).
    destruct (Z.eqb_spec (EthTx.ID r0) id) as [E|E]; [|done].
    destruct Hid. by rewrite Hset.
  - intros Hin. exists r. split; [|done].
    by destruct (Z.eqb_spec (EthTx.ID r) id).
Qed.

(** X1. A run of handleInProgressEthTx that returns an error, after however
    many retries with replacement attempts, has written nothing to eth_txes
    or eth_key_states: the transaction is still in_progress with its nonce
    and next_nonce is what it was. *)
Theorem handleInProgressEthTx_error_writes_nothing (eb : Env) (node : list Round) (q : DB)
    (etx : EthTx.t) (attempt : EthTxAttempt.t) (t : Z) (q' : DB) (e : string) :
  handleInProgressEthTx eb node q etx attempt t = Returns (q', Some e) ->
  eth_txes q' = eth_txes q /\ eth_key_states q' = eth_key_states q.
Proof.
  intros Hrun. apply handleInProgressEthTx_ending in Hrun.
  by destruct Hrun as [Htx Hk _| |].
Qed.

(** X2. next_nonce moves only with a broadcast: after any run of
    handleInProgressEthTx eth_key_states is as before, unless the run
    returned nil with the transaction saved as unconfirmed; then the stored
    next_nonce was the nonce of the transaction and went up by exactly one,
    for its (from_address, evm_chain_id) and for no other key. *)
Theorem handleInProgressEthTx_next_nonce (eb : Env) (node : list Round) (q : DB)
    (etx : EthTx.t) (attempt : EthTxAttempt.t) (t : Z) (q' : DB) (err : error) :
  handleInProgressEthTx eb node q etx attempt t = Returns (q', err) ->
  eth_key_states q' = eth_key_states q
  \/ (err = None
      /\ exists nonce,
           EthTx.Nonce etx = Some nonce
           /\ eth_key_states q !! (EthTx.FromAddress etx, EthTx.EVMChainID etx) = Some nonce
           /\ eth_key_states q' !! (EthTx.FromAddress etx, EthTx.EVMChainID etx)
              = Some (nonce + 1)
           /\ (forall key, key <> (EthTx.FromAddress etx, EthTx.EVMChainID etx) ->
                           eth_key_states q' !! key = eth_key_states q !! key)
           /\ forall r, r ∈ eth_txes q' -> EthTx.ID r = EthTx.ID etx ->
                        EthTx.State r = EthTxUnconfirmed).
Proof.
  intros Hrun. apply handleInProgressEthTx_ending in Hrun.
  destruct Hrun as [_ Hk _|etxError _ Hk _|a nonce Hn Hkey Htx Hk ->]; [by left | by left |].
  right. split; [done |]. exists nonce. split; [done |]. split; [done |].
  rewrite Hk. split; [apply lookup_insert_eq |]. split.
  - intros key Hne. by apply lookup_insert_ne.
  - intros r Hin Hid. rewrite Htx in Hin.
    by apply (broadcast_saved_eth_tx q (EthTx.with_BroadcastAt (Some t) etx) a nonce).
Qed.

(** X3. A run of handleInProgressEthTx that returns nil has moved the
    transaction out of in_progress: every row with its id is unconfirmed
    with broadcast_at the initial broadcast time, or fatal_error with nonce
    and broadcast_at null. *)
Theorem handleInProgressEthTx_nil_leaves_in_progress (eb : Env) (node : list Round) (q : DB)
    (etx : EthTx.t) (attempt : EthTxAttempt.t) (t : Z) (q' : DB) :
  handleInProgressEthTx eb node q etx attempt t = Returns (q', None) ->
  forall r, r ∈ eth_txes q' -> EthTx.ID r = EthTx.ID etx ->
    (EthTx.State r = EthTxUnconfirmed /\ EthTx.BroadcastAt r = Some t)
    \/ (EthTx.State r = EthTxFatalError /\ EthTx.Nonce r = None /\ EthTx.BroadcastAt r = None).
Proof.
  intros Hrun r Hin Hid. apply handleInProgressEthTx_ending in Hrun.
  destruct Hrun as [_ _ Hne|etxError Htx _ _|a nonce _ _ Htx _ _]; [done | |].
  - right. rewrite Htx in Hin.
    destruct (fatal_saved_eth_tx q (EthTx.with_Error etxError etx) r Hin Hid) as (? & ? & ? & _).
    done.
  - left. rewrite Htx in Hin.
    destruct (broadcast_saved_eth_tx q (EthTx.with_BroadcastAt (Some t) etx) a nonce r Hin Hid)
      as (? & ? & _).
    done.
Qed.

(** X4. handleInProgressEthTx never inserts or deletes a row of eth_txes
    and never touches the row of another transaction, whatever the node
    answers. *)
Theorem handleInProgressEthTx_other_rows (eb : Env) (node : list Round) (q : DB)
    (etx : EthTx.t) (attempt : EthTxAttempt.t) (t : Z) (q' : DB) (err : error) :
  handleInProgressEthTx eb node q etx attempt t = Returns (q', err) ->
  EthTx.ID <$> eth_txes q' = EthTx.ID <$> eth_txes q
  /\ forall r, EthTx.ID r <> EthTx.ID etx -> r ∈ eth_txes q' <-> r ∈ eth_txes q.
Proof.
  intros Hrun. apply handleInProgressEthTx_ending in Hrun.
  destruct Hrun as [Htx _ _|etxError Htx _ _|a nonce _ _ Htx _ _]; rewrite Htx.
  - done.
  - split; [by apply update_where_ids |].
    intros r Hid. by apply fatal_saved_other_eth_tx.
  - split; [by apply update_where_ids |].
    intros r Hid. simpl. by apply update_where_other.
Qed.

(** ** The other answers of the node *)

Lemma handleInProgressEthTx_past_retries (eb : Env) (round : Round) (node : list Round)
    (q : DB) (etx : EthTx.t) (attempt : EthTxAttempt.t) (t : Z) (e : SendError.t) :
  EthTx.State etx = EthTxInProgress ->
  sent etx round ->
  sendTransaction round = Some e ->
  reaches_temporarily_underpriced e ->
  handleInProgressEthTx eb (round :: node) q etx attempt t
  = let etx := EthTx.with_BroadcastAt (Some t) etx in
    let sendError := if SendError.IsTemporarilyUnderpriced e then None else Some e in
    if answers SendError.IsInsufficientEth sendError then
      Returns (q, Some (SendError_Error sendError))
    else
      match sendError with
      | None => saved (saveAttempt q etx attempt EthTxAttemptBroadcast [])
      | Some e =>
          Returns (q, Wrap (Some (SendError.Error e))
                           ("error while sending transaction " +:+ pretty (EthTx.ID etx)))
      end.
Proof.
  intros Hstate Hsent Hsend ([Hexp Hfatal] & Hlow & Hrepl & Hunder & Hfl & Hfh).
  rewrite handleInProgressEthTx_unfold; try done; try (by rewrite Hsend).
  rewrite Hsend. cbv beta zeta iota delta [answers orb].
  by rewrite Hlow, Hrepl, Hunder, Hfl, Hfh.
Qed.

(** X5. A send error that is TooExpensive or Fatal ends the transaction: on
    a store that holds it, and unless the pipeline resume fails,
    handleInProgressEthTx returns nil with the row in fatal_error carrying
    the message of the send error and a null nonce, the attempt thrown away
    and eth_key_states untouched, so that the nonce is used again. *)
Theorem handleInProgressEthTx_fatal_send_error (eb : Env) (round : Round) (node : list Round)
    (q : DB) (etx : EthTx.t) (attempt : EthTxAttempt.t) (t : Z) (e : SendError.t) :
  EthTx.State etx = EthTxInProgress ->
  sent etx round ->
  sendTransaction round = Some e ->
  SendError.IsTooExpensive e = true \/ SendError.Fatal e = true ->
  resume_pipeline eb etx (SendError.Error e) = None ->
  (exists r, r ∈ eth_txes q /\ EthTx.ID r = EthTx.ID etx) ->
  exists q',
    handleInProgressEthTx eb (round :: node) q etx attempt t = Returns (q', None)
    /\ (forall r, r ∈ eth_txes q' -> EthTx.ID r = EthTx.ID etx ->
          EthTx.State r = EthTxFatalError
          /\ EthTx.Error r = Some (SendError.Error e)
          /\ EthTx.Nonce r = None)
    /\ (forall a, a ∈ eth_tx_attempts q' -> EthTxAttempt.EthTxID a <> EthTx.ID etx)
    /\ eth_key_states q' = eth_key_states q.
Proof.
  intros Hstate Hsent Hsend Hkind Hresume Hrow.
  set (etx1 := EthTx.with_Error (Some (SendError.Error e)) etx).
  destruct (saveFatallyErroredTransaction_saves eb q etx1 (SendError.Error e))
    as (etx' & Hsave & _); try done.
  exists (fatal_saved q etx1). split.
  - simpl.
    destruct (decide (EthTx.State etx <> EthTxInProgress)); [done |].
    assert ((if EthTx.Simulate etx
             then match simulateTransaction round with
                  | SimulationReverted jErr => Some jErr
                  | _ => None
                  end
             else None) = None) as ->.
    { unfold sent in Hsent. destruct (EthTx.Simulate etx); [|done].
      destruct (simulateTransaction round) as [|jErr|]; try done.
      by destruct (Hsent eq_refl jErr). }
    rewrite Hsend. simpl. fold etx1.
    destruct (SendError.IsTooExpensive e); [by rewrite Hsave |].
    destruct Hkind as [? | Hf]; [done |]. rewrite Hf. by rewrite Hsave.
  - split.
    { intros r Hin Hid. destruct (fatal_saved_eth_tx q etx1 r Hin Hid) as (? & ? & _ & ?). done. }
    split; [|done].
    intros a Ha. by apply (fatal_saved_attempts q etx1) in Ha as [_ ?].
Qed.

(** X6. A send error that is InsufficientEth (and is not caught by an
    earlier test) blocks the worker: handleInProgressEthTx returns the send
    error itself, unwrapped, and the store is as it was, the transaction
    still in_progress. *)
Theorem handleInProgressEthTx_insufficient_eth (eb : Env) (round : Round) (node : list Round)
    (q : DB) (etx : EthTx.t) (attempt : EthTxAttempt.t) (t : Z) (e : SendError.t) :
  EthTx.State etx = EthTxInProgress ->
  sent etx round ->
  sendTransaction round = Some e ->
  insufficient_eth e ->
  handleInProgressEthTx eb (round :: node) q etx attempt t
  = Returns (q, Some (SendError.Error e)).
Proof.
  intros Hstate Hsent Hsend (Hreach & Htemp & Hins).
  rewrite (handleInProgressEthTx_past_retries eb round node q etx attempt t e); try done.
  cbv zeta. rewrite Htemp. simpl. by rewrite Hins.
Qed.

(** X7. A send error that is TemporarilyUnderpriced (and is not caught by
    an earlier test) is taken for a success: the run is the run in which the
    node accepted the transaction, whatever the store. *)
Theorem handleInProgressEthTx_temporarily_underpriced (eb : Env) (round : Round)
    (node : list Round) (q : DB) (etx : EthTx.t) (attempt : EthTxAttempt.t) (t : Z)
    (e : SendError.t) :
  sendTransaction round = Some e ->
  temporarily_underpriced e ->
  handleInProgressEthTx eb (round :: node) q etx attempt t
  = handleInProgressEthTx eb (mkRound (simulateTransaction round) None :: node)
                          q etx attempt t.
Proof.
  intros Hsend (([Hexp Hfatal] & Hlow & Hrepl & Hunder & Hfl & Hfh) & Htemp).
  simpl.
  destruct (decide (EthTx.State etx <> EthTxInProgress)); [done |].
  destruct (if EthTx.Simulate etx
            then match simulateTransaction round with
                 | SimulationReverted jErr => Some jErr
                 | _ => None
                 end
            else None); [done |].
  rewrite Hsend. cbv beta zeta iota delta [answers orb].
  by rewrite Hexp, Hfatal, Hlow, Hrepl, Hunder, Hfl, Hfh, Htemp.
Qed.

(** X8. A send error that none of the tests recognises is returned, wrapped
    with the id of the transaction, and nothing is written: the transaction
    stays in_progress for the next cycle. *)
Theorem handleInProgressEthTx_unrecognised_error (eb : Env) (round : Round)
    (node : list Round) (q : DB) (etx : EthTx.t) (attempt : EthTxAttempt.t) (t : Z)
    (e : SendError.t) :
  EthTx.State etx = EthTxInProgress ->
  sent etx round ->
  sendTransaction round = Some e ->
  unrecognised e ->
  handleInProgressEthTx eb (round :: node) q etx attempt t
  = Returns (q, Some ("error while sending transaction " +:+ pretty (EthTx.ID etx)
                      +:+ ": " +:+ SendError.Error e)).
Proof.
  intros Hstate Hsent Hsend (Hreach & Htemp & Hins).
  rewrite (handleInProgressEthTx_past_retries eb round node q etx attempt t e); try done.
  cbv zeta. rewrite Htemp. simpl. by rewrite Hins.
Qed.

(** X9. Simulation.  When the transaction asks for it and the node answers
    the simulation with a JSON-RPC error, the transaction is given up on
    with "transaction reverted during simulation" and the node is not asked
    to send: what it would have answered plays no part.  Any other failure
    of the simulation, or a transaction that does not ask for one, leaves
    the run what it is with a simulation that succeeded. *)
Theorem handleInProgressEthTx_simulation (eb : Env) (node : list Round) (q : DB)
    (etx : EthTx.t) (attempt : EthTxAttempt.t) (t : Z) (sendError : option SendError.t) :
  EthTx.State etx = EthTxInProgress ->
  (forall jErr,
     EthTx.Simulate etx = true ->
     handleInProgressEthTx eb (mkRound (SimulationReverted jErr) sendError :: node)
                           q etx attempt t
     = saved (saveFatallyErroredTransaction eb q
                (EthTx.with_Error (Some ("transaction reverted during simulation: " +:+ jErr))
                                  etx)))
  /\ handleInProgressEthTx eb (mkRound SimulationFailed sendError :: node) q etx attempt t
     = handleInProgressEthTx eb (mkRound SimulationSucceeded sendError :: node) q etx attempt t
  /\ (forall simulation,
        EthTx.Simulate etx = false ->
        handleInProgressEthTx eb (mkRound simulation sendError :: node) q etx attempt t
        = handleInProgressEthTx eb (mkRound SimulationSucceeded sendError :: node)
                                q etx attempt t).
Proof.
  intros Hstate. split; [|split].
  - intros jErr Hsim. simpl.
    destruct (decide (EthTx.State etx <> EthTxInProgress)); [done |].
    by rewrite Hsim.
  - simpl. by destruct (EthTx.Simulate etx).
  - intros simulation Hsim. simpl. by rewrite Hsim.
Qed.

(** ** Looking for work *)

Lemma find_None_iff {A : Type} (p : A -> bool) (rows : list A) :
  find p rows = None <-> forall r, r ∈ rows -> p r = false.
Proof.
  split.
  - intros H r Hin. apply (find_none p rows H). by apply list_elem_of_In.
  - intros H. destruct (find p rows) as [r|] eqn:E; [|done].
    apply find_Some_elem_of in E as [Hin Hp]. rewrite (H r Hin) in Hp. discriminate.
Qed.

Lemma getInProgressEthTx_none (q : DB) (fromAddress : Z) :
  getInProgressEthTx q fromAddress = (None, None) <->
  forall r, r ∈ eth_txes q -> EthTx.FromAddress r = fromAddress ->
            EthTx.State r <> EthTxInProgress.
Proof.
  unfold getInProgressEthTx.
  destruct (find _ (eth_txes q)) as [row|] eqn:Hfind.
  - split.
    + unfold loadEthTxAttempts. simpl.
      destruct (List.filter _ (eth_tx_attempts q)) as [|a [|b rest]]; try discriminate.
      destruct (decide (EthTxAttempt.State a <> EthTxAttemptInProgress)); discriminate.
    + intros Hnone. apply find_Some_elem_of in Hfind as [Hin Hp].
      apply andb_true_iff in Hp as [Hfrom Hstate].
      apply Z.eqb_eq in Hfrom. apply bool_decide_eq_true in Hstate.
      by destruct (Hnone row Hin Hfrom).
  - split; [|done]. intros _ r Hin Hfrom Hstate.
    apply find_None_iff with (r := r) in Hfind; [|done].
    apply andb_false_iff in Hfind as [Hf|Hs].
    + apply Z.eqb_neq in Hf. done.
    + apply bool_decide_eq_false in Hs. done.
Qed.

Lemma getInProgressEthTx_loaded (q : DB) (fromAddress : Z) (etx : EthTx.t) :
  getInProgressEthTx q fromAddress = (Some etx, None) ->
  exists row attempt,
    row ∈ eth_txes q
    /\ EthTx.FromAddress row = fromAddress
    /\ EthTx.State row = EthTxInProgress
    /\ etx = EthTx.with_EthTxAttempts [attempt] row
    /\ EthTxAttempt.State attempt = EthTxAttemptInProgress
    /\ List.filter (fun a => EthTxAttempt.EthTxID a =? EthTx.ID row) (eth_tx_attempts q)
       = [attempt].
Proof.
  unfold getInProgressEthTx.
  destruct (find _ (eth_txes q)) as [row|] eqn:Hfind; [|discriminate].
  apply find_Some_elem_of in Hfind as [Hin Hp].
  apply andb_true_iff in Hp as [Hfrom Hstate].
  apply Z.eqb_eq in Hfrom. apply bool_decide_eq_true in Hstate.
  unfold loadEthTxAttempts. simpl.
  destruct (List.filter _ (eth_tx_attempts q)) as [|a [|b rest]] eqn:Hload; try discriminate.
  destruct (decide (EthTxAttempt.State a <> EthTxAttemptInProgress)) as [|Ha]; [discriminate |].
  intros [= <-]. exists row, a. repeat split; try done.
  by destruct (decide (EthTxAttempt.State a = EthTxAttemptInProgress)).
Qed.

Lemma getInProgressEthTx_violation (q : DB) (fromAddress : Z) (row : EthTx.t) :
  find (fun r => (EthTx.FromAddress r =? fromAddress)
                 && bool_decide (EthTx.State r = EthTxInProgress)) (eth_txes q)
  = Some row ->
  (forall attempt,
     List.filter (fun a => EthTxAttempt.EthTxID a =? EthTx.ID row) (eth_tx_attempts q)
     = [attempt] ->
     EthTxAttempt.State attempt <> EthTxAttemptInProgress) ->
  exists msg, getInProgressEthTx q fromAddress = (None, Some msg).
Proof.
  intros Hfind Hbad. unfold getInProgressEthTx. rewrite Hfind.
  unfold loadEthTxAttempts. simpl.
  destruct (List.filter _ (eth_tx_attempts q)) as [|a [|b rest]] eqn:Hload;
    try (by eexists).
  destruct (decide (EthTxAttempt.State a <> EthTxAttemptInProgress)) as [|Ha];
    [by eexists |].
  destruct Ha. by apply Hbad.
Qed.

(** X10. getInProgressEthTx answers none exactly when the address has no
    in_progress row.  When it answers a transaction, that is an in_progress
    row of the address with its attempts loaded: exactly one attempt, which
    is in_progress, and eth_tx_attempts has no other attempt for it; with
    any other set of attempts the first in_progress row of the address
    yields the invariant-violation error instead. *)
Theorem getInProgressEthTx_one_unsent_attempt (q : DB) (fromAddress : Z) :
  (getInProgressEthTx q fromAddress = (None, None) <->
     forall r, r ∈ eth_txes q -> EthTx.FromAddress r = fromAddress ->
               EthTx.State r <> EthTxInProgress)
  /\ (forall etx,
        getInProgressEthTx q fromAddress = (Some etx, None) ->
        exists row attempt,
          row ∈ eth_txes q
          /\ EthTx.FromAddress row = fromAddress
          /\ EthTx.State row = EthTxInProgress
          /\ etx = EthTx.with_EthTxAttempts [attempt] row
          /\ EthTxAttempt.State attempt = EthTxAttemptInProgress
          /\ List.filter (fun a => EthTxAttempt.EthTxID a =? EthTx.ID row) (eth_tx_attempts q)
             = [attempt])
  /\ (forall row,
        find (fun r => (EthTx.FromAddress r =? fromAddress)
                       && bool_decide (EthTx.State r = EthTxInProgress)) (eth_txes q)
        = Some row ->
        (forall attempt,
           List.filter (fun a => EthTxAttempt.EthTxID a =? EthTx.ID row) (eth_tx_attempts q)
           = [attempt] ->
           EthTxAttempt.State attempt <> EthTxAttemptInProgress) ->
        exists msg, getInProgressEthTx q fromAddress = (None, Some msg)).
Proof.
  split; [apply getInProgressEthTx_none |]. split; [|apply getInProgressEthTx_violation].
  apply getInProgressEthTx_loaded.
Qed.

(** X11. handleAnyInProgressEthTx leaves the store alone and does not call
    the node when the context is cancelled by the time the lookup is back
    (it then returns nil even if the lookup failed), and when the address
    has no in_progress row; and an in_progress row whose attempts are not
    exactly one in_progress attempt makes it return the invariant violation,
    again without calling the node. *)
Theorem handleAnyInProgressEthTx_nothing_to_resume (eb : Env) (node : list Round) (q : DB)
    (fromAddress : Z) :
  handleAnyInProgressEthTx eb node true q fromAddress = Returns (q, None)
  /\ ((forall r, r ∈ eth_txes q -> EthTx.FromAddress r = fromAddress ->
                 EthTx.State r <> EthTxInProgress) ->
      handleAnyInProgressEthTx eb node false q fromAddress = Returns (q, None))
  /\ (forall row,
        find (fun r => (EthTx.FromAddress r =? fromAddress)
                       && bool_decide (EthTx.State r = EthTxInProgress)) (eth_txes q)
        = Some row ->
        (forall attempt,
           List.filter (fun a => EthTxAttempt.EthTxID a =? EthTx.ID row) (eth_tx_attempts q)
           = [attempt] ->
           EthTxAttempt.State attempt <> EthTxAttemptInProgress) ->
        exists msg, handleAnyInProgressEthTx eb node false q fromAddress
                    = Returns (q, Some ("handleAnyInProgressEthTx failed: " +:+ msg))).
Proof.
  split; [|split].
  - unfold handleAnyInProgressEthTx. by destruct (getInProgressEthTx q fromAddress).
  - intros Hnone. unfold handleAnyInProgressEthTx.
    by rewrite (proj2 (getInProgressEthTx_none q fromAddress) Hnone).
  - intros row Hfind Hbad.
    destruct (getInProgressEthTx_violation q fromAddress row Hfind Hbad) as [msg Hget].
    exists msg. unfold handleAnyInProgressEthTx. by rewrite Hget.
Qed.

(** ** Starting a transaction *)





(** X13. nextUnstartedTransactionWithNonce needs the key: when the address
    has an unstarted row on the chain but eth_key_states has no row for
    (from_address, chain_id), it returns no transaction and sql.ErrNoRows as
    the error, not nil. *)
Theorem nextUnstartedTransactionWithNonce_missing_key (eb : Env) (db : DB) (fromAddress : Z) :
  unstarted_rows db fromAddress (chainID eb) <> [] ->
  eth_key_states db !! (fromAddress, chainID eb) = None ->
  nextUnstartedTransactionWithNonce eb db fromAddress = (None, Some ErrNoRows).
Proof.
  intros Hrows Hkey.
  unfold nextUnstartedTransactionWithNonce, findNextUnstartedTransactionFromAddress.
  fold (unstarted_rows db fromAddress (chainID eb)).
  destruct (head (order_by unstarted_order (unstarted_rows db fromAddress (chainID eb))))
    as [etx|] eqn:Hhead.
  2: { by apply head_order_by_None in Hhead. }
  apply (head_order_by_least _ unstarted_order_total unstarted_order_trans) in Hhead
    as [Hin _].
  apply elem_of_unstarted_rows in Hin as (_ & Hfrom & _).
  unfold GetNextNonce. by rewrite Hfrom, Hkey.
Qed.

(** X14. A broadcast is saved once.  After saveAttempt went through, saving
    again with the etx it returned is refused because that is unconfirmed,
    and saving again with the stale, still in_progress, etx fails on the
    conditional nonce increment with the invariant violation; either way the
    store, next_nonce included, is what the first save left. *)
Theorem saveAttempt_twice (q : DB) (etx etx' : EthTx.t) (attempt : EthTxAttempt.t) (q' : DB) :
  saveAttempt q etx attempt EthTxAttemptBroadcast [] = Returns (etx', q', None) ->
  (exists msg, saveAttempt q' etx' attempt EthTxAttemptBroadcast []
               = Returns (etx', q', Some msg))
  /\ saveAttempt q' etx attempt EthTxAttemptBroadcast []
     = Returns (EthTx.with_State EthTxUnconfirmed etx, q',
                Some ("saveUnconfirmed failed: " +:+ nonce_invariant_violation)).
Proof.
  intros Hsave.
  destruct (decide (EthTx.State etx = EthTxInProgress)) as [Hs|Hs].
  2: { destruct (saveAttempt_precondition q etx attempt EthTxAttemptBroadcast []) as [msg Hm];
       [by left |]. rewrite Hm in Hsave. discriminate. }
  destruct (decide (EthTxAttempt.State attempt = EthTxAttemptInProgress)) as [Ha|Ha].
  2: { destruct (saveAttempt_precondition q etx attempt EthTxAttemptBroadcast []) as [msg Hm];
       [by right; left |]. rewrite Hm in Hsave. discriminate. }
  destruct (saveAttempt_transaction _ _ _ _ _ _ _ Hs Ha Hsave)
    as [[Hne _]|(_ & nonce & Hn & Hk & _ & _ & Hetx' & Hran)]; [done |].
  inversion Hran; subst. split.
  - apply saveAttempt_precondition. left. rewrite Hetx'. done.
  - unfold saveAttempt.
    destruct (decide (EthTx.State etx <> EthTxInProgress)); [done |].
    destruct (decide (EthTxAttempt.State attempt <> EthTxAttemptInProgress)); [done |].
    rewrite bool_decide_eq_true_2 by done. simpl.
    unfold Transaction. rewrite Hn.
    rewrite IncrementNextNonce_mismatch; [done |].
    rewrite broadcast_saved_next_nonce. intros [= Heq]. lia.
Qed.

(** ** Draining the queue *)



Lemma picks_head (q : DB) (fromAddress chainID : Z) (e : EthTx.t) (rest : list EthTx.t) :
  picks q fromAddress chainID = e :: rest ->
  findNextUnstartedTransactionFromAddress q fromAddress chainID = Some e
  /\ e ∈ eth_txes q
  /\ EthTx.FromAddress e = fromAddress
  /\ EthTx.State e = EthTxUnstarted
  /\ EthTx.EVMChainID e = chainID.
Proof.
  intros Hpicks. unfold findNextUnstartedTransactionFromAddress.
  fold (unstarted_rows q fromAddress chainID). fold (picks q fromAddress chainID).
  rewrite Hpicks. split; [done |].
  assert (e ∈ unstarted_rows q fromAddress chainID) as Hin.
  { apply (elem_of_order_by unstarted_order). fold (picks q fromAddress chainID).
    rewrite Hpicks. apply elem_of_cons. by left. }
  by apply elem_of_unstarted_rows in Hin.
Qed.


Lemma unstarted_loop_turn (eb : Worker) (fuel : nat) (node : list (Z * list Round))
    (q : DB) (fromAddress : Z) :
  unstarted_loop eb (S fuel) node q fromAddress
  = if (0 <? EvmMaxInFlightTransactions eb)
       && (EvmMaxInFlightTransactions eb
           <=? CountUnconfirmedTransactions q fromAddress (chainID (base eb)))
    then unstarted_loop eb fuel node q fromAddress
    else
      let '(etx, err) := nextUnstartedTransactionWithNonce (base eb) q fromAddress in
      match err, etx with
      | Some _, _ => Some (Returns (q, Wrap err "processUnstartedEthTxs failed"))
      | None, None => Some (Returns (q, None))
      | None, Some etx =>
        let '(a, err) := estimate_and_sign eb etx in
        match err with
        | Some _ => Some (Returns (q, err))
        | None =>
          match saveInProgressTransaction q etx a with
          | Panics => Some Panics
          | ScriptExhausted => Some ScriptExhausted
          | Returns (etx, a, q, err) =>
            if is_errEthTxRemoved err then unstarted_loop eb fuel node q fromAddress
            else
              match err with
              | Some _ => Some (Returns (q, Wrap err "processUnstartedEthTxs failed"))
              | None =>
                let '(now, answers) := default (0, []) (head node) in
                match handleInProgressEthTx (base eb) answers q etx a now with
                | Panics => Some Panics
                | ScriptExhausted => Some ScriptExhausted
                | Returns (q, err) =>
                  match err with
                  | Some _ => Some (Returns (q, Wrap err "processUnstartedEthTxs failed"))
                  | None => unstarted_loop eb fuel (tail node) q fromAddress
                  end
                end
              end
          end
        end
      end.
Proof. reflexivity. Qed.






(** ** The cycle around the loop *)

(** X16. Throttling.  While the unconfirmed transactions of the address are
    at or over a non-zero EvmMaxInFlightTransactions, the loop starts
    nothing: it keeps turning (sleeping and looking again) without picking a
    transaction or writing to the store, however long it is given. *)
Theorem unstarted_loop_throttled (eb : Worker) (fuel : nat) (node : list (Z * list Round))
    (q : DB) (fromAddress : Z) :
  0 < EvmMaxInFlightTransactions eb ->
  EvmMaxInFlightTransactions eb
  <= CountUnconfirmedTransactions q fromAddress (chainID (base eb)) ->
  unstarted_loop eb fuel node q fromAddress = None.
Proof.
  intros Hpos Hcap. induction fuel as [|fuel IH]; [done |].
  rewrite unstarted_loop_turn.
  apply Z.ltb_lt in Hpos. apply Z.leb_le in Hcap. by rewrite Hpos, Hcap.
Qed.

(** X17. An estimator that fails stops the cycle before anything is
    written: when the loop is not throttled and has a transaction to pick,
    a failing GetLegacyGas (EvmEIP1559DynamicFees off) or GetDynamicFee (on)
    is returned as "failed to estimate gas", resp. "failed to get dynamic
    gas fee", and the store is as it was, the transaction still unstarted
    without a nonce. *)
Theorem unstarted_loop_estimator_fails (eb : Worker) (fuel : nat)
    (node : list (Z * list Round)) (q : DB) (fromAddress next_nonce : Z)
    (e : EthTx.t) (rest : list EthTx.t) (failure : string) :
  EvmMaxInFlightTransactions eb = 0 ->
  eth_key_states q !! (fromAddress, chainID (base eb)) = Some next_nonce ->
  picks q fromAddress (chainID (base eb)) = e :: rest ->
  (EvmEIP1559DynamicFees (base eb) = false ->
   GetLegacyGas (base eb) (EthTx.EncodedPayload e) (EthTx.GasLimit e) false = inr failure ->
   unstarted_loop eb (S fuel) node q fromAddress
   = Some (Returns (q, Some ("failed to estimate gas: " +:+ failure))))
  /\ (EvmEIP1559DynamicFees (base eb) = true ->
      GetDynamicFee eb (EthTx.GasLimit e) = inr failure ->
      unstarted_loop eb (S fuel) node q fromAddress
      = Some (Returns (q, Some ("failed to get dynamic gas fee: " +:+ failure)))).
Proof.
  intros Hmax Hkey Hpicks.
  destruct (picks_head _ _ _ _ _ Hpicks) as (Hfind & _ & Hfrom & _).
  split; intros Hflag Hfail.
  - rewrite unstarted_loop_turn, Hmax. change (0 <? 0) with false. cbn [andb].
    unfold nextUnstartedTransactionWithNonce. rewrite Hfind.
    unfold GetNextNonce. rewrite Hfrom, Hkey.
    unfold estimate_and_sign. rewrite Hflag. simpl. by rewrite Hfail.
  - rewrite unstarted_loop_turn, Hmax. change (0 <? 0) with false. cbn [andb].
    unfold nextUnstartedTransactionWithNonce. rewrite Hfind.
    unfold GetNextNonce. rewrite Hfrom, Hkey.
    unfold estimate_and_sign. rewrite Hflag. simpl. by rewrite Hfail.
Qed.

Lemma handleAnyInProgressEthTx_error_writes_nothing (eb : Env) (node : list Round)
    (ctxErr : bool) (q : DB) (fromAddress : Z) (q1 : DB) (e : string) :
  handleAnyInProgressEthTx eb node ctxErr q fromAddress = Returns (q1, Some e) ->
  eth_txes q1 = eth_txes q /\ eth_key_states q1 = eth_key_states q.
Proof.
  unfold handleAnyInProgressEthTx.
  destruct (getInProgressEthTx q fromAddress) as [etx err].
  destruct ctxErr; [discriminate |].
  destruct err as [e0|]; [by intros [= <- _] |].
  destruct etx as [etx|]; [|discriminate].
  destruct (EthTx.EthTxAttempts etx) as [|a0 rest]; [discriminate |].
  destruct (handleInProgressEthTx eb node q etx a0 (EthTx.CreatedAt etx))
    as [[q2 [e2|]]| |] eqn:Hrun; try discriminate.
  intros [= <- _]. apply handleInProgressEthTx_ending in Hrun.
  by destruct Hrun as [? ? _| |].
Qed.

(** X18. First things first.  When the in_progress transaction of the
    address cannot be finished (handleAnyInProgressEthTx returns an error
    and the context is live), processUnstartedEthTxs returns that error
    wrapped and picks no unstarted transaction: eth_txes and eth_key_states
    are as they were.  When the context is cancelled once
    handleAnyInProgressEthTx is back, it returns nil and picks nothing
    either. *)
Theorem processUnstartedEthTxs_in_progress_first (eb : Worker) (fuel : nat)
    (ctxErr : bool) (resume : list Round) (node : list (Z * list Round)) (q q1 : DB)
    (fromAddress : Z) (err : error) :
  handleAnyInProgressEthTx (base eb) resume ctxErr q fromAddress = Returns (q1, err) ->
  processUnstartedEthTxs eb fuel ctxErr true resume node q fromAddress
  = Some (Returns (q1, None))
  /\ forall e, err = Some e ->
       processUnstartedEthTxs eb fuel ctxErr false resume node q fromAddress
       = Some (Returns (q1, Some ("processUnstartedEthTxs failed: " +:+ e)))
       /\ eth_txes q1 = eth_txes q
       /\ eth_key_states q1 = eth_key_states q.
Proof.
  intros Hany. unfold processUnstartedEthTxs. rewrite Hany. split; [done |].
  intros e ->. split; [done |].
  by apply (handleAnyInProgressEthTx_error_writes_nothing (base eb) resume ctxErr _ fromAddress _ e).
Qed.

(** ** Triggers *)

(** X19. Trigger coalesces: a wake-up sent to a channel that already holds
    one is dropped, so triggering twice is triggering once.  A broadcaster
    that was not started and an address that was not registered leave
    everything as it is, and in no case is the channel of another address
    touched. *)
Theorem Trigger_coalesces (eb : Triggers) (addr : Z) :
  Trigger (Trigger eb addr) addr = Trigger eb addr
  /\ (started eb = false -> Trigger eb addr = eb)
  /\ (triggers eb !! addr = None -> Trigger eb addr = eb)
  /\ (started eb = true -> is_Some (triggers eb !! addr) ->
      triggers (Trigger eb addr) !! addr = Some true)
  /\ (forall other, other <> addr ->
        triggers (Trigger eb addr) !! other = triggers eb !! other)
  /\ dom (triggers (Trigger eb addr)) = dom (triggers eb).
Proof.
  unfold Trigger. destruct eb as [on chans]. simpl.
  destruct on; simpl.
  2: { repeat split; try done. }
  destruct (chans !! addr) as [full|] eqn:Hch; simpl.
  2: { rewrite Hch. repeat split; try done. }
  rewrite lookup_insert_eq. simpl. rewrite insert_insert_eq.
  split; [done |]. split; [done |]. split; [done |].
  split; [done |].
  split.
  - intros other Hne. by apply lookup_insert_ne.
  - rewrite dom_insert_L. apply elem_of_dom_2 in Hch.
    apply subseteq_union_1_L. by apply singleton_subseteq_l.
Qed.

(** ** A whole cycle after a crash *)




(** ** Reading the nonce back *)

(** X21. GetNextNonce reads what IncrementNextNonce wrote: after a
    successful increment keyed on [currentNonce] it returns
    [currentNonce + 1]; after a failed one it returns what it returned
    before; the next_nonce of every other key reads as before in both
    cases; and for a key that eth_key_states does not hold it returns
    sql.ErrNoRows. *)
Theorem GetNextNonce_after_IncrementNextNonce (db : DB) (address chainID currentNonce : Z) :
  let '(db', err) := IncrementNextNonce db address chainID currentNonce in
  (err = None -> GetNextNonce db' address chainID = (currentNonce + 1, None))
  /\ (err <> None -> db' = db)
  /\ (forall address' chainID',
        (address', chainID') <> (address, chainID) ->
        GetNextNonce db' address' chainID' = GetNextNonce db address' chainID')
  /\ (eth_key_states db !! (address, chainID) = None ->
      err = Some nonce_invariant_violation
      /\ GetNextNonce db' address chainID = (0, Some ErrNoRows)).
Proof.
  destruct (decide (eth_key_states db !! (address, chainID) = Some currentNonce)) as [Hk|Hk].
  - rewrite (IncrementNextNonce_match _ _ _ _ Hk).
    split. { intros _. unfold GetNextNonce. simpl. by rewrite lookup_insert_eq. }
    split; [done |]. split.
    + intros a c Hne. unfold GetNextNonce. simpl. by rewrite lookup_insert_ne.
    + intros Hnone. congruence.
  - rewrite (IncrementNextNonce_mismatch _ _ _ _ Hk).
    split; [done |]. split; [done |]. split; [done |].
    intros Hnone. split; [done |]. unfold GetNextNonce. by rewrite Hnone.
Qed.

(** * The further properties at work on the sample stores *)

(** X1 on the sample store: thirty times "transaction underpriced" end in
    the bump ceiling error, after replacement attempts were saved, and
    eth_txes and eth_key_states are as they were. *)
Lemma handleInProgressEthTx_error_writes_nothing_witness :
  exists q' e,
    handleInProgressEthTx sample_env (repeat underpriced 30) sample_store
                          in_progress_row in_progress_attempt 100 = Returns (q', Some e)
    /\ eth_txes q' = eth_txes sample_store
    /\ eth_key_states q' = eth_key_states sample_store.
Proof.
  destruct (handleInProgressEthTx sample_env (repeat underpriced 30) sample_store
              in_progress_row in_progress_attempt 100) as [[q' [e|]]| |] eqn:Hrun;
    try (vm_compute in Hrun; discriminate Hrun).
  exists q', e. split; [reflexivity |].
  exact (handleInProgressEthTx_error_writes_nothing _ _ _ _ _ _ _ _ Hrun).
Defined.

(** X2 on the sample store: one bump, then accepted; next_nonce goes from
    3 to 4. *)
Lemma handleInProgressEthTx_next_nonce_witness :
  exists q' err,
    handleInProgressEthTx sample_env [underpriced; accepted] sample_store
                          in_progress_row in_progress_attempt 100 = Returns (q', err)
    /\ eth_key_states q' !! (10, 1) = Some 4
    /\ (eth_key_states q' = eth_key_states sample_store
        \/ (err = None
            /\ exists nonce,
                 EthTx.Nonce in_progress_row = Some nonce
                 /\ eth_key_states sample_store !! (10, 1) = Some nonce
                 /\ eth_key_states q' !! (10, 1) = Some (nonce + 1))).
Proof.
  destruct (handleInProgressEthTx sample_env [underpriced; accepted] sample_store
              in_progress_row in_progress_attempt 100) as [[q' err]| |] eqn:Hrun;
    try (vm_compute in Hrun; discriminate Hrun).
  exists q', err. split; [reflexivity |].
  split. { vm_compute in Hrun. injection Hrun as <- _. reflexivity. }
  destruct (handleInProgressEthTx_next_nonce _ _ _ _ _ _ _ _ Hrun)
    as [Hsame|(Hnil & nonce & Hn & Hk & Hk' & _)].
  - left. exact Hsame.
  - right. split; [exact Hnil |]. exists nonce. split; [exact Hn |]. split; [exact Hk | exact Hk'].
Defined.

(** X3 on the sample store: accepted, and the row is unconfirmed. *)
Lemma handleInProgressEthTx_nil_leaves_in_progress_witness :
  exists q',
    handleInProgressEthTx sample_env [accepted] sample_store
                          in_progress_row in_progress_attempt 100 = Returns (q', None)
    /\ forall r, r ∈ eth_txes q' -> EthTx.ID r = 1 ->
         (EthTx.State r = EthTxUnconfirmed /\ EthTx.BroadcastAt r = Some 100)
         \/ (EthTx.State r = EthTxFatalError /\ EthTx.Nonce r = None
             /\ EthTx.BroadcastAt r = None).
Proof.
  destruct (handleInProgressEthTx sample_env [accepted] sample_store
              in_progress_row in_progress_attempt 100) as [[q' [e|]]| |] eqn:Hrun;
    try (vm_compute in Hrun; discriminate Hrun).
  exists q'. split; [reflexivity |].
  exact (handleInProgressEthTx_nil_leaves_in_progress _ _ _ _ _ _ _ Hrun).
Defined.

(** X4 on the crashed store: finishing transaction 1 leaves the rows 2 and
    3 alone. *)
Lemma handleInProgressEthTx_other_rows_witness :
  exists q' err,
    handleInProgressEthTx sample_env [accepted] crashed_store
                          in_progress_row in_progress_attempt 100 = Returns (q', err)
    /\ EthTx.ID <$> eth_txes q' = [1; 2; 3]
    /\ forall r, EthTx.ID r <> 1 -> r ∈ eth_txes q' <-> r ∈ eth_txes crashed_store.
Proof.
  destruct (handleInProgressEthTx sample_env [accepted] crashed_store
              in_progress_row in_progress_attempt 100) as [[q' err]| |] eqn:Hrun;
    try (vm_compute in Hrun; discriminate Hrun).
  exists q', err. split; [reflexivity |].
  destruct (handleInProgressEthTx_other_rows _ _ _ _ _ _ _ _ Hrun) as [Hids Hframe].
  split; [rewrite Hids; reflexivity | exact Hframe].
Defined.

(** X5 on the sample store: "tx fee cap exceeded". *)
Lemma handleInProgressEthTx_fatal_send_error_witness :
  exists q',
    handleInProgressEthTx sample_env [too_expensive] sample_store
                          in_progress_row in_progress_attempt 100 = Returns (q', None)
    /\ (forall r, r ∈ eth_txes q' -> EthTx.ID r = 1 ->
          EthTx.State r = EthTxFatalError
          /\ EthTx.Error r = Some "tx fee cap exceeded"
          /\ EthTx.Nonce r = None)
    /\ eth_key_states q' = eth_key_states sample_store.
Proof.
  assert (sent in_progress_row too_expensive) as Hsent.
  { intros Hsim. discriminate Hsim. }
  assert (exists r, r ∈ eth_txes sample_store /\ EthTx.ID r = EthTx.ID in_progress_row) as Hrow.
  { exists in_progress_row. split; [apply list_elem_of_In; left; reflexivity | reflexivity]. }
  destruct (handleInProgressEthTx_fatal_send_error sample_env too_expensive [] sample_store
              in_progress_row in_progress_attempt 100 _
              eq_refl Hsent eq_refl (or_introl eq_refl) eq_refl Hrow)
    as (q' & Hrun & Hrows & _ & Hkeys).
  exists q'. split; [exact Hrun |]. split; [exact Hrows | exact Hkeys].
Defined.

(** X6 on the sample store: out of funds. *)
Lemma handleInProgressEthTx_insufficient_eth_witness :
  handleInProgressEthTx sample_env [out_of_funds; accepted] sample_store
                        in_progress_row in_progress_attempt 100
  = Returns (sample_store, Some "insufficient funds for transfer").
Proof.
  assert (sent in_progress_row out_of_funds) as Hsent.
  { intros Hsim. discriminate Hsim. }
  exact (handleInProgressEthTx_insufficient_eth sample_env out_of_funds [accepted] sample_store
           in_progress_row in_progress_attempt 100 _ eq_refl Hsent eq_refl
           ltac:(repeat split; reflexivity)).
Defined.

(** X7 on the sample store: a full mempool counts as accepted. *)
Lemma handleInProgressEthTx_temporarily_underpriced_witness :
  handleInProgressEthTx sample_env [mempool_full] sample_store
                        in_progress_row in_progress_attempt 100
  = handleInProgressEthTx sample_env [accepted] sample_store
                          in_progress_row in_progress_attempt 100.
Proof.
  exact (handleInProgressEthTx_temporarily_underpriced sample_env mempool_full [] sample_store
           in_progress_row in_progress_attempt 100 _ eq_refl
           ltac:(repeat split; reflexivity)).
Defined.

(** X8 on the sample store: the node cannot be reached. *)
Lemma handleInProgressEthTx_unrecognised_error_witness :
  handleInProgressEthTx sample_env [connection_refused] sample_store
                        in_progress_row in_progress_attempt 100
  = Returns (sample_store, Some "error while sending transaction 1: connection refused").
Proof.
  assert (sent in_progress_row connection_refused) as Hsent.
  { intros Hsim. discriminate Hsim. }
  exact (handleInProgressEthTx_unrecognised_error sample_env connection_refused []
           sample_store in_progress_row in_progress_attempt 100 _ eq_refl Hsent eq_refl
           ltac:(repeat split; reflexivity)).
Defined.

(** X9 on the sample store: a simulation that fails without a JSON-RPC
    error changes nothing. *)
Lemma handleInProgressEthTx_simulation_witness :
  handleInProgressEthTx sample_env [mkRound SimulationFailed None] sample_store
                        in_progress_row in_progress_attempt 100
  = handleInProgressEthTx sample_env [mkRound SimulationSucceeded None] sample_store
                          in_progress_row in_progress_attempt 100.
Proof.
  exact (proj1 (proj2 (handleInProgressEthTx_simulation sample_env [] sample_store
                         in_progress_row in_progress_attempt 100 None eq_refl))).
Defined.


(** X13 on the store whose key is gone. *)
Lemma nextUnstartedTransactionWithNonce_missing_key_witness :
  nextUnstartedTransactionWithNonce sample_env keyless_store 10 = (None, Some ErrNoRows).
Proof.
  exact (nextUnstartedTransactionWithNonce_missing_key sample_env keyless_store 10
           ltac:(vm_compute; discriminate) eq_refl).
Defined.

(** X14 on the sample store: the second save is refused. *)
Lemma saveAttempt_twice_witness :
  exists etx' q',
    saveAttempt sample_store in_progress_row in_progress_attempt EthTxAttemptBroadcast []
    = Returns (etx', q', None)
    /\ saveAttempt q' in_progress_row in_progress_attempt EthTxAttemptBroadcast []
       = Returns (EthTx.with_State EthTxUnconfirmed in_progress_row, q',
                  Some ("saveUnconfirmed failed: " +:+ nonce_invariant_violation)).
Proof.
  destruct (saveAttempt sample_store in_progress_row in_progress_attempt
              EthTxAttemptBroadcast []) as [[[etx' q'] [e|]]| |] eqn:Hsave;
    try (vm_compute in Hsave; discriminate Hsave).
  exists etx', q'. split; [reflexivity |].
  exact (proj2 (saveAttempt_twice _ _ _ _ _ Hsave)).
Defined.


(** X16 on a store with one transaction in flight and a cap of one. *)
Lemma unstarted_loop_throttled_witness :
  CountUnconfirmedTransactions in_flight_store 10 1 = 1
  /\ unstarted_loop throttled_worker 50 accepting_node in_flight_store 10 = None.
Proof.
  split; [reflexivity |].
  assert (0 < EvmMaxInFlightTransactions throttled_worker) as Hpos by reflexivity.
  assert (EvmMaxInFlightTransactions throttled_worker
          <= CountUnconfirmedTransactions in_flight_store 10
               (chainID (base throttled_worker))) as Hcap.
  { vm_compute. intros Hgt. discriminate Hgt. }
  exact (unstarted_loop_throttled throttled_worker 50 accepting_node in_flight_store 10
           Hpos Hcap).
Defined.

(** X17 on the unstarted store with the estimator down. *)
Lemma unstarted_loop_estimator_fails_witness :
  unstarted_loop blind_worker 1 accepting_node unstarted_store 10
  = Some (Returns (unstarted_store, Some "failed to get dynamic gas fee: no block history")).
Proof.
  exact (proj2 (unstarted_loop_estimator_fails blind_worker 0 accepting_node unstarted_store
                  10 3 (sample_eth_tx 5 10 0 8 EthTxUnstarted None None)
                  [sample_eth_tx 3 10 0 9 EthTxUnstarted None None;
                   sample_eth_tx 2 10 7 2 EthTxUnstarted None None]
                  "no block history" eq_refl eq_refl eq_refl)
               eq_refl eq_refl).
Defined.

(** X18 on the store whose in_progress transaction lost its attempt. *)
Lemma processUnstartedEthTxs_in_progress_first_witness :
  exists e,
    processUnstartedEthTxs sample_worker 5 false false [accepted] accepting_node
                           broken_store 10
    = Some (Returns (broken_store, Some ("processUnstartedEthTxs failed: " +:+ e))).
Proof.
  destruct (handleAnyInProgressEthTx (base sample_worker) [accepted] false broken_store 10)
    as [[q1 [e|]]| |] eqn:Hany; try (vm_compute in Hany; discriminate Hany).
  exists e.
  destruct (processUnstartedEthTxs_in_progress_first sample_worker 5 false [accepted]
              accepting_node broken_store q1 10 (Some e) Hany) as (_ & Herr).
  destruct (Herr e eq_refl) as (Hrun & _).
  vm_compute in Hany. injection Hany as <- _. exact Hrun.
Defined.

